(* Verification of the COMPAS Navigator stage-progression core.

   Embedded sources:
   - netlify/functions/simple-api.js and the Express server (unnamed part_001):
     the keyword-driven [updateSessionStage], the session class with
     context/objective/methods fields, the chat, upload and report handlers;
   - netlify/functions/test.js (second module of that file): the session
     class with [stageData], [updateStageData], [STAGE_CRITERIA],
     [analyzeAndProgressStage], the chat handler and
     [generateComprehensiveReport]. *)

From Stdlib Require Import String Ascii List ZArith Bool Lia.
Set Warnings "-register-all".
Import ListNotations.
Open Scope string_scope.

(* ------------------------------------------------------------------ *)
(** * JavaScript values *)

(** Values flowing through the code: JSON results of [JSON.parse], the
    literals of the source, [undefined], and the built-in objects that a
    property read finds on [Object.prototype] (named by the property). An
    object is the list of its own properties in insertion order. Numbers
    are integers here. *)
Inductive jsval :=
| JUndef
| JNull
| JBool (b : bool)
| JNum (z : Z)
| JStr (s : string)
| JArr (l : list jsval)
| JObj (fields : list (string * jsval))
| JBuiltin (name : string).

Definition obj := list (string * jsval).

(** The names of the properties of [Object.prototype] (ECMAScript,
    section 20.1.3 and Annex B): a read of such a name on an ordinary object
    without the own property finds the inherited built-in. *)
Definition object_prototype_names : list string :=
  ["constructor"; "__defineGetter__"; "__defineSetter__"; "hasOwnProperty";
   "__lookupGetter__"; "__lookupSetter__"; "isPrototypeOf";
   "propertyIsEnumerable"; "toString"; "valueOf"; "__proto__";
   "toLocaleString"].

Definition proto_member (k : string) : bool :=
  existsb (String.eqb k) object_prototype_names.

(** Own properties of the built-ins that are not writable: [length] and
    [name] of every built-in function, and also [prototype] of the
    [Object] constructor; [Object.prototype] itself (reached by
    [__proto__]) has writable data properties only. *)
Definition builtin_readonly (name : string) : list string :=
  if String.eqb name "__proto__" then []
  else if String.eqb name "constructor" then ["length"; "name"; "prototype"]
  else ["length"; "name"].

Definition is_object (v : jsval) : bool :=
  match v with JArr _ | JObj _ | JBuiltin _ => true | _ => false end.

(** A write [b[k] = v] on the built-in [b = Object.prototype[name]], taken
    in its initial state, that throws a TypeError; [fn_proto] says whether
    [Function.prototype] is still on the prototype chain of the function
    [b]. A function throws on its non-writable own properties and on
    [caller] and [arguments], whose accessors inherited from
    [Function.prototype] throw. [Object.prototype] has an immutable
    prototype ([null]): its [__proto__] setter throws for an object and
    ignores a primitive or [null]. *)
Definition builtin_write_throws (name : string) (fn_proto : bool) (k : string) (v : jsval)
  : bool :=
  if String.eqb name "__proto__" then String.eqb k "__proto__" && is_object v
  else existsb (String.eqb k) (builtin_readonly name)
       || (fn_proto && (String.eqb k "caller" || String.eqb k "arguments")).

(** Whether [Function.prototype] is on the chain of the built-in function
    after the write [b[k] = v]: the [__proto__] setter replaces the
    prototype by an object or [null] (a built-in function value keeps
    [Function.prototype] on the new chain) and ignores a primitive. *)
Definition fn_proto_after (fn_proto : bool) (k : string) (v : jsval) : bool :=
  if String.eqb k "__proto__" then
    match v with
    | JNull | JArr _ | JObj _ => false
    | JBuiltin n => negb (String.eqb n "__proto__")
    | _ => fn_proto
    end
  else fn_proto.

(** [Object.assign(b, data)] into that built-in: the writes in the order
    of the source's keys, up to the first that throws. The properties the
    built-in gains are not tracked (they are outside the session). *)
Fixpoint builtin_assign_throws (name : string) (fn_proto : bool)
    (kvs : list (string * jsval)) : bool :=
  match kvs with
  | [] => false
  | (k, v) :: kvs' =>
      builtin_write_throws name fn_proto k v
      || builtin_assign_throws name (fn_proto_after fn_proto k v) kvs'
  end.

Fixpoint assoc {A} (k : string) (l : list (string * A)) : option A :=
  match l with
  | [] => None
  | (k', v) :: l' => if String.eqb k k' then Some v else assoc k l'
  end.

(** [o[k] = v] on an ordinary object: overwrite in place, or append a new
    own property. *)
Fixpoint set_prop {A} (k : string) (v : A) (l : list (string * A))
  : list (string * A) :=
  match l with
  | [] => [(k, v)]
  | (k', v') :: l' =>
      if String.eqb k k' then (k', v) :: l' else (k', v') :: set_prop k v l'
  end.

(** Decimal rendering of naturals and integers ([String(n)]). *)
Fixpoint digits_aux (fuel : nat) (n : nat) (acc : string) : string :=
  match fuel with
  | O => acc
  | S fuel' =>
      let d := Nat.modulo n 10 in
      let acc' := String (ascii_of_nat (48 + d)) acc in
      if Nat.ltb n 10 then acc' else digits_aux fuel' (Nat.div n 10) acc'
  end.

Definition string_of_nat (n : nat) : string := digits_aux (S n) n "".

Definition string_of_Z (z : Z) : string :=
  match z with
  | Zneg p => String "-" (string_of_nat (Pos.to_nat p))
  | _ => string_of_nat (Z.to_nat z)
  end.

(** A canonical array index key ("0", "1", ...) denotes its number. *)
Fixpoint parse_nat_aux (s : string) (acc : nat) : option nat :=
  match s with
  | EmptyString => Some acc
  | String c s' =>
      let d := nat_of_ascii c in
      if andb (Nat.leb 48 d) (Nat.leb d 57)
      then parse_nat_aux s' (acc * 10 + (d - 48)) else None
  end.

Definition index_of_key (k : string) : option nat :=
  match k with
  | EmptyString => None
  | _ => match parse_nat_aux k 0 with
         | Some n => if String.eqb (string_of_nat n) k then Some n else None
         | None => None
         end
  end.

Fixpoint string_chars (s : string) : list string :=
  match s with
  | EmptyString => []
  | String c s' => String c EmptyString :: string_chars s'
  end.

(** Property read [v[k]] ([v.k]); [None] is the TypeError thrown when [v]
    is [null] or [undefined]. *)
Definition js_get (v : jsval) (k : string) : option jsval :=
  let inherited := if proto_member k then JBuiltin k else JUndef in
  match v with
  | JUndef | JNull => None
  | JObj fs => Some (match assoc k fs with Some x => x | None => inherited end)
  | JArr l =>
      if String.eqb k "length" then Some (JNum (Z.of_nat (length l)))
      else match index_of_key k with
           | Some n => Some (nth n l JUndef)
           | None => Some inherited
           end
  | JStr s =>
      if String.eqb k "length" then Some (JNum (Z.of_nat (String.length s)))
      else match index_of_key k with
           | Some n => Some (nth n (map JStr (string_chars s)) JUndef)
           | None => Some inherited
           end
  | _ => Some inherited
  end.

(** ToBoolean. *)
Definition truthy (v : jsval) : bool :=
  match v with
  | JUndef | JNull => false
  | JBool b => b
  | JNum z => negb (Z.eqb z 0)
  | JStr s => negb (String.eqb s "")
  | _ => true
  end.

(** [a || b] *)
Definition js_or (a b : jsval) : jsval := if truthy a then a else b.

(** The own enumerable properties that [Object.assign] copies from a
    source value: none from [null], [undefined], booleans, numbers and
    functions; the indices of strings and arrays; the fields of objects. *)
Fixpoint indexed {A} (i : nat) (l : list A) : list (string * A) :=
  match l with
  | [] => []
  | x :: l' => (string_of_nat i, x) :: indexed (S i) l'
  end.

Definition own_enumerable (v : jsval) : list (string * jsval) :=
  match v with
  | JStr s => indexed 0 (map JStr (string_chars s))
  | JArr l => indexed 0 l
  | JObj fs => fs
  | _ => []
  end.

(** [Object.assign(target, source)] on an ordinary object target, as the
    own properties of the target after the call. A [__proto__] key of the
    source is not copied: its write goes through the [__proto__] setter
    inherited from [Object.prototype], which replaces the target's
    prototype (object or [null] value) or does nothing (primitive value).
    Prototypes of objects are not tracked, so the result is exact when the
    source has no [__proto__] key, or when the target's prototype is still
    [Object.prototype]. *)
Definition assign (target : obj) (source : jsval) : obj :=
  fold_left (fun o kv => if String.eqb (fst kv) "__proto__" then o
                         else set_prop (fst kv) (snd kv) o)
            (own_enumerable source) target.

(* ------------------------------------------------------------------ *)
(** * Strings of the keyword policy *)

(** [String.prototype.toLowerCase] on the letters A-Z. *)
Definition lower_ascii (c : ascii) : ascii :=
  let n := nat_of_ascii c in
  if andb (Nat.leb 65 n) (Nat.leb n 90) then ascii_of_nat (n + 32) else c.

Fixpoint toLowerCase (s : string) : string :=
  match s with
  | EmptyString => EmptyString
  | String c s' => String (lower_ascii c) (toLowerCase s')
  end.

(** [s.includes(pat)]: [pat] occurs in [s] at some position. *)
Fixpoint includes (s pat : string) : bool :=
  String.prefix pat s ||
  match s with
  | EmptyString => false
  | String _ s' => includes s' pat
  end.

(* ------------------------------------------------------------------ *)
(** * Stages *)

(** [COMPAS_STAGES]. *)
Inductive Stage :=
| CONTEXT_DISCOVERY
| OBJECTIVE_DEFINITION
| METHOD_IDEATION
| METHOD_SELECTION
| IMPLEMENTATION_PLAN
| COMPLETE.

Definition stage_key (s : Stage) : string :=
  match s with
  | CONTEXT_DISCOVERY => "context_discovery"
  | OBJECTIVE_DEFINITION => "objective_definition"
  | METHOD_IDEATION => "method_ideation"
  | METHOD_SELECTION => "method_selection"
  | IMPLEMENTATION_PLAN => "implementation_plan"
  | COMPLETE => "complete"
  end.

Definition all_stages : list Stage :=
  [CONTEXT_DISCOVERY; OBJECTIVE_DEFINITION; METHOD_IDEATION; METHOD_SELECTION;
   IMPLEMENTATION_PLAN; COMPLETE].

(** Position in the fixed order of the framework. *)
Definition stage_rank (s : Stage) : nat :=
  match s with
  | CONTEXT_DISCOVERY => 0
  | OBJECTIVE_DEFINITION => 1
  | METHOD_IDEATION => 2
  | METHOD_SELECTION => 3
  | IMPLEMENTATION_PLAN => 4
  | COMPLETE => 5
  end.

Definition Stage_eqb (a b : Stage) : bool := Nat.eqb (stage_rank a) (stage_rank b).

(** [STAGE_CRITERIA[stage].nextStage] (test.js). *)
Definition nextStage (s : Stage) : option Stage :=
  match s with
  | CONTEXT_DISCOVERY => Some OBJECTIVE_DEFINITION
  | OBJECTIVE_DEFINITION => Some METHOD_IDEATION
  | METHOD_IDEATION => Some METHOD_SELECTION
  | METHOD_SELECTION => Some IMPLEMENTATION_PLAN
  | IMPLEMENTATION_PLAN => Some COMPLETE
  | COMPLETE => None
  end.

(* ------------------------------------------------------------------ *)
(** * String conversion in template literals *)

Definition nl : string := String (ascii_of_nat 10) EmptyString.

(** Evaluation that may throw ([None]). *)
Definition opt_bind {A B} (o : option A) (f : A -> option B) : option B :=
  match o with Some a => f a | None => None end.

Notation "x <- e ;; k" := (opt_bind e (fun x => k))
  (at level 61, e at next level, right associativity).

Fixpoint map_option {A B} (f : A -> option B) (l : list A) : option (list B) :=
  match l with
  | [] => Some []
  | x :: l' => y <- f x ;; r <- map_option f l' ;; Some (y :: r)
  end.

(** [String(f)] of a built-in: [Object.prototype] prints as an object, the
    functions print their native source text ([Object] for the
    constructor). *)
Definition builtin_to_string (name : string) : string :=
  if String.eqb name "__proto__" then "[object Object]"
  else if String.eqb name "constructor" then "function Object() { [native code] }"
  else "function " ++ name ++ "() { [native code] }".

Fixpoint join (sep : string) (l : list string) : string :=
  match l with
  | [] => ""
  | [x] => x
  | x :: l' => x ++ sep ++ join sep l'
  end.

(** [o[k]] on an ordinary object with own properties [fs]. *)
Definition obj_get (fs : obj) (k : string) : jsval :=
  match assoc k fs with
  | Some v => v
  | None => if proto_member k then JBuiltin k else JUndef
  end.

(** The outcome of a call with no argument: a primitive (given by its
    string), an object, or a thrown error. *)
Inductive call_result :=
| CallPrim (s : string)
| CallObj
| CallThrow.

(** The call [Object.prototype[n].call(o)] for an ordinary object [o]
    with own properties [fs] (ECMAScript 20.1.3 and B.2.2), for [n] other
    than [toLocaleString]: [constructor] ([Object()]) and [valueOf] return
    an object; [hasOwnProperty] and [propertyIsEnumerable] look up the key
    "undefined" (own data properties are enumerable); [isPrototypeOf] of
    [undefined] is false; [__lookupGetter__] and [__lookupSetter__] find
    no accessor; [__defineGetter__] and [__defineSetter__] throw, as
    [undefined] is not a function; [toString] gives the tag of an ordinary
    object. *)
Definition call_proto_method (n : string) (fs : obj) : call_result :=
  if String.eqb n "toString" then CallPrim "[object Object]"
  else if String.eqb n "hasOwnProperty" || String.eqb n "propertyIsEnumerable" then
    CallPrim (match assoc "undefined" fs with Some _ => "true" | None => "false" end)
  else if String.eqb n "isPrototypeOf" then CallPrim "false"
  else if String.eqb n "__lookupGetter__" || String.eqb n "__lookupSetter__" then
    CallPrim "undefined"
  else if String.eqb n "constructor" || String.eqb n "valueOf" then CallObj
  else CallThrow.

(** The same call of [Object.prototype[n]], where [toLocaleString] calls
    [o.toString()]: it throws when that property is not a function, or is
    [toLocaleString] itself (unbounded recursion, a RangeError). *)
Definition call_method (n : string) (fs : obj) : call_result :=
  if String.eqb n "toLocaleString" then
    match obj_get fs "toString" with
    | JBuiltin t =>
        if String.eqb t "__proto__" || String.eqb t "toLocaleString" then CallThrow
        else call_proto_method t fs
    | _ => CallThrow
    end
  else call_proto_method n fs.

(** OrdinaryToPrimitive(o, string) on an ordinary object (which has no
    [Symbol.toPrimitive] method): call [toString], then [valueOf], skipping
    a property that is not a function, and keep the first primitive
    result; when there is none, a TypeError is thrown. [JBuiltin
    "__proto__"] is [Object.prototype], the only built-in that is not a
    function. *)
Definition ordinary_to_string (fs : obj) : option string :=
  let try_method (k : string) (next : option string) : option string :=
    match obj_get fs k with
    | JBuiltin n =>
        if String.eqb n "__proto__" then next
        else match call_method n fs with
             | CallPrim s => Some s
             | CallObj => next
             | CallThrow => None
             end
    | _ => next
    end in
  try_method "toString" (try_method "valueOf" None).

(** ToString, as used by [`${v}`]; [None] is a thrown error. An object
    goes through [ordinary_to_string]; so a parsed JSON object with an own
    [toString] key, whose value is never a function, throws. An array
    prints as [Array.prototype.join(",")], where [null] and [undefined]
    elements print as the empty string and any other element is converted
    in turn. A built-in function prints by [Function.prototype.toString]. *)
Fixpoint js_to_string (v : jsval) : option string :=
  match v with
  | JUndef => Some "undefined"
  | JNull => Some "null"
  | JBool b => Some (if b then "true" else "false")
  | JNum z => Some (string_of_Z z)
  | JStr s => Some s
  | JArr l =>
      parts <- map_option (fun x => match x with
                                    | JUndef | JNull => Some ""
                                    | _ => js_to_string x
                                    end) l ;;
      Some (join "," parts)
  | JObj fs => ordinary_to_string fs
  | JBuiltin n => Some (builtin_to_string n)
  end.

(** V8's message for the TypeError of OrdinaryToPrimitive, the only error
    that ToString throws on a value of [JSON.parse]. *)
Definition to_primitive_error : string := "Cannot convert object to primitive value".

(** [a === b] on the values compared by the code (a string constant). *)
Definition strict_eq_str (v : jsval) (s : string) : bool :=
  match v with
  | JStr s' => String.eqb s' s
  | _ => false
  end.

(** A chat-history entry [{ role, content, timestamp: new Date() }]; the
    timestamp is the clock reading in milliseconds. *)
Record message := Message {
  role : string;
  content : jsval;
  timestamp : Z
}.

(** The reply of a handler: HTTP status and JSON body. *)
Record http_response := Http {
  statusCode : Z;
  body : jsval
}.

(** Outcome of the chat-completion request
    [openai.chat.completions.create(...)] followed by
    [completion.choices[0].message.content]: the assistant text, or a
    thrown error with its message. *)
Inductive completion :=
| CompletionOk (text : string)
| CompletionFail (error_message : string).

(* ------------------------------------------------------------------ *)
(** * Keyword policy: the Express server (part_001) and simple-api.js *)

Module KeywordApi.

(** [class SessionState] of the Express server. The class in simple-api.js
    has the same fields except [uploadedFiles], which no handler of that
    file touches; it is kept empty there. *)
Record SessionState := Session {
  sessionId : string;
  stage : Stage;
  conversationHistory : list message;
  context_facts : list jsval;
  context_artifacts : list jsval;
  objective : jsval;
  methods : list jsval;
  chosenMethod : jsval;
  implementationPlan : jsval;
  performanceMeasures : list jsval;
  learningQuestions : list jsval;
  uploadedFiles : list jsval
}.

(** [new SessionState(sessionId)] *)
Definition new_SessionState (id : string) : SessionState :=
  Session id CONTEXT_DISCOVERY [] [] [] JNull [] JNull JNull [] [] [].

(** [setStage(stage)] (and the direct assignment [session.stage = ...] of
    simple-api.js). *)
Definition setStage (s : SessionState) (st : Stage) : SessionState :=
  Session (sessionId s) st (conversationHistory s) (context_facts s)
    (context_artifacts s) (objective s) (methods s) (chosenMethod s)
    (implementationPlan s) (performanceMeasures s) (learningQuestions s)
    (uploadedFiles s).

(** [addMessage(role, content)] at clock reading [now]. *)
Definition addMessage (s : SessionState) (r : string) (c : jsval) (now : Z)
  : SessionState :=
  Session (sessionId s) (stage s)
    (app (conversationHistory s) [Message r c now]) (context_facts s)
    (context_artifacts s) (objective s) (methods s) (chosenMethod s)
    (implementationPlan s) (performanceMeasures s) (learningQuestions s)
    (uploadedFiles s).

(** [addArtifact(artifact)] followed by [session.uploadedFiles.push(artifact)]
    (upload handler). *)
Definition addArtifact_and_record (s : SessionState) (a : jsval) : SessionState :=
  Session (sessionId s) (stage s) (conversationHistory s) (context_facts s)
    (app (context_artifacts s) [a]) (objective s) (methods s) (chosenMethod s)
    (implementationPlan s) (performanceMeasures s) (learningQuestions s)
    (app (uploadedFiles s) [a]).

(** [updateSessionStage(session, response)]: identical in simple-api.js and
    the Express server. *)
Definition updateSessionStage (session : SessionState) (response : string)
  : SessionState :=
  let lowerResponse := toLowerCase response in
  match stage session with
  | CONTEXT_DISCOVERY =>
      if includes lowerResponse "yes, that's right"
         || includes lowerResponse "correct"
      then setStage session OBJECTIVE_DEFINITION else session
  | OBJECTIVE_DEFINITION =>
      if includes lowerResponse "root cause"
         || includes lowerResponse "problem statement"
      then setStage session METHOD_IDEATION else session
  | METHOD_IDEATION =>
      if includes lowerResponse "method"
         && (includes lowerResponse "1." || includes lowerResponse "2."
             || includes lowerResponse "3.")
      then setStage session METHOD_SELECTION else session
  | METHOD_SELECTION =>
      if includes lowerResponse "implementation plan"
      then setStage session IMPLEMENTATION_PLAN else session
  | IMPLEMENTATION_PLAN =>
      if includes lowerResponse "performance measures"
         && includes lowerResponse "learning questions"
      then setStage session COMPLETE else session
  | COMPLETE => session
  end.

Definition turn_body (session : SessionState) (assistantMessage : string) : jsval :=
  JObj [("message", JStr assistantMessage);
        ("stage", JStr (stage_key (stage session)));
        ("sessionState",
          JObj [("artifacts", JArr (context_artifacts session));
                ("objective", objective session);
                ("methods", JArr (methods session))])].

(** [POST /api/sessions/:sessionId/chat] of the Express server on an
    existing session. [t_user] and [t_assistant] are the two clock readings
    of the [addMessage] calls. A failure of the prompt file read or of the
    completion request is [CompletionFail]. *)
Definition express_chat (session : SessionState) (msg : jsval)
    (t_user t_assistant : Z) (c : completion) : SessionState * http_response :=
  let s1 := addMessage session "user" msg t_user in
  match c with
  | CompletionFail _ =>
      (s1, Http 500 (JObj [("error", JStr "Failed to process message")]))
  | CompletionOk assistantMessage =>
      let s2 := addMessage s1 "assistant" (JStr assistantMessage) t_assistant in
      let s3 := updateSessionStage s2 assistantMessage in
      (s3, Http 200 (turn_body s3 assistantMessage))
  end.

(** The chat branch of [exports.handler] in simple-api.js on an existing
    session; the error goes to the outer [catch]. *)
Definition netlify_chat (session : SessionState) (msg : jsval)
    (t_user t_assistant : Z) (c : completion) : SessionState * http_response :=
  let s1 := addMessage session "user" msg t_user in
  match c with
  | CompletionFail e =>
      (s1, Http 500 (JObj [("error", JStr "Internal server error");
                           ("message", JStr e)]))
  | CompletionOk assistantMessage =>
      let s2 := addMessage s1 "assistant" (JStr assistantMessage) t_assistant in
      let s3 := updateSessionStage s2 assistantMessage in
      (s3, Http 200 (turn_body s3 assistantMessage))
  end.

(** [POST /api/sessions/:sessionId/upload] on an existing session, after
    multer stored the file; [artifact] is the descriptor the handler
    builds. *)
Definition express_upload (session : SessionState) (artifact : jsval)
  : SessionState * http_response :=
  (addArtifact_and_record session artifact,
   Http 200 (JObj [("artifact", artifact)])).

(** [list.forEach(x => report += f(x))], where [f] may throw. *)
Fixpoint concat_each (f : jsval -> option string) (l : list jsval) : option string :=
  match l with
  | [] => Some ""
  | x :: l' =>
      opt_bind (f x) (fun a => opt_bind (concat_each f l') (fun b => Some (a ++ b)))
  end.

(** [`| ${artifact.filename} | ... | ${artifact.source} |\n`]. *)
Definition artifact_row (artifact : jsval) : option string :=
  filename <- js_get artifact "filename" ;; filename_s <- js_to_string filename ;;
  mimetype <- js_get artifact "mimetype" ;; mimetype_s <- js_to_string mimetype ;;
  owner <- js_get artifact "owner" ;; owner_s <- js_to_string owner ;;
  sensitivity <- js_get artifact "sensitivity" ;;
  source <- js_get artifact "source" ;; source_s <- js_to_string source ;;
  Some ("| " ++ filename_s ++ " | " ++ mimetype_s ++ " | " ++ owner_s ++ " | "
        ++ (if strict_eq_str sensitivity "high" then "Redact PII" else "None")
        ++ " | " ++ source_s ++ " |" ++ nl).

(** [`- ${x}\n`] *)
Definition bullet_line (x : jsval) : option string :=
  x_s <- js_to_string x ;; Some ("- " ++ x_s ++ nl).

(** [generateCOMPASReport(session)] of the Express server; [None] is an
    error thrown while reading an artifact or converting a value to a
    string. *)
Definition generateCOMPASReport (session : SessionState) : option string :=
  let challengeTitle := js_or (objective session) (JStr "Nonprofit Challenge") in
  title <- js_to_string challengeTitle ;;
  rows <- concat_each artifact_row (context_artifacts session) ;;
  facts <- concat_each bullet_line (context_facts session) ;;
  objective_s <- js_to_string (js_or (objective session) (JStr "To be defined")) ;;
  method_s <- js_to_string (js_or (chosenMethod session) (JStr "To be selected")) ;;
  measures <- concat_each bullet_line (performanceMeasures session) ;;
  questions <- concat_each bullet_line (learningQuestions session) ;;
  Some ("## COMPAS Report – " ++ title ++ nl ++ nl
    ++ "### 0. Data / Context to Supply AI" ++ nl
    ++ "| Artifact | Current format | Owner | Prep needed | Upload method |" ++ nl
    ++ "|----------|----------------|-------|-------------|---------------|" ++ nl
    ++ rows
    ++ nl ++ "### 1. Context (summary)" ++ nl
    ++ facts
    ++ nl ++ "### 2. Objective (root problem)" ++ nl
    ++ "- " ++ objective_s ++ nl
    ++ nl ++ "### 3. Chosen Method(s)" ++ nl
    ++ "- " ++ method_s ++ nl
    ++ nl ++ "### 4. Implementation Plan" ++ nl
    ++ (if truthy (implementationPlan session)
        then "| Step | Owner | When | Notes |" ++ nl
             ++ "|------|-------|------|-------|" ++ nl
        else "")
    ++ nl ++ "### 5. Performance Measures" ++ nl
    ++ measures
    ++ nl ++ "### 6. Learning Questions" ++ nl
    ++ questions).

(** [GET /api/sessions/:sessionId/report] on an existing session; a thrown
    TypeError reaches the Express error middleware. *)
Definition express_report (session : SessionState) : SessionState * http_response :=
  match generateCOMPASReport session with
  | Some report => (session, Http 200 (JObj [("report", JStr report)]))
  | None => (session, Http 500 (JStr "Something broke!"))
  end.

(** [arr.join(sep)]: [null] and [undefined] elements print as the empty
    string. *)
Definition join_values (sep : string) (l : list jsval) : option string :=
  parts <- map_option (fun x => match x with
                                | JUndef | JNull => Some ""
                                | _ => js_to_string x
                                end) l ;;
  Some (join sep parts).

(** The report text of the report branch of simple-api.js; [None] is an
    error thrown by a conversion to a string. *)
Definition netlify_report_text (session : SessionState) : option string :=
  facts <- join_values (nl ++ "- ") (context_facts session) ;;
  objective_s <- js_to_string (js_or (objective session) (JStr "To be defined")) ;;
  Some ("# COMPAS Report" ++ nl ++ nl ++ "## Context" ++ nl
        ++ facts
        ++ nl ++ nl ++ "## Objective" ++ nl
        ++ objective_s
        ++ nl ++ nl ++ "## Implementation Plan" ++ nl
        ++ "Detailed plan to be developed based on conversation.").

(** The report branch of simple-api.js: the session (unchanged) and the
    report text, or [None] when building the text throws (the error goes
    to the outer [catch]). *)
Definition netlify_report (session : SessionState) : SessionState * option string :=
  (session, netlify_report_text session).

(** The operations of the server on one existing session. *)
Inductive op :=
| ChatExpress (msg : jsval) (t_user t_assistant : Z) (c : completion)
| ChatNetlify (msg : jsval) (t_user t_assistant : Z) (c : completion)
| Upload (artifact : jsval)
| ReportExpress
| ReportNetlify.

Definition step (s : SessionState) (o : op) : SessionState :=
  match o with
  | ChatExpress m t1 t2 c => fst (express_chat s m t1 t2 c)
  | ChatNetlify m t1 t2 c => fst (netlify_chat s m t1 t2 c)
  | Upload a => fst (express_upload s a)
  | ReportExpress => fst (express_report s)
  | ReportNetlify => fst (netlify_report s)
  end.

(** The stage observed before each operation and at the end. *)
Fixpoint stages_of_run (s : SessionState) (ops : list op) : list Stage :=
  match ops with
  | [] => [stage s]
  | o :: ops' => stage s :: stages_of_run (step s o) ops'
  end.

End KeywordApi.

(* ------------------------------------------------------------------ *)
(** * Assisted-extraction policy: netlify/functions/test.js *)

Module AssistedApi.

(** [class SessionState] of test.js; [stageData] is the object of the
    per-stage records (own properties in insertion order),
    [progressMetrics] is split into its two fields. *)
Record SessionState := Session {
  sessionId : string;
  stage : Stage;
  conversationHistory : list message;
  stageData : list (string * obj);
  startTime : Z;
  stageStartTimes : list (string * Z)
}.

Definition initial_stageData : list (string * obj) :=
  [("context_discovery",
     [("situationDescription", JStr ""); ("stakeholders", JArr []);
      ("constraints", JArr []); ("artifacts", JArr []);
      ("completed", JBool false)]);
   ("objective_definition",
     [("rootProblem", JStr ""); ("problemStatement", JStr "");
      ("completed", JBool false)]);
   ("method_ideation", [("methods", JArr []); ("completed", JBool false)]);
   ("method_selection",
     [("chosenMethod", JNull); ("methodRationale", JStr "");
      ("completed", JBool false)]);
   ("implementation_plan",
     [("implementationSteps", JArr []); ("timeline", JStr "");
      ("performanceMeasures", JArr []); ("learningQuestions", JArr []);
      ("completed", JBool false)]);
   ("complete", [("finalReport", JStr ""); ("completed", JBool false)])].

(** [new SessionState(sessionId)]; [t0] and [t1] are the readings of the
    two [new Date()] calls of the constructor. *)
Definition new_SessionState (id : string) (t0 t1 : Z) : SessionState :=
  Session id CONTEXT_DISCOVERY [] initial_stageData t0 [("context_discovery", t1)].

Definition with_stageData (s : SessionState) (sd : list (string * obj)) : SessionState :=
  Session (sessionId s) (stage s) (conversationHistory s) sd (startTime s)
    (stageStartTimes s).

(** [addMessage(role, content)] at clock reading [now]. *)
Definition addMessage (s : SessionState) (r : string) (c : jsval) (now : Z)
  : SessionState :=
  Session (sessionId s) (stage s) (app (conversationHistory s) [Message r c now])
    (stageData s) (startTime s) (stageStartTimes s).

(** [updateStageData(stage, data)]:
    [if (this.stageData[stage]) Object.assign(this.stageData[stage], data)].
    The read [this.stageData[stage]] finds an own record, or else a
    built-in inherited from [Object.prototype] (truthy), or else
    [undefined]. Assigning into a built-in writes outside the session and
    throws (result [None]) on a property it cannot write; the handlers only
    pass the key of the current stage, so this case arises only for a
    direct call. *)
Definition updateStageData (s : SessionState) (k : string) (data : jsval)
  : option SessionState :=
  match assoc k (stageData s) with
  | Some r => Some (with_stageData s (set_prop k (assign r data) (stageData s)))
  | None =>
      if proto_member k then
        if builtin_assign_throws k true (own_enumerable data) then None else Some s
      else Some s
  end.

(** [getCurrentStageData()] *)
Definition getCurrentStageData (s : SessionState) : jsval :=
  match assoc (stage_key (stage s)) (stageData s) with
  | Some r => JObj r
  | None => JUndef
  end.

(** [session.stage = nextStage; session.progressMetrics.stageStartTimes[nextStage] = new Date()] *)
Definition enter_stage (s : SessionState) (n : Stage) (now : Z) : SessionState :=
  Session (sessionId s) n (conversationHistory s) (stageData s) (startTime s)
    (set_prop (stage_key n) now (stageStartTimes s)).

(** What the analysis request yields: the request throws, or it returns a
    text whose [JSON.parse] either throws ([None]) or gives a value. *)
Inductive analysis_outcome :=
| AnalysisFail (error_message : string)
| AnalysisText (parsed : option jsval).

(** The value returned from the [catch] block. *)
Definition analysis_error_result : jsval :=
  JObj [("shouldProgress", JBool false); ("progressReason", JStr "Analysis error");
        ("extractedData", JObj []); ("completionPercentage", JNum 0);
        ("missingInformation", JArr [])].

(** [analyzeAndProgressStage(session, userMessage, assistantResponse)]:
    returns the session at the end and the returned analysis value, or
    [None] when it throws. Building the prompt, before the [try] block,
    converts [userMessage] to a string (the stage, the assistant text and
    the [JSON.stringify] results cannot throw on the values of a session);
    a failure there escapes to the caller with the session unchanged.
    Inside the [try] block an exception keeps the mutations done before it
    and returns [analysis_error_result]; after an advance, the
    [console.log] converts [analysis.progressReason] to a string. [now] is
    the clock reading of the stage-entry timestamp. *)
Definition analyzeAndProgressStage (session : SessionState) (userMessage : jsval)
    (outcome : analysis_outcome) (now : Z) : SessionState * option jsval :=
  match js_to_string userMessage with
  | None => (session, None)
  | Some _ =>
  match outcome with
  | AnalysisFail _ => (session, Some analysis_error_result)
  | AnalysisText None => (session, Some analysis_error_result)
  | AnalysisText (Some analysis) =>
      match js_get analysis "extractedData" with
      | None => (session, Some analysis_error_result)
      | Some extractedData =>
          let r1 := if truthy extractedData
                    then updateStageData session (stage_key (stage session)) extractedData
                    else Some session in
          match r1 with
          | None => (session, Some analysis_error_result)
          | Some s1 =>
              match js_get analysis "shouldProgress" with
              | None => (s1, Some analysis_error_result)
              | Some shouldProgress =>
                  if truthy shouldProgress then
                    match nextStage (stage s1) with
                    | Some n =>
                        match updateStageData s1 (stage_key (stage s1))
                                (JObj [("completed", JBool true)]) with
                        | Some s2 =>
                            let s3 := enter_stage s2 n now in
                            match opt_bind (js_get analysis "progressReason") js_to_string with
                            | Some _ => (s3, Some analysis)
                            | None => (s3, Some analysis_error_result)
                            end
                        | None => (s1, Some analysis_error_result)
                        end
                    | None => (s1, Some analysis)
                    end
                  else (s1, Some analysis)
              end
          end
      end
  end
  end.

(** Whether the [console.log] after an advance converts
    [analysis.progressReason] to a string without throwing. *)
Definition progress_reason_converts (analysis : jsval) : bool :=
  match opt_bind (js_get analysis "progressReason") js_to_string with
  | Some _ => true
  | None => false
  end.

Definition stageData_json (s : SessionState) : jsval :=
  JObj (map (fun kv => (fst kv, JObj (snd kv))) (stageData s)).

(** The chat branch of [exports.handler] in test.js on an existing
    session: [t_user], [t_assistant] and [t_stage] are the clock readings
    of the two [addMessage] calls and of the stage-entry timestamp; a
    failure of the completion request, or an error thrown by
    [analyzeAndProgressStage] (the TypeError of converting the parsed
    [message]), reaches the outer [catch]. *)
Definition chat (session : SessionState) (msg : jsval) (t_user t_assistant t_stage : Z)
    (c : completion) (a : analysis_outcome) : SessionState * http_response :=
  let s1 := addMessage session "user" msg t_user in
  match c with
  | CompletionFail e =>
      (s1, Http 500 (JObj [("error", JStr "Internal server error");
                           ("message", JStr e)]))
  | CompletionOk assistantMessage =>
      let s2 := addMessage s1 "assistant" (JStr assistantMessage) t_assistant in
      let (s3, result) := analyzeAndProgressStage s2 msg a t_stage in
      match result with
      | None =>
          (s3, Http 500 (JObj [("error", JStr "Internal server error");
                               ("message", JStr to_primitive_error)]))
      | Some analysis =>
      (s3, Http 200 (JObj
        [("message", JStr assistantMessage);
         ("stage", JStr (stage_key (stage s3)));
         ("stageAnalysis", analysis);
         ("sessionState",
           JObj [("currentStageData", getCurrentStageData s3);
                 ("allStageData", stageData_json s3);
                 ("progressMetrics",
                   JObj [("startTime", JNum (startTime s3));
                         ("stageStartTimes",
                           JObj (map (fun kv => (fst kv, JNum (snd kv)))
                                     (stageStartTimes s3)))])])]))
      end
  end.

(** [x > 0] for the [length] values read by the report: numbers, and
    digit strings read as decimal numbers; [undefined], objects and other
    strings compare as [NaN] (false). *)
Definition gt0 (v : jsval) : bool :=
  match v with
  | JNum z => Z.ltb 0 z
  | JBool b => b
  | JStr s => match parse_nat_aux s 0 with
              | Some n => match s with EmptyString => false | _ => Nat.ltb 0 n end
              | None => false
              end
  | _ => false
  end.

(** [x.length > 0] *)
Definition nonempty (v : jsval) : option bool :=
  n <- js_get v "length" ;; Some (gt0 n).

(** [`${v.k || dflt}`] *)
Definition field_or (v : jsval) (k dflt : string) : option string :=
  x <- js_get v k ;; js_to_string (js_or x (JStr dflt)).

(** [v.map((x, i) => f i x).join(sep)]; only arrays have [map]. *)
Fixpoint map_index (f : nat -> jsval -> option string) (i : nat) (l : list jsval)
  : option (list string) :=
  match l with
  | [] => Some []
  | x :: l' => a <- f i x ;; r <- map_index f (S i) l' ;; Some (a :: r)
  end.

Definition map_join (f : nat -> jsval -> option string) (sep : string) (v : jsval)
  : option string :=
  match v with
  | JArr l => parts <- map_index f 0 l ;; Some (join sep parts)
  | _ => None
  end.

(** [cond ? a : b] where the test [x.length > 0] is evaluated first. *)
Definition if_nonempty (v : jsval) (a : unit -> option string) (b : string)
  : option string :=
  ne <- nonempty v ;; if ne then a tt else Some b.

Definition stage_record (s : SessionState) (k : string) : jsval :=
  match assoc k (stageData s) with Some r => JObj r | None => JUndef end.

(** [Math.round((now - startTime) / 60000)] on millisecond readings. *)
Definition elapsed_minutes (now start : Z) : Z := Z.div (now - start + 30000) 60000.

(** [generateComprehensiveReport(session)]. [dateText] is the value of
    [new Date().toLocaleDateString()] and [now] the millisecond reading of
    the second [new Date()]; [None] is a thrown TypeError. *)
Definition generateComprehensiveReport (session : SessionState) (dateText : string)
    (now : Z) : option string :=
  let contextData := stage_record session "context_discovery" in
  let objectiveData := stage_record session "objective_definition" in
  let methodData := stage_record session "method_ideation" in
  let selectionData := stage_record session "method_selection" in
  let planData := stage_record session "implementation_plan" in
  title <- field_or contextData "situationDescription" "Challenge Analysis" ;;
  description <- field_or contextData "situationDescription" "Not provided" ;;
  stakeholders <- js_get contextData "stakeholders" ;;
  stakeholdersText <- if_nonempty stakeholders
    (fun _ => map_join (fun _ s => s_s <- js_to_string s ;; Some ("• " ++ s_s))
                nl stakeholders)
    "• Not specified" ;;
  constraints <- js_get contextData "constraints" ;;
  constraintsText <- if_nonempty constraints
    (fun _ => map_join (fun _ c => c_s <- js_to_string c ;; Some ("• " ++ c_s))
                nl constraints)
    "• Not specified" ;;
  artifacts <- js_get contextData "artifacts" ;;
  artifactsText <- if_nonempty artifacts
    (fun _ => map_join (fun _ a =>
        filename <- js_get a "filename" ;; filename_s <- js_to_string filename ;;
        owner <- js_get a "owner" ;; owner_s <- js_to_string owner ;;
        Some ("• " ++ filename_s ++ " (" ++ owner_s ++ ")"))
      nl artifacts)
    "• No artifacts uploaded" ;;
  rootProblem <- field_or objectiveData "rootProblem" "Not defined" ;;
  problemStatement <- field_or objectiveData "problemStatement" "Not provided" ;;
  methods <- js_get methodData "methods" ;;
  methodsText <- if_nonempty methods
    (fun _ => map_join (fun i m =>
        let n := string_of_nat (S i) in
        name <- field_or m "name" ("Option " ++ n) ;;
        approach <- field_or m "description" "Not provided" ;;
        rationale <- field_or m "rationale" "Not provided" ;;
        complexity <- field_or m "complexity" "Not assessed" ;;
        Some (nl ++ "### Method " ++ n ++ ": " ++ name ++ nl
              ++ "**Approach:** " ++ approach ++ nl
              ++ "**Rationale:** " ++ rationale ++ nl
              ++ "**Implementation Complexity:** " ++ complexity ++ nl))
      nl methods)
    "No methods proposed" ;;
  chosenMethod <- js_get selectionData "chosenMethod" ;;
  selectedText <-
    (if truthy chosenMethod then
       chosenName <- field_or chosenMethod "name" "Selected method" ;;
       methodRationale <- field_or selectionData "methodRationale" "Not provided" ;;
       Some (nl ++ "**Chosen Approach:** " ++ chosenName ++ nl
             ++ "**Selection Rationale:** " ++ methodRationale ++ nl)
     else Some "No method selected yet") ;;
  steps <- js_get planData "implementationSteps" ;;
  planText <- if_nonempty steps
    (fun _ =>
       stepsText <- map_join (fun i step =>
           let n := string_of_nat (S i) in
           title <- field_or step "title" ("Step " ++ n) ;;
           owner <- field_or step "owner" "Not assigned" ;;
           timeline <- field_or step "timeline" "Not specified" ;;
           stepDescription <- field_or step "description" "Not provided" ;;
           resources <- field_or step "resources" "Not specified" ;;
           Some (nl ++ n ++ ". **" ++ title ++ "**" ++ nl
                 ++ "   - **Owner:** " ++ owner ++ nl
                 ++ "   - **Timeline:** " ++ timeline ++ nl
                 ++ "   - **Description:** " ++ stepDescription ++ nl
                 ++ "   - **Resources:** " ++ resources ++ nl))
         nl steps ;;
       overall <- field_or planData "timeline" "Not provided" ;;
       Some (nl ++ "**Action Steps:**" ++ nl ++ stepsText ++ nl ++ nl
             ++ "**Overall Timeline:**" ++ nl ++ overall ++ nl))
    "Implementation plan not yet developed" ;;
  measures <- js_get planData "performanceMeasures" ;;
  measuresText <- if_nonempty measures
    (fun _ =>
       j <- map_join (fun i measure =>
           let n := string_of_nat (S i) in
           metric <- field_or measure "metric" ("Metric " ++ n) ;;
           target <- field_or measure "target" "Not specified" ;;
           baseline <- field_or measure "baseline" "Not specified" ;;
           collection <- field_or measure "collection" "Not specified" ;;
           frequency <- field_or measure "frequency" "Not specified" ;;
           Some (nl ++ n ++ ". **" ++ metric ++ "**" ++ nl
                 ++ "   - **Target:** " ++ target ++ nl
                 ++ "   - **Baseline:** " ++ baseline ++ nl
                 ++ "   - **Collection Method:** " ++ collection ++ nl
                 ++ "   - **Frequency:** " ++ frequency ++ nl))
         nl measures ;;
       Some (nl ++ "**Key Metrics:**" ++ nl ++ j ++ nl))
    "Success metrics not yet defined" ;;
  questions <- js_get planData "learningQuestions" ;;
  questionsText <- if_nonempty questions
    (fun _ =>
       j <- map_join (fun _ q => q_s <- js_to_string q ;; Some ("• " ++ q_s)) nl questions ;;
       Some (nl ++ "**Key Learning Questions:**" ++ nl ++ j ++ nl))
    "Learning questions not yet defined" ;;
  Some ("# COMPAS Report – " ++ title ++ nl ++ nl
    ++ "*Generated on " ++ dateText ++ " | Total Session Time: "
    ++ string_of_Z (elapsed_minutes now (startTime session)) ++ " minutes*" ++ nl ++ nl
    ++ "## Executive Summary" ++ nl ++ nl
    ++ "This report provides a structured analysis and actionable solution for the identified nonprofit challenge using the COMPAS (Context, Objective, Method, Plan, Assessment) framework." ++ nl ++ nl
    ++ "## 1. Context Discovery" ++ nl ++ nl
    ++ "**Challenge Description:**" ++ nl ++ description ++ nl ++ nl
    ++ "**Key Stakeholders:**" ++ nl ++ stakeholdersText ++ nl ++ nl
    ++ "**Constraints & Limitations:**" ++ nl ++ constraintsText ++ nl ++ nl
    ++ "**Supporting Artifacts:**" ++ nl ++ artifactsText ++ nl ++ nl
    ++ "## 2. Objective Definition" ++ nl ++ nl
    ++ "**Root Problem Identified:**" ++ nl ++ rootProblem ++ nl ++ nl
    ++ "**Problem Statement:**" ++ nl ++ problemStatement ++ nl ++ nl
    ++ "## 3. Method Analysis" ++ nl ++ nl
    ++ "**Proposed Solutions:**" ++ nl ++ methodsText ++ nl ++ nl
    ++ "**Selected Method:**" ++ nl ++ selectedText ++ nl ++ nl
    ++ "## 4. Implementation Plan" ++ nl ++ nl ++ planText ++ nl ++ nl
    ++ "## 5. Performance Measures & Success Metrics" ++ nl ++ nl ++ measuresText ++ nl ++ nl
    ++ "## 6. Learning Questions & Iteration Plan" ++ nl ++ nl ++ questionsText ++ nl ++ nl
    ++ "**Next Steps for Implementation:**" ++ nl
    ++ "1. Review and validate this plan with key stakeholders" ++ nl
    ++ "2. Secure necessary resources and approvals" ++ nl
    ++ "3. Begin with the first implementation step" ++ nl
    ++ "4. Establish measurement and monitoring systems" ++ nl
    ++ "5. Schedule regular check-ins to assess progress" ++ nl ++ nl
    ++ "---" ++ nl ++ nl
    ++ "*This report was generated using the COMPAS Navigator framework, designed specifically for nonprofit organizations to transform challenges into actionable solutions.*").

(** The report branch of [exports.handler] in test.js on an existing
    session; a thrown TypeError reaches the outer [catch]. *)
Definition report (session : SessionState) (dateText : string) (now : Z)
  : SessionState * http_response :=
  match generateComprehensiveReport session dateText now with
  | Some r => (session, Http 200 (JObj [("report", JStr r)]))
  | None => (session, Http 500 (JObj [("error", JStr "Internal server error")]))
  end.

(** The operations of the server on one existing session. *)
Inductive op :=
| Chat (msg : jsval) (t_user t_assistant t_stage : Z) (c : completion)
       (a : analysis_outcome)
| Report (dateText : string) (now : Z).

Definition step (s : SessionState) (o : op) : SessionState :=
  match o with
  | Chat m t1 t2 t3 c a => fst (chat s m t1 t2 t3 c a)
  | Report d n => fst (report s d n)
  end.

Fixpoint run (s : SessionState) (ops : list op) : SessionState :=
  match ops with
  | [] => s
  | o :: ops' => run (step s o) ops'
  end.

Fixpoint stages_of_run (s : SessionState) (ops : list op) : list Stage :=
  match ops with
  | [] => [stage s]
  | o :: ops' => stage s :: stages_of_run (step s o) ops'
  end.

(** [stageData[stage_key p].completed] *)
Definition completed_flag (s : SessionState) (p : Stage) : option jsval :=
  match assoc (stage_key p) (stageData s) with
  | Some r => assoc "completed" r
  | None => None
  end.

End AssistedApi.

(** The keyword trigger table as the specification lists it (section
    4.3), for comparison with [updateSessionStage]: whether the lowercased
    response makes the stage advance. *)
Definition keyword_trigger (st : Stage) (response : string) : bool :=
  let r := toLowerCase response in
  match st with
  | CONTEXT_DISCOVERY => includes r "yes, that's right" || includes r "correct"
  | OBJECTIVE_DEFINITION => includes r "root cause" || includes r "problem statement"
  | METHOD_IDEATION =>
      includes r "method" && (includes r "1." || includes r "2." || includes r "3.")
  | METHOD_SELECTION => includes r "implementation plan"
  | IMPLEMENTATION_PLAN =>
      includes r "performance measures" && includes r "learning questions"
  | COMPLETE => false
  end.

Definition successor_or_self (st : Stage) : Stage :=
  match nextStage st with Some n => n | None => st end.

Definition has_next (st : Stage) : bool :=
  match nextStage st with Some _ => true | None => false end.

(** A sequence of chat turns on one session. *)
Fixpoint run_turns {St T} (turn : St -> T -> St) (s : St) (ts : list T) : St :=
  match ts with
  | [] => s
  | t :: ts' => run_turns turn (turn s t) ts'
  end.

Definition count_ok {T} (ok : T -> bool) (ts : list T) : nat :=
  length (filter ok ts).

Definition count_failed {T} (ok : T -> bool) (ts : list T) : nat :=
  length (filter (fun t => negb (ok t)) ts).

Definition completion_ok (c : completion) : bool :=
  match c with CompletionOk _ => true | CompletionFail _ => false end.

(** Successive readings of a non-decreasing clock. *)
Fixpoint timestamps_sorted (l : list message) : Prop :=
  match l with
  | [] => True
  | m :: l' =>
      match l' with
      | [] => True
      | m' :: _ => (timestamp m <= timestamp m')%Z /\ timestamps_sorted l'
      end
  end.

(** The stage sequence is non-decreasing and moves by at most one step. *)
Fixpoint stage_steps_ok (l : list Stage) : Prop :=
  match l with
  | [] => True
  | a :: l' =>
      match l' with
      | [] => True
      | b :: _ => (b = a \/ nextStage a = Some b)
                  /\ stage_rank a <= stage_rank b /\ stage_steps_ok l'
      end
  end.

(** One chat turn of a keyword-policy handler ([express_chat] or
    [netlify_chat]) and of the test.js handler, as an element of a turn
    sequence, and whether its completion request succeeded. *)
Definition keyword_turn
    (h : KeywordApi.SessionState -> jsval -> Z -> Z -> completion
         -> KeywordApi.SessionState * http_response)
    (s : KeywordApi.SessionState) (t : jsval * Z * Z * completion)
  : KeywordApi.SessionState :=
  let '(m, t1, t2, c) := t in fst (h s m t1 t2 c).

Definition keyword_turn_ok (t : jsval * Z * Z * completion) : bool :=
  let '(_, _, _, c) := t in completion_ok c.

Definition assisted_turn (s : AssistedApi.SessionState)
    (t : jsval * Z * Z * Z * completion * AssistedApi.analysis_outcome)
  : AssistedApi.SessionState :=
  let '(m, t1, t2, t3, c, a) := t in fst (AssistedApi.chat s m t1 t2 t3 c a).

Definition assisted_turn_ok
    (t : jsval * Z * Z * Z * completion * AssistedApi.analysis_outcome) : bool :=
  let '(_, _, _, _, c, _) := t in completion_ok c.

(** The entries a turn appends: the user entry, then the assistant entry
    when the completion request succeeded. *)
Definition turn_entries (m : jsval) (t1 t2 : Z) (c : completion) : list message :=
  match c with
  | CompletionOk x => [Message "user" m t1; Message "assistant" (JStr x) t2]
  | CompletionFail _ => [Message "user" m t1]
  end.

(* ------------------------------------------------------------------ *)
(** * The HTTP layer *)

(** [s.split('/')] (more generally, splitting at every [sep]). *)
Fixpoint split_on (sep : ascii) (s : string) : list string :=
  match s with
  | EmptyString => [""]
  | String c s' =>
      let rest := split_on sep s' in
      if Ascii.eqb c sep then "" :: rest
      else match rest with
           | r :: rs => String c r :: rs
           | [] => [String c ""]
           end
  end.

Definition slash : ascii := "/"%char.

(** [path.split('/')[2]]; [None] is [undefined]. *)
Definition path_segment2 (path : string) : option string :=
  nth_error (split_on slash path) 2.

(** A path segment: a string without ['/']. *)
Fixpoint no_slash (s : string) : bool :=
  match s with
  | EmptyString => true
  | String c s' => negb (Ascii.eqb c slash) && no_slash s'
  end.

Fixpoint drop (n : nat) (s : string) : string :=
  match n, s with
  | O, _ => s
  | S n', String _ s' => drop n' s'
  | S _, EmptyString => EmptyString
  end.

(** [s.replace(pat, rep)] with a string pattern: only the first occurrence
    is replaced ([rep] contains no [$] pattern). *)
Fixpoint replace_first (s pat rep : string) : string :=
  if String.prefix pat s then rep ++ drop (String.length pat) s
  else match s with
       | EmptyString => EmptyString
       | String c s' => String c (replace_first s' pat rep)
       end.

(** [sessions.get(key)] on a [Map] keyed by session-id strings; the key
    [undefined] finds nothing. *)
Definition sessions_get {S} (sessions : list (string * S)) (key : option string)
  : option S :=
  match key with Some k => assoc k sessions | None => None end.

(** A history entry as the handlers return it; the [Date] timestamp is
    kept as its millisecond value (JSON.stringify prints its ISO form). *)
Definition message_json (m : message) : jsval :=
  JObj [("role", JStr (role m)); ("content", content m); ("timestamp", JNum (timestamp m))].

(** ** Netlify function responses *)

(** The [body] of a function response: text, or the value passed to
    [JSON.stringify]. *)
Inductive lambda_body :=
| BodyText (s : string)
| BodyJson (v : jsval).

Record lambda_response := LResponse {
  lstatusCode : Z;
  lheaders : list (string * string);
  lbody : lambda_body;
  isBase64Encoded : bool
}.

(** [const headers = {...}] of both handlers. *)
Definition cors_headers : list (string * string) :=
  [("Content-Type", "application/json");
   ("Access-Control-Allow-Origin", "*");
   ("Access-Control-Allow-Headers", "Content-Type");
   ("Access-Control-Allow-Methods", "GET, POST, OPTIONS")].

Definition json_response (code : Z) (v : jsval) : lambda_response :=
  LResponse code cors_headers (BodyJson v) false.

Definition session_not_found : lambda_response :=
  json_response 404 (JObj [("error", JStr "Session not found")]).

Definition route_not_found : lambda_response :=
  json_response 404 (JObj [("error", JStr "Not found")]).

(** The outer [catch] of both handlers. *)
Definition server_error (message : string) : lambda_response :=
  json_response 500 (JObj [("error", JStr "Internal server error");
                           ("message", JStr message)]).

Definition preflight_response : lambda_response :=
  LResponse 200 cors_headers (BodyText "") false.

Definition from_http (r : http_response) : lambda_response :=
  json_response (statusCode r) (body r).

(** [JSON.parse(event.body)]: a [SyntaxError] with its message, or the
    parsed value. *)
Inductive json_parse :=
| ParseError (message : string)
| Parsed (v : jsval).

Record lambda_event := LEvent {
  httpMethod : string;
  event_path : string;
  body_json : json_parse
}.

(** V8's message for [const { message } = v] on [null] or [undefined]. *)
Definition destructure_message (v : jsval) : string :=
  "Cannot destructure property 'message' of 'JSON.parse(...)' as it is "
  ++ match v with JUndef => "undefined." | _ => "null." end.

(** [const { message } = JSON.parse(event.body)]: the thrown error's
    message, or the property read. *)
Definition read_message (b : json_parse) : string + jsval :=
  match b with
  | ParseError e => inl e
  | Parsed v =>
      match js_get v "message" with
      | Some m => inr m
      | None => inl (destructure_message v)
      end
  end.

(** The path once [.replace('/.netlify/functions/simple-api', '')] removed
    the function prefix (both handlers use this prefix). *)
Definition function_prefix : string := "/.netlify/functions/simple-api".

Definition route_path (ev : lambda_event) : string :=
  replace_first (event_path ev) function_prefix "".

(** A double quote, for header values that contain one. *)
Definition dq : string := String (ascii_of_nat 34) EmptyString.

(** ** [exports.handler] of simple-api.js *)

Module SimpleApiHandler.

Definition store := list (string * KeywordApi.SessionState).

(** What the handler reads from outside the event: [uuidv4()], the
    completion request, the two clock readings of [addMessage], and the
    message of an error thrown while building the report text. *)
Record inputs := Inputs {
  fresh_id : string;
  completion_result : completion;
  t_user : Z;
  t_assistant : Z;
  report_error : string
}.

Definition session_view (s : KeywordApi.SessionState) : jsval :=
  JObj [("sessionId", JStr (KeywordApi.sessionId s));
        ("stage", JStr (stage_key (KeywordApi.stage s)));
        ("context", JObj [("facts", JArr (KeywordApi.context_facts s));
                          ("artifacts", JArr (KeywordApi.context_artifacts s))]);
        ("objective", KeywordApi.objective s);
        ("conversationHistory",
          JArr (map message_json (KeywordApi.conversationHistory s)))].

Definition handler (sessions : store) (event : lambda_event) (inp : inputs)
  : store * lambda_response :=
  if String.eqb (httpMethod event) "OPTIONS" then (sessions, preflight_response)
  else
  let path := route_path event in
  let method := httpMethod event in
  if String.eqb method "POST" && String.eqb path "/sessions" then
    let sessionId := fresh_id inp in
    let session := KeywordApi.new_SessionState sessionId in
    (set_prop sessionId session sessions,
     json_response 200 (JObj [("sessionId", JStr sessionId);
                              ("stage", JStr (stage_key (KeywordApi.stage session)))]))
  else if String.eqb method "GET" && String.prefix "/sessions/" path then
    match sessions_get sessions (path_segment2 path) with
    | None => (sessions, session_not_found)
    | Some session => (sessions, json_response 200 (session_view session))
    end
  else if String.eqb method "POST" && includes path "/chat" then
    match path_segment2 path with
    | None => (sessions, session_not_found)
    | Some sessionId =>
        match assoc sessionId sessions with
        | None => (sessions, session_not_found)
        | Some session =>
            match read_message (body_json event) with
            | inl e => (sessions, server_error e)
            | inr message =>
                let res := KeywordApi.netlify_chat session message (t_user inp)
                             (t_assistant inp) (completion_result inp) in
                (set_prop sessionId (fst res) sessions, from_http (snd res))
            end
        end
    end
  else if String.eqb method "GET" && includes path "/report" then
    match sessions_get sessions (path_segment2 path) with
    | None => (sessions, session_not_found)
    | Some session =>
        match snd (KeywordApi.netlify_report session) with
        | Some report => (sessions, json_response 200 (JObj [("report", JStr report)]))
        | None => (sessions, server_error (report_error inp))
        end
    end
  else (sessions, route_not_found).

End SimpleApiHandler.

(** ** [exports.handler] of test.js *)

Module TestHandler.

Definition store := list (string * AssistedApi.SessionState).

(** What the handler reads from outside the event: [uuidv4()] and the two
    clock readings of the constructor, the completion and analysis
    requests and the three clock readings of a chat turn, the date text and
    clock reading of the report, the message of a TypeError thrown while
    building the report, and [generatePDF] and [generateDOCX] followed by
    [toString('base64')] ([None]: they throw). *)
Record inputs := Inputs {
  fresh_id : string;
  t_created : Z;
  t_created_stage : Z;
  completion_result : completion;
  analysis_result : AssistedApi.analysis_outcome;
  t_user : Z;
  t_assistant : Z;
  t_stage : Z;
  date_text : string;
  now : Z;
  report_error : string;
  generatePDF : string -> option string;
  generateDOCX : AssistedApi.SessionState -> option string
}.

(** [session.context] and [session.objective] do not exist on this
    class: they are [undefined] and [JSON.stringify] leaves them out. *)
Definition session_view (s : AssistedApi.SessionState) : jsval :=
  JObj [("sessionId", JStr (AssistedApi.sessionId s));
        ("stage", JStr (stage_key (AssistedApi.stage s)));
        ("context", JUndef);
        ("objective", JUndef);
        ("conversationHistory",
          JArr (map message_json (AssistedApi.conversationHistory s)))].

Definition attachment_headers (content_type file_name : string)
  : list (string * string) :=
  set_prop "Content-Disposition" ("attachment; filename=" ++ dq ++ file_name ++ dq)
    (set_prop "Content-Type" content_type cors_headers).

Definition handler (sessions : store) (event : lambda_event) (inp : inputs)
  : store * lambda_response :=
  if String.eqb (httpMethod event) "OPTIONS" then (sessions, preflight_response)
  else
  let path := route_path event in
  let method := httpMethod event in
  if String.eqb method "POST" && String.eqb path "/sessions" then
    let sessionId := fresh_id inp in
    let session := AssistedApi.new_SessionState sessionId (t_created inp)
                     (t_created_stage inp) in
    (set_prop sessionId session sessions,
     json_response 200 (JObj [("sessionId", JStr sessionId);
                              ("stage", JStr (stage_key (AssistedApi.stage session)))]))
  else if String.eqb method "GET" && String.prefix "/sessions/" path then
    match sessions_get sessions (path_segment2 path) with
    | None => (sessions, session_not_found)
    | Some session => (sessions, json_response 200 (session_view session))
    end
  else if String.eqb method "POST" && includes path "/chat" then
    match path_segment2 path with
    | None => (sessions, session_not_found)
    | Some sessionId =>
        match assoc sessionId sessions with
        | None => (sessions, session_not_found)
        | Some session =>
            match read_message (body_json event) with
            | inl e => (sessions, server_error e)
            | inr message =>
                let res := AssistedApi.chat session message (t_user inp)
                             (t_assistant inp) (t_stage inp) (completion_result inp)
                             (analysis_result inp) in
                (set_prop sessionId (fst res) sessions, from_http (snd res))
            end
        end
    end
  else if String.eqb method "GET" && includes path "/report" then
    match sessions_get sessions (path_segment2 path) with
    | None => (sessions, session_not_found)
    | Some session =>
        match AssistedApi.generateComprehensiveReport session (date_text inp) (now inp) with
        | Some report => (sessions, json_response 200 (JObj [("report", JStr report)]))
        | None => (sessions, server_error (report_error inp))
        end
    end
  else if String.eqb method "POST" && includes path "/export/pdf" then
    match sessions_get sessions (path_segment2 path) with
    | None => (sessions, session_not_found)
    | Some session =>
        match opt_bind (AssistedApi.generateComprehensiveReport session (date_text inp) (now inp))
                (generatePDF inp) with
        | Some pdf =>
            (sessions, LResponse 200 (attachment_headers "application/pdf" "compas-report.pdf")
                         (BodyText pdf) true)
        | None => (sessions, json_response 500 (JObj [("error", JStr "Failed to generate PDF")]))
        end
    end
  else if String.eqb method "POST" && includes path "/export/docx" then
    match sessions_get sessions (path_segment2 path) with
    | None => (sessions, session_not_found)
    | Some session =>
        match generateDOCX inp session with
        | Some docx =>
            (sessions, LResponse 200
               (attachment_headers
                  "application/vnd.openxmlformats-officedocument.wordprocessingml.document"
                  "compas-report.docx")
               (BodyText docx) true)
        | None => (sessions, json_response 500 (JObj [("error", JStr "Failed to generate DOCX")]))
        end
    end
  else (sessions, route_not_found).

End TestHandler.

(** ** Routes of the Express server (unnamed part_001) *)

Module ExpressServer.

(** [const sessions = new Map()]. *)
Definition store := list (string * KeywordApi.SessionState).

Definition not_found : http_response :=
  Http 404 (JObj [("error", JStr "Session not found")]).

(** The error middleware: [res.status(500).send('Something broke!')]. *)
Definition something_broke : http_response := Http 500 (JStr "Something broke!").

(** [POST /api/sessions]; [sessionId] is [uuidv4()]. *)
Definition create_route (sessions : store) (sessionId : string) : store * http_response :=
  let session := KeywordApi.new_SessionState sessionId in
  (set_prop sessionId session sessions,
   Http 200 (JObj [("sessionId", JStr sessionId);
                   ("stage", JStr (stage_key (KeywordApi.stage session)))])).

Definition session_view (s : KeywordApi.SessionState) : jsval :=
  JObj [("sessionId", JStr (KeywordApi.sessionId s));
        ("stage", JStr (stage_key (KeywordApi.stage s)));
        ("context", JObj [("facts", JArr (KeywordApi.context_facts s));
                          ("artifacts", JArr (KeywordApi.context_artifacts s))]);
        ("objective", KeywordApi.objective s);
        ("methods", JArr (KeywordApi.methods s));
        ("chosenMethod", KeywordApi.chosenMethod s);
        ("implementationPlan", KeywordApi.implementationPlan s);
        ("performanceMeasures", JArr (KeywordApi.performanceMeasures s));
        ("learningQuestions", JArr (KeywordApi.learningQuestions s));
        ("conversationHistory",
          JArr (map message_json (KeywordApi.conversationHistory s)))].

(** [GET /api/sessions/:sessionId]. *)
Definition get_route (sessions : store) (sessionId : string) : http_response :=
  match assoc sessionId sessions with
  | None => not_found
  | Some session => Http 200 (session_view session)
  end.

(** The handler of [POST /api/sessions/:sessionId/chat], for a request
    that the [validateObjective] middleware passed on. *)
Definition chat_route (sessions : store) (sessionId : string) (message : jsval)
    (t_user t_assistant : Z) (c : completion) : store * http_response :=
  match assoc sessionId sessions with
  | None => (sessions, not_found)
  | Some session =>
      let res := KeywordApi.express_chat session message t_user t_assistant c in
      (set_prop sessionId (fst res) sessions, snd res)
  end.

(** [req.file] as multer describes the stored file. *)
Record uploaded_file := UploadedFile {
  originalname : string;
  file_path : string;
  file_size : Z;
  file_mimetype : string
}.

(** The [fileFilter] of multer. *)
Definition allowedTypes : list string :=
  ["application/pdf"; "text/csv"; "application/json"; "text/plain"].

Definition fileFilter (mimetype : string) : bool :=
  existsb (String.eqb mimetype) allowedTypes.

(** [limits: { fileSize: 10 * 1024 * 1024 }]. *)
Definition fileSize_limit : Z := 10 * 1024 * 1024.

(** A text field of [req.body] as multer fills it: an object without a
    prototype, so a missing field is [undefined]. *)
Definition form_field (body : obj) (k : string) : jsval :=
  match assoc k body with Some v => v | None => JUndef end.

(** The [artifact] object literal of the upload handler; [id] is
    [uuidv4()] and [uploadedAt] the clock reading of [new Date()]. *)
Definition build_artifact (id : string) (file : uploaded_file) (body : obj)
    (uploadedAt : Z) : jsval :=
  JObj [("id", JStr id);
        ("filename", JStr (originalname file));
        ("path", JStr (file_path file));
        ("size", JNum (file_size file));
        ("mimetype", JStr (file_mimetype file));
        ("uploadedAt", JNum uploadedAt);
        ("owner", js_or (form_field body "owner") (JStr "Unknown"));
        ("sensitivity", js_or (form_field body "sensitivity") (JStr "normal"));
        ("source", js_or (form_field body "source") (JStr "Manual upload"))].

(** [req.file] as multer hands it to the middleware: the fields kept by
    [uploaded_file]; multer's other fields ([fieldname], [encoding],
    [destination], [filename]) are strings, and no field is named [type]. *)
Definition multer_file (file : uploaded_file) : jsval :=
  JObj [("originalname", JStr (originalname file));
        ("path", JStr (file_path file));
        ("size", JNum (file_size file));
        ("mimetype", JStr (file_mimetype file))].

(** [validateFileUpload(file)] of the validation module, returning
    [validation.errors] ([None] is a thrown TypeError). [formatFileSize]
    is the module's display function, whose floating-point text is left
    abstract. [allowedTypes.includes(file.type)] compares with
    SameValueZero, which agrees with [===] on these values. *)
Definition validateFileUpload (formatFileSize : Z -> string) (file : uploaded_file)
  : option (list jsval) :=
  let maxSize := (10 * 1024 * 1024)%Z in
  let sizeErrors :=
    if Z.ltb maxSize (file_size file)
    then [JStr ("File size (" ++ formatFileSize (file_size file)
                ++ ") exceeds maximum allowed size (10MB)")]
    else [] in
  type <- js_get (multer_file file) "type" ;;
  if existsb (strict_eq_str type) allowedTypes then Some sizeErrors
  else
    t <- js_to_string type ;;
    Some (app sizeErrors [JStr ("File type (" ++ t
                                ++ ") is not supported. Allowed types: PDF, CSV, JSON, TXT")]).

(** [POST /api/sessions/:sessionId/upload], registered as
    [upload.single('file'), validationMiddleware.validateUpload, handler]
    on a request that carries a file: multer rejects a file of another
    type or over the size limit with an error that reaches the error
    middleware; [validateUpload] answers 400 when [validateFileUpload]
    reports errors; otherwise the handler runs. *)
Definition upload_route (formatFileSize : Z -> string) (sessions : store)
    (sessionId : string) (file : uploaded_file)
    (body : obj) (artifactId : string) (uploadedAt : Z) : store * http_response :=
  if negb (fileFilter (file_mimetype file)) || Z.ltb fileSize_limit (file_size file)
  then (sessions, something_broke)
  else
  match validateFileUpload formatFileSize file with
  | None => (sessions, something_broke)
  | Some ((_ :: _) as errs) =>
      (sessions, Http 400 (JObj [("error", JStr "File validation failed");
                                 ("errors", JArr errs)]))
  | Some [] =>
  match assoc sessionId sessions with
  | None => (sessions, not_found)
  | Some session =>
      let artifact := build_artifact artifactId file body uploadedAt in
      let res := KeywordApi.express_upload session artifact in
      (set_prop sessionId (fst res) sessions, snd res)
  end
  end.

(** [GET /api/sessions/:sessionId/report]. *)
Definition report_route (sessions : store) (sessionId : string) : http_response :=
  match assoc sessionId sessions with
  | None => not_found
  | Some session => snd (KeywordApi.express_report session)
  end.

(** ** The export module ([ExportService], [createExportRoutes]) *)

(** [arr.forEach(x => report += f(x))]; only arrays have [forEach]. *)
Definition for_each_arr (f : jsval -> option string) (v : jsval) : option string :=
  match v with JArr l => KeywordApi.concat_each f l | _ => None end.

Definition md_artifact_row (artifact : jsval) : option string :=
  sensitivity <- js_get artifact "sensitivity" ;;
  let prepNeeded := if strict_eq_str sensitivity "high" then "Redact PII" else "None" in
  filename <- js_get artifact "filename" ;; filename_s <- js_to_string filename ;;
  mimetype <- js_get artifact "mimetype" ;; mimetype_s <- js_to_string mimetype ;;
  owner <- js_get artifact "owner" ;; owner_s <- js_to_string owner ;;
  source <- js_get artifact "source" ;; source_s <- js_to_string source ;;
  Some ("| " ++ filename_s ++ " | " ++ mimetype_s ++ " | "
        ++ owner_s ++ " | " ++ prepNeeded ++ " | "
        ++ source_s ++ " |" ++ nl).

Definition md_step_row (step : jsval) : option string :=
  description <- js_get step "description" ;; description_s <- js_to_string description ;;
  owner <- js_get step "owner" ;; owner_s <- js_to_string owner ;;
  timeline <- js_get step "timeline" ;; timeline_s <- js_to_string timeline ;;
  notes <- js_get step "notes" ;; notes_s <- js_to_string (js_or notes (JStr "-")) ;;
  Some ("| " ++ description_s ++ " | " ++ owner_s ++ " | "
        ++ timeline_s ++ " | " ++ notes_s ++ " |" ++ nl).

Definition md_measure_line (measure : jsval) : option string :=
  metric <- js_get measure "metric" ;; metric_s <- js_to_string metric ;;
  target <- js_get measure "target" ;; target_s <- js_to_string target ;;
  collection <- js_get measure "collection" ;; collection_s <- js_to_string collection ;;
  Some ("- " ++ metric_s ++ " • " ++ target_s ++ " • " ++ collection_s ++ nl).

(** [generateMarkdownReport(sessionData)] on a session of the server;
    [generated] is [new Date().toLocaleString()]. The tests
    [sessionData.context && sessionData.context.artifacts] and
    [... && sessionData.context.facts] always hold on this class (the
    [context] object and its arrays always exist), and so do the
    [performanceMeasures] and [learningQuestions] arrays of the
    [&& ... .length > 0] tests. [None] is a thrown TypeError. *)
Definition generateMarkdownReport (session : KeywordApi.SessionState) (generated : string)
  : option string :=
  let challengeTitle := js_or (KeywordApi.objective session) (JStr "Nonprofit Challenge") in
  title <- js_to_string challengeTitle ;;
  rows <- KeywordApi.concat_each md_artifact_row (KeywordApi.context_artifacts session) ;;
  facts <- KeywordApi.concat_each KeywordApi.bullet_line (KeywordApi.context_facts session) ;;
  objective_s <- js_to_string (js_or (KeywordApi.objective session) (JStr "To be defined")) ;;
  method_s <- js_to_string (js_or (KeywordApi.chosenMethod session) (JStr "To be selected")) ;;
  plan <- (let p := KeywordApi.implementationPlan session in
           if truthy p then
             steps <- js_get p "steps" ;;
             if truthy steps then
               stepRows <- for_each_arr md_step_row steps ;;
               Some ("| Step | Owner | When | Notes |" ++ nl
                     ++ "|------|-------|------|-------|" ++ nl ++ stepRows)
             else Some ("Implementation plan to be developed" ++ nl)
           else Some ("Implementation plan to be developed" ++ nl)) ;;
  measures <- (match KeywordApi.performanceMeasures session with
               | [] => Some ("- Measures to be defined" ++ nl)
               | l => KeywordApi.concat_each md_measure_line l
               end) ;;
  questions <- (match KeywordApi.learningQuestions session with
                | [] => Some ("- Questions to be identified" ++ nl)
                | l => KeywordApi.concat_each KeywordApi.bullet_line l
                end) ;;
  Some ("# COMPAS Report – " ++ title ++ nl ++ nl
    ++ "**Generated:** " ++ generated ++ nl
    ++ "**Session ID:** " ++ KeywordApi.sessionId session ++ nl ++ nl
    ++ "## 0. Data / Context to Supply AI" ++ nl ++ nl
    ++ "| Artifact | Current format | Owner | Prep needed | Upload method |" ++ nl
    ++ "|----------|----------------|-------|-------------|---------------|" ++ nl
    ++ rows
    ++ nl ++ "## 1. Context (summary)" ++ nl ++ nl
    ++ facts
    ++ nl ++ "## 2. Objective (root problem)" ++ nl ++ nl
    ++ "- " ++ objective_s ++ nl
    ++ nl ++ "## 3. Chosen Method(s)" ++ nl ++ nl
    ++ "- " ++ method_s ++ nl
    ++ nl ++ "## 4. Implementation Plan" ++ nl ++ nl
    ++ plan
    ++ nl ++ "## 5. Performance Measures" ++ nl ++ nl
    ++ measures
    ++ nl ++ "## 6. Learning Questions" ++ nl ++ nl
    ++ questions).

(** File-system effects of an export: a file written (its text for the
    Markdown export, [None] for the binary files written by Puppeteer and
    by [fs.writeFile] of the DOCX buffer), and the [setTimeout] that
    unlinks a file after a delay. *)
Inductive fs_effect :=
| WriteFile (path : string) (content : option string)
| UnlinkAfter (delay_ms : Z) (path : string).

Inductive export_response :=
| ExportJson (status : Z) (body : jsval)
| ExportDownload (filepath filename : string).

(** What the export route reads from outside the request:
    [path.join(__dirname, 'exports')], [new Date().toLocaleString()],
    [Date.now()], and whether writing the Markdown file, the PDF
    rendering and the DOCX packing succeed. *)
Record export_inputs := ExportInputs {
  exportDir : string;
  generated_text : string;
  now_ms : Z;
  write_ok : bool;
  pdf_ok : bool;
  docx_ok : bool
}.

Definition path_join (dir file : string) : string := dir ++ "/" ++ file.

Definition export_file_name (session : KeywordApi.SessionState) (now : Z) (ext : string)
  : string :=
  "compas-report-" ++ KeywordApi.sessionId session ++ "-" ++ string_of_Z now ++ "." ++ ext.

Definition export_failed : export_response :=
  ExportJson 500 (JObj [("error", JStr "Export failed")]).

(** The download of a file written by the export, then the cleanup timer
    of one minute. *)
Definition download_then_cleanup (filepath filename : string) (written : list fs_effect)
  : export_response * list fs_effect :=
  (ExportDownload filepath filename, app written [UnlinkAfter 60000 filepath]).

(** [POST /api/sessions/:sessionId/export]; [format] is [req.body.format].
    The PDF and DOCX exports call [generateMarkdownReport] and
    [generateDocxContent] respectively before the library calls; the
    latter's throwing cases are part of [docx_ok]. *)
Definition export_route (sessions : store) (sessionId : string) (format : jsval)
    (inp : export_inputs) : export_response * list fs_effect :=
  match assoc sessionId sessions with
  | None => (ExportJson 404 (JObj [("error", JStr "Session not found")]), [])
  | Some session =>
      if strict_eq_str format "markdown" then
        match generateMarkdownReport session (generated_text inp) with
        | None => (export_failed, [])
        | Some report =>
            let filename := export_file_name session (now_ms inp) "md" in
            let filepath := path_join (exportDir inp) filename in
            if write_ok inp
            then download_then_cleanup filepath filename [WriteFile filepath (Some report)]
            else (export_failed, [])
        end
      else if strict_eq_str format "pdf" then
        match generateMarkdownReport session (generated_text inp) with
        | None => (export_failed, [])
        | Some _ =>
            let filename := export_file_name session (now_ms inp) "pdf" in
            let filepath := path_join (exportDir inp) filename in
            if pdf_ok inp
            then download_then_cleanup filepath filename [WriteFile filepath None]
            else (export_failed, [])
        end
      else if strict_eq_str format "docx" then
        let filename := export_file_name session (now_ms inp) "docx" in
        let filepath := path_join (exportDir inp) filename in
        if docx_ok inp
        then download_then_cleanup filepath filename [WriteFile filepath None]
        else (export_failed, [])
      else (ExportJson 400 (JObj [("error", JStr "Invalid export format")]), [])
  end.

(** The requests of the server's session API, an upload carrying a
    file. *)
Inductive request :=
| ReqCreate (sessionId : string)
| ReqGet (sessionId : string)
| ReqChat (sessionId : string) (message : jsval) (t_user t_assistant : Z) (c : completion)
| ReqUpload (sessionId : string) (file : uploaded_file) (body : obj) (artifactId : string)
    (uploadedAt : Z)
| ReqReport (sessionId : string)
| ReqExport (sessionId : string) (format : jsval) (inp : export_inputs).

(** The [sessions] map after serving a request; the get, report and export
    routes only read it. *)
Definition serve (formatFileSize : Z -> string) (sessions : store) (r : request) : store :=
  match r with
  | ReqCreate id => fst (create_route sessions id)
  | ReqGet _ => sessions
  | ReqChat id m t1 t2 c => fst (chat_route sessions id m t1 t2 c)
  | ReqUpload id file body aid t => fst (upload_route formatFileSize sessions id file body aid t)
  | ReqReport _ => sessions
  | ReqExport _ _ _ => sessions
  end.

Fixpoint serve_all (formatFileSize : Z -> string) (sessions : store) (rs : list request)
  : store :=
  match rs with
  | [] => sessions
  | r :: rs' => serve_all formatFileSize (serve formatFileSize sessions r) rs'
  end.

End ExpressServer.

(** A run of operations on one session of the Express server or of
    simple-api.js. *)
Fixpoint keyword_run (s : KeywordApi.SessionState) (ops : list KeywordApi.op)
  : KeywordApi.SessionState :=
  match ops with
  | [] => s
  | o :: ops' => keyword_run (KeywordApi.step s o) ops'
  end.

(** The artifacts an operation uploads. *)
Definition upload_of (o : KeywordApi.op) : list jsval :=
  match o with KeywordApi.Upload a => [a] | _ => [] end.

(** The fields of a keyword session that only an upload or a chat
    message's facts could fill stay as [new SessionState] set them. *)
Definition express_session_blank (s : KeywordApi.SessionState) : Prop :=
  KeywordApi.context_artifacts s = [] /\ KeywordApi.uploadedFiles s = [] /\
  KeywordApi.context_facts s = [] /\ KeywordApi.objective s = JNull /\
  KeywordApi.chosenMethod s = JNull /\ KeywordApi.implementationPlan s = JNull /\
  KeywordApi.performanceMeasures s = [] /\ KeywordApi.learningQuestions s = [].

(* ================================================================== *)
(** * Properties *)

(** ** Objects *)

Lemma assoc_set_prop {A} (k k' : string) (v : A) (l : list (string * A)) :
  assoc k (set_prop k' v l) = if String.eqb k k' then Some v else assoc k l.
Proof.
  induction l as [|[k0 v0] l IH]; simpl.
  - destruct (String.eqb k k'); reflexivity.
  - destruct (String.eqb k' k0) eqn:E1.
    + apply String.eqb_eq in E1; subst k0. simpl.
      destruct (String.eqb k k'); reflexivity.
    + simpl. destruct (String.eqb k k0) eqn:E2.
      * apply String.eqb_eq in E2; subst k0.
        rewrite String.eqb_sym in E1. rewrite E1. reflexivity.
      * exact IH.
Qed.

Lemma stage_key_inj (p q : Stage) : stage_key p = stage_key q -> p = q.
Proof. destruct p, q; simpl; congruence. Qed.

Lemma stage_key_eqb (p q : Stage) :
  String.eqb (stage_key p) (stage_key q) = Nat.eqb (stage_rank p) (stage_rank q).
Proof. destruct p, q; reflexivity. Qed.

Lemma stage_key_not_proto (p : Stage) : proto_member (stage_key p) = false.
Proof. destruct p; reflexivity. Qed.

Lemma nextStage_rank (a b : Stage) :
  nextStage a = Some b -> stage_rank b = S (stage_rank a).
Proof. destruct a; simpl; intro H; inversion H; reflexivity. Qed.

Lemma assign_completed (r : obj) :
  assoc "completed" (assign r (JObj [("completed", JBool true)])) = Some (JBool true).
Proof. unfold assign. simpl. rewrite assoc_set_prop. reflexivity. Qed.

(** ** The keyword policy *)

Module KeywordFacts.
Import KeywordApi.

Lemma setStage_stage (s : SessionState) (st : Stage) : stage (setStage s st) = st.
Proof. reflexivity. Qed.

Lemma setStage_self (s : SessionState) : setStage s (stage s) = s.
Proof. destruct s; reflexivity. Qed.

Ltac split_ifs :=
  repeat match goal with
         | |- context [if ?b then _ else _] => destruct b
         end.

Lemma updateSessionStage_shape (s : SessionState) (r : string) :
  updateSessionStage s r = s \/
  (nextStage (stage s) = Some (stage (updateSessionStage s r)) /\
   updateSessionStage s r = setStage s (stage (updateSessionStage s r))).
Proof.
  unfold updateSessionStage.
  destruct (stage s) eqn:E; split_ifs; auto; right; rewrite E; split; reflexivity.
Qed.

Lemma updateSessionStage_step (s : SessionState) (r : string) :
  stage (updateSessionStage s r) = stage s \/
  nextStage (stage s) = Some (stage (updateSessionStage s r)).
Proof.
  destruct (updateSessionStage_shape s r) as [E | [E _]].
  - left. rewrite E. reflexivity.
  - right. exact E.
Qed.

Lemma keyword_step_stage (s : SessionState) (o : op) :
  stage (step s o) = stage s \/ nextStage (stage s) = Some (stage (step s o)).
Proof.
  destruct o as [m t1 t2 [a|e] | m t1 t2 [a|e] | a | | ]; simpl; auto.
  - exact (updateSessionStage_step
             (addMessage (addMessage s "user" m t1) "assistant" (JStr a) t2) a).
  - exact (updateSessionStage_step
             (addMessage (addMessage s "user" m t1) "assistant" (JStr a) t2) a).
  - unfold express_report. destruct (generateCOMPASReport s); auto.
Qed.

End KeywordFacts.

(** ** The assisted policy *)

Module AssistedFacts.
Import AssistedApi.

Definition records_present (s : SessionState) : Prop :=
  forall p, exists r, assoc (stage_key p) (stageData s) = Some r.

Lemma updateStageData_fields (s s' : SessionState) (k : string) (d : jsval) :
  updateStageData s k d = Some s' ->
  stage s' = stage s /\ conversationHistory s' = conversationHistory s /\
  startTime s' = startTime s /\ stageStartTimes s' = stageStartTimes s /\
  sessionId s' = sessionId s.
Proof.
  unfold updateStageData. destruct (assoc k (stageData s)) as [r|].
  - intro H. inversion H; subst. repeat split; reflexivity.
  - destruct (proto_member k); [destruct builtin_assign_throws|]; intro H; inversion H; subst;
      repeat split; reflexivity.
Qed.

Lemma updateStageData_other (s s' : SessionState) (k k2 : string) (d : jsval) :
  updateStageData s k d = Some s' -> k2 <> k ->
  assoc k2 (stageData s') = assoc k2 (stageData s).
Proof.
  intros H Hne. unfold updateStageData in H.
  destruct (assoc k (stageData s)) as [r|].
  - inversion H; subst. simpl. rewrite assoc_set_prop.
    destruct (String.eqb k2 k) eqn:E; [apply String.eqb_eq in E; congruence|reflexivity].
  - destruct (proto_member k); [destruct builtin_assign_throws|]; inversion H; subst; reflexivity.
Qed.

Lemma updateStageData_own (s : SessionState) (k : string) (r : obj) (d : jsval) :
  assoc k (stageData s) = Some r ->
  updateStageData s k d = Some (with_stageData s (set_prop k (assign r d) (stageData s))).
Proof. intro H. unfold updateStageData. rewrite H. reflexivity. Qed.

Lemma updateStageData_stage_key (s : SessionState) (p : Stage) (d : jsval) :
  exists s', updateStageData s (stage_key p) d = Some s'.
Proof.
  unfold updateStageData. destruct (assoc (stage_key p) (stageData s)).
  - eexists; reflexivity.
  - rewrite stage_key_not_proto. eexists; reflexivity.
Qed.

Lemma updateStageData_present (s s' : SessionState) (k : string) (d : jsval) :
  updateStageData s k d = Some s' -> records_present s -> records_present s'.
Proof.
  intros H Hp q. unfold updateStageData in H.
  destruct (assoc k (stageData s)) as [r|] eqn:Ek.
  - inversion H; subst. simpl. rewrite assoc_set_prop.
    destruct (String.eqb (stage_key q) k); eauto.
  - destruct (proto_member k); [destruct builtin_assign_throws|]; inversion H; subst; apply Hp.
Qed.

(** The three ways [analyzeAndProgressStage] ends: no change, a merge into
    the current record, or a merge followed by the advance. *)
Lemma analyze_shape (s : SessionState) (m : jsval) (a : analysis_outcome) (now : Z) :
  let s' := fst (analyzeAndProgressStage s m a now) in
  s' = s \/
  (exists ed, updateStageData s (stage_key (stage s)) ed = Some s') \/
  (exists s1 s2 n,
     (s1 = s \/ exists ed, updateStageData s (stage_key (stage s)) ed = Some s1) /\
     updateStageData s1 (stage_key (stage s1)) (JObj [("completed", JBool true)])
       = Some s2 /\
     nextStage (stage s1) = Some n /\ s' = enter_stage s2 n now).
Proof.
  simpl. unfold analyzeAndProgressStage.
  destruct (js_to_string m); simpl; auto.
  destruct a as [e | [v|]]; simpl; auto.
  destruct (js_get v "extractedData") as [ed|]; simpl; auto.
  destruct (truthy ed) eqn:Ht.
  - destruct (updateStageData s (stage_key (stage s)) ed) as [s1|] eqn:E1; simpl; auto.
    destruct (js_get v "shouldProgress") as [sp|]; simpl; eauto.
    destruct (truthy sp); simpl; eauto.
    destruct (nextStage (stage s1)) as [n|] eqn:En; simpl; eauto.
    destruct (updateStageData s1 (stage_key (stage s1)) _) as [s2|] eqn:E2; simpl; eauto.
    right; right. exists s1, s2, n.
    destruct (opt_bind _ js_to_string); simpl; eauto 6.
  - destruct (js_get v "shouldProgress") as [sp|]; simpl; auto.
    destruct (truthy sp); simpl; auto.
    destruct (nextStage (stage s)) as [n|] eqn:En; simpl; auto.
    destruct (updateStageData s (stage_key (stage s)) _) as [s2|] eqn:E2; simpl; auto.
    right; right. exists s, s2, n.
    destruct (opt_bind _ js_to_string); simpl; eauto 6.
Qed.

Ltac shape s m a now :=
  pose proof (analyze_shape s m a now) as Hshape; cbv zeta in Hshape;
  set (s' := fst (analyzeAndProgressStage s m a now)) in *;
  destruct Hshape as [Es' | [[ed Es'] | [s1 [s2 [n [Hs1 [Hs2 [Hn Es']]]]]]]].

Lemma first_stage_of_s1 (s s1 : SessionState) :
  (s1 = s \/ exists ed, updateStageData s (stage_key (stage s)) ed = Some s1) ->
  stage s1 = stage s /\ conversationHistory s1 = conversationHistory s /\
  startTime s1 = startTime s /\
  (forall k2, k2 <> stage_key (stage s) ->
     assoc k2 (stageData s1) = assoc k2 (stageData s)) /\
  (records_present s -> records_present s1).
Proof.
  intros [E | [ed E]].
  - subst. repeat split; auto.
  - destruct (updateStageData_fields _ _ _ _ E) as [H1 [H2 [H3 _]]].
    repeat split; auto.
    + intros k2 Hk. exact (updateStageData_other _ _ _ _ _ E Hk).
    + apply (updateStageData_present _ _ _ _ E).
Qed.

Lemma analyze_stage (s : SessionState) (m : jsval) (a : analysis_outcome) (now : Z) :
  stage (fst (analyzeAndProgressStage s m a now)) = stage s \/
  nextStage (stage s) = Some (stage (fst (analyzeAndProgressStage s m a now))).
Proof.
  shape s m a now.
  - left. rewrite Es'. reflexivity.
  - left. apply (updateStageData_fields _ _ _ _ Es').
  - right. rewrite Es'. simpl.
    destruct (first_stage_of_s1 s s1 Hs1) as [St _]. rewrite <- St. exact Hn.
Qed.

Lemma analyze_history (s : SessionState) (m : jsval) (a : analysis_outcome) (now : Z) :
  conversationHistory (fst (analyzeAndProgressStage s m a now)) = conversationHistory s
  /\ startTime (fst (analyzeAndProgressStage s m a now)) = startTime s.
Proof.
  shape s m a now.
  - rewrite Es'. split; reflexivity.
  - destruct (updateStageData_fields _ _ _ _ Es') as [_ [H2 [H3 _]]]. auto.
  - rewrite Es'. simpl.
    destruct (first_stage_of_s1 s s1 Hs1) as [_ [Hh [Ht _]]].
    destruct (updateStageData_fields _ _ _ _ Hs2) as [_ [H2 [H3 _]]].
    split; congruence.
Qed.

Lemma analyze_frozen (s : SessionState) (m : jsval) (a : analysis_outcome) (now : Z) (p : Stage) :
  stage_rank p < stage_rank (stage s) ->
  assoc (stage_key p) (stageData (fst (analyzeAndProgressStage s m a now)))
  = assoc (stage_key p) (stageData s).
Proof.
  intro Hlt.
  assert (Hk : stage_key p <> stage_key (stage s)).
  { intro E. apply stage_key_inj in E. rewrite E in Hlt. lia. }
  shape s m a now.
  - rewrite Es'. reflexivity.
  - exact (updateStageData_other _ _ _ _ _ Es' Hk).
  - rewrite Es'. simpl.
    destruct (first_stage_of_s1 s s1 Hs1) as [St [_ [_ [Ho _]]]].
    rewrite <- (Ho _ Hk).
    apply (updateStageData_other _ _ _ _ _ Hs2). rewrite St. exact Hk.
Qed.

Lemma analyze_present (s : SessionState) (m : jsval) (a : analysis_outcome) (now : Z) :
  records_present s -> records_present (fst (analyzeAndProgressStage s m a now)).
Proof.
  intro Hp. shape s m a now.
  - rewrite Es'. exact Hp.
  - exact (updateStageData_present _ _ _ _ Es' Hp).
  - rewrite Es'. unfold records_present. simpl.
    destruct (first_stage_of_s1 s s1 Hs1) as [_ [_ [_ [_ Hp1]]]].
    exact (updateStageData_present _ _ _ _ Hs2 (Hp1 Hp)).
Qed.

Lemma analyze_advance_completed (s : SessionState) (m : jsval) (a : analysis_outcome) (now : Z) :
  records_present s ->
  stage (fst (analyzeAndProgressStage s m a now)) <> stage s ->
  completed_flag (fst (analyzeAndProgressStage s m a now)) (stage s) = Some (JBool true).
Proof.
  intros Hp Hne. shape s m a now.
  - rewrite Es' in Hne. congruence.
  - destruct (updateStageData_fields _ _ _ _ Es') as [St _]. congruence.
  - rewrite Es'. unfold completed_flag. simpl.
    destruct (first_stage_of_s1 s s1 Hs1) as [St [_ [_ [_ Hp1]]]].
    destruct (Hp1 Hp (stage s1)) as [r1 Er1].
    rewrite (updateStageData_own _ _ _ _ Er1) in Hs2. inversion Hs2; subst s2.
    simpl. rewrite assoc_set_prop, St, String.eqb_refl. apply assign_completed.
Qed.

Lemma chat_fst_ok (s : SessionState) (m : jsval) (t1 t2 t3 : Z) (x : string)
    (a : analysis_outcome) :
  fst (chat s m t1 t2 t3 (CompletionOk x) a)
  = fst (analyzeAndProgressStage
           (addMessage (addMessage s "user" m t1) "assistant" (JStr x) t2) m a t3).
Proof.
  unfold chat. destruct (analyzeAndProgressStage _ m a t3) as [s3 [r|]]; reflexivity.
Qed.

Lemma report_fst (s : SessionState) (d : string) (n : Z) : fst (report s d n) = s.
Proof. unfold report. destruct (generateComprehensiveReport s d n); reflexivity. Qed.

Ltac step_cases s o :=
  destruct o as [m t1 t2 t3 [x|e] an | d nw];
  [ unfold step; rewrite chat_fst_ok
  | unfold step; simpl
  | unfold step; rewrite report_fst ].

Lemma step_stage (s : SessionState) (o : op) :
  stage (step s o) = stage s \/ nextStage (stage s) = Some (stage (step s o)).
Proof.
  step_cases s o; auto.
  exact (analyze_stage (addMessage (addMessage s "user" m t1) "assistant" (JStr x) t2) m an t3).
Qed.

Lemma step_frozen (s : SessionState) (o : op) (p : Stage) :
  stage_rank p < stage_rank (stage s) ->
  assoc (stage_key p) (stageData (step s o)) = assoc (stage_key p) (stageData s).
Proof.
  intro H. step_cases s o; auto.
  exact (analyze_frozen (addMessage (addMessage s "user" m t1) "assistant" (JStr x) t2)
           m an t3 p H).
Qed.

Lemma step_present (s : SessionState) (o : op) :
  records_present s -> records_present (step s o).
Proof.
  intro H. step_cases s o; auto.
  exact (analyze_present (addMessage (addMessage s "user" m t1) "assistant" (JStr x) t2)
           m an t3 H).
Qed.

Lemma step_advance_completed (s : SessionState) (o : op) :
  records_present s -> stage (step s o) <> stage s ->
  completed_flag (step s o) (stage s) = Some (JBool true).
Proof.
  intro H. step_cases s o; intro Hne; try congruence.
  exact (analyze_advance_completed
           (addMessage (addMessage s "user" m t1) "assistant" (JStr x) t2) m an t3 H Hne).
Qed.

Lemma new_present (id : string) (t0 t1 : Z) : records_present (new_SessionState id t0 t1).
Proof. intro p; destruct p; eexists; reflexivity. Qed.

Definition left_completed (s : SessionState) : Prop :=
  forall p, stage_rank p < stage_rank (stage s) -> completed_flag s p = Some (JBool true).

Lemma step_left_completed (s : SessionState) (o : op) :
  records_present s -> left_completed s -> left_completed (step s o).
Proof.
  intros Hp Hl p Hlt. unfold completed_flag.
  destruct (step_stage s o) as [E | E].
  - rewrite E in Hlt. rewrite (step_frozen s o p Hlt). apply Hl. exact Hlt.
  - apply nextStage_rank in E.
    destruct (Nat.lt_ge_cases (stage_rank p) (stage_rank (stage s))) as [Hlt' | Hge].
    + rewrite (step_frozen s o p Hlt'). apply Hl. exact Hlt'.
    + assert (Ep : p = stage s).
      { assert (stage_rank p = stage_rank (stage s)) by lia.
        destruct p, (stage s); simpl in *; congruence. }
      subst p. apply step_advance_completed; [exact Hp|].
      intro Heq. rewrite Heq in E. lia.
Qed.

Lemma run_invariant (s : SessionState) (ops : list op) :
  records_present s -> left_completed s ->
  records_present (run s ops) /\ left_completed (run s ops).
Proof.
  revert s; induction ops as [|o ops IH]; intros s Hp Hl; simpl; auto.
  apply IH; [apply step_present | apply step_left_completed]; auto.
Qed.

Lemma run_frozen (s : SessionState) (ops : list op) (p : Stage) :
  stage_rank p < stage_rank (stage s) ->
  assoc (stage_key p) (stageData (run s ops)) = assoc (stage_key p) (stageData s)
  /\ stage_rank p < stage_rank (stage (run s ops)).
Proof.
  revert s; induction ops as [|o ops IH]; intros s Hlt; simpl; auto.
  assert (Hlt' : stage_rank p < stage_rank (stage (step s o))).
  { destruct (step_stage s o) as [E|E]; [rewrite E; exact Hlt|].
    apply nextStage_rank in E. lia. }
  destruct (IH (step s o) Hlt') as [H1 H2]. split; [|exact H2].
  rewrite H1. apply step_frozen. exact Hlt.
Qed.

End AssistedFacts.

(* ------------------------------------------------------------------ *)
(** ** Claims *)

(** C1. The keyword policy follows the trigger table: in each stage the
    lowercased assistant response advances the stage to the next one
    exactly when it contains the listed phrases ([keyword_trigger]), and
    otherwise leaves it unchanged; Complete never advances. In particular
    "Yes, that's right, this matches my situation." moves a new session to
    ObjectiveDefinition and "Let's explore options." leaves it in
    ContextDiscovery. *)
Theorem keyword_policy_table :
  (forall (s : KeywordApi.SessionState) (r : string),
     KeywordApi.stage (KeywordApi.updateSessionStage s r)
     = if keyword_trigger (KeywordApi.stage s) r
       then successor_or_self (KeywordApi.stage s)
       else KeywordApi.stage s)
  /\ KeywordApi.stage (KeywordApi.updateSessionStage (KeywordApi.new_SessionState "s")
        "Yes, that's right, this matches my situation.") = OBJECTIVE_DEFINITION
  /\ KeywordApi.stage (KeywordApi.updateSessionStage (KeywordApi.new_SessionState "s")
        "Let's explore options.") = CONTEXT_DISCOVERY.
Proof.
  split; [|split; vm_compute; reflexivity].
  intros s r. unfold KeywordApi.updateSessionStage, keyword_trigger.
  destruct (KeywordApi.stage s) eqn:E; cbn zeta; KeywordFacts.split_ifs; simpl;
    rewrite ?E; reflexivity.
Qed.

Lemma stage_steps_ok_cons (a b : Stage) (l : list Stage) :
  (b = a \/ nextStage a = Some b) -> stage_steps_ok (b :: l) ->
  stage_steps_ok (a :: b :: l).
Proof.
  intros H Hl. simpl. split; [exact H|]. split; [|exact Hl].
  destruct H as [E|E]; [subst; lia|]. apply nextStage_rank in E. lia.
Qed.

(** C2. Under every sequence of operations of either server (chat turns
    with the keyword policy in the Express server and in simple-api.js,
    uploads and reports; chat turns with the assisted policy and reports in
    test.js) the observed stages, all of type [Stage], never decrease in the
    fixed order and each operation keeps the stage or moves it to its
    immediate successor. *)
Theorem stage_monotone_one_step :
  (forall (s : KeywordApi.SessionState) (ops : list KeywordApi.op),
     stage_steps_ok (KeywordApi.stages_of_run s ops))
  /\ (forall (s : AssistedApi.SessionState) (ops : list AssistedApi.op),
     stage_steps_ok (AssistedApi.stages_of_run s ops)).
Proof.
  split.
  - intros s ops. revert s. induction ops as [|o ops IH]; intro s; simpl; [exact I|].
    specialize (IH (KeywordApi.step s o)).
    destruct ops; simpl in *;
      [ split; [apply KeywordFacts.keyword_step_stage|];
        destruct (KeywordFacts.keyword_step_stage s o) as [E|E];
        [split; [rewrite E; lia | exact I] | apply nextStage_rank in E; split; [lia|exact I]]
      | apply stage_steps_ok_cons; [apply KeywordFacts.keyword_step_stage | exact IH] ].
  - intros s ops. revert s. induction ops as [|o ops IH]; intro s; simpl; [exact I|].
    specialize (IH (AssistedApi.step s o)).
    destruct ops; simpl in *;
      [ split; [apply AssistedFacts.step_stage|];
        destruct (AssistedFacts.step_stage s o) as [E|E];
        [split; [rewrite E; lia | exact I] | apply nextStage_rank in E; split; [lia|exact I]]
      | apply stage_steps_ok_cons; [apply AssistedFacts.step_stage | exact IH] ].
Qed.

(** C3. On a well-formed analysis result (an object whose [shouldProgress]
    is a boolean [b] and whose [extractedData] is an object [ed] without a
    [__proto__] key) the fields of [ed] are first merged into the current
    stage's record, and then, when [b] is true, the record is marked
    completed and the stage advances (Complete has no successor); other
    records are untouched. The collaborator is only asked once the prompt
    is built, which converts the user message [m] to a string. The result
    is returned, except when the [console.log] after an advance cannot
    convert its [progressReason]: the stage and records have changed by
    then and [analysis_error_result] is returned. Concretely, in
    ObjectiveDefinition the result [{shouldProgress: true, extractedData:
    {rootProblem: "X"}}] leaves [rootProblem] equal to "X" and the stage at
    MethodIdeation. *)
Theorem assisted_merge_then_advance :
  (forall (s : AssistedApi.SessionState) (m : jsval) (r : obj)
          (fs ed : list (string * jsval)) (b : bool) (now : Z),
     js_to_string m <> None ->
     assoc (stage_key (AssistedApi.stage s)) (AssistedApi.stageData s) = Some r ->
     assoc "shouldProgress" fs = Some (JBool b) ->
     assoc "extractedData" fs = Some (JObj ed) ->
     assoc "__proto__" ed = None ->
     let res := AssistedApi.analyzeAndProgressStage s m
                  (AssistedApi.AnalysisText (Some (JObj fs))) now in
     let merged := assign r (JObj ed) in
     assoc (stage_key (AssistedApi.stage s)) (AssistedApi.stageData (fst res))
       = Some (if b && has_next (AssistedApi.stage s)
               then assign merged (JObj [("completed", JBool true)])
               else merged)
     /\ AssistedApi.stage (fst res)
        = (if b then successor_or_self (AssistedApi.stage s) else AssistedApi.stage s)
     /\ snd res = Some (if b && has_next (AssistedApi.stage s)
                           && negb (AssistedApi.progress_reason_converts (JObj fs))
                        then AssistedApi.analysis_error_result else JObj fs)
     /\ (forall p, p <> AssistedApi.stage s ->
           assoc (stage_key p) (AssistedApi.stageData (fst res))
           = assoc (stage_key p) (AssistedApi.stageData s)))
  /\ (let s := AssistedApi.run (AssistedApi.new_SessionState "s" 0 0)
                 [AssistedApi.Chat (JStr "We lose 20 hours a month") 1 2 3
                    (CompletionOk "Yes, that's right")
                    (AssistedApi.AnalysisText
                       (Some (JObj [("shouldProgress", JBool true)])))] in
      let s' := fst (AssistedApi.analyzeAndProgressStage s (JStr "Yes")
                  (AssistedApi.AnalysisText (Some (JObj
                     [("shouldProgress", JBool true);
                      ("extractedData", JObj [("rootProblem", JStr "X")])]))) 4) in
      AssistedApi.stage s = OBJECTIVE_DEFINITION
      /\ (r <- assoc "objective_definition" (AssistedApi.stageData s') ;;
          assoc "rootProblem" r) = Some (JStr "X")
      /\ AssistedApi.stage s' = METHOD_IDEATION).
Proof.
  split; [|vm_compute; repeat split; reflexivity].
  intros s m r fs ed b now Hmsg Hr Hsp Hed _. cbv zeta.
  unfold AssistedApi.analyzeAndProgressStage.
  destruct (js_to_string m) as [ms|]; [|congruence].
  cbn [js_get]. rewrite Hed.
  cbn [truthy]. rewrite (AssistedFacts.updateStageData_own _ _ _ _ Hr).
  rewrite Hsp. cbn [truthy AssistedApi.stage AssistedApi.with_stageData].
  assert (Hm : assoc (stage_key (AssistedApi.stage s))
                 (set_prop (stage_key (AssistedApi.stage s)) (assign r (JObj ed))
                    (AssistedApi.stageData s)) = Some (assign r (JObj ed))).
  { rewrite assoc_set_prop, String.eqb_refl. reflexivity. }
  assert (Hother : forall p, p <> AssistedApi.stage s ->
            forall v, assoc (stage_key p)
              (set_prop (stage_key (AssistedApi.stage s)) v (AssistedApi.stageData s))
            = assoc (stage_key p) (AssistedApi.stageData s)).
  { intros p Hp v. rewrite assoc_set_prop.
    destruct (String.eqb (stage_key p) (stage_key (AssistedApi.stage s))) eqn:E;
      [apply String.eqb_eq, stage_key_inj in E; congruence | reflexivity]. }
  destruct b; simpl.
  - unfold has_next, successor_or_self.
    destruct (nextStage (AssistedApi.stage s)) as [n|] eqn:En; simpl.
    + unfold AssistedApi.updateStageData. simpl. rewrite Hm. simpl.
      unfold AssistedApi.progress_reason_converts.
      simpl.
      match goal with |- context [match js_to_string ?x with _ => _ end] =>
        destruct (js_to_string x) end; simpl;
      rewrite assoc_set_prop, String.eqb_refl;
      (repeat split; try reflexivity);
      intros p Hp; rewrite assoc_set_prop;
      (destruct (String.eqb (stage_key p) (stage_key (AssistedApi.stage s))) eqn:E;
        [apply String.eqb_eq, stage_key_inj in E; congruence|]);
      apply Hother; exact Hp.
    + rewrite Hm. repeat split; try reflexivity. intros p Hp. apply Hother; exact Hp.
  - rewrite Hm. repeat split; try reflexivity. intros p Hp. apply Hother; exact Hp.
Qed.

(** C5 (counterexample). A merged [extractedData] can set the current
    stage's [completed] flag while the stage stays where it is, and a later
    merge resets it to false: two turns in ContextDiscovery whose analyses
    carry [completed: true] and then [completed: false]. *)
Lemma completed_flag_counterexample :
  let t1 := AssistedApi.Chat (JStr "hi") 1 2 3 (CompletionOk "Tell me more")
              (AssistedApi.AnalysisText (Some (JObj
                 [("shouldProgress", JBool false);
                  ("extractedData", JObj [("completed", JBool true)])]))) in
  let t2 := AssistedApi.Chat (JStr "ok") 4 5 6 (CompletionOk "Go on")
              (AssistedApi.AnalysisText (Some (JObj
                 [("shouldProgress", JBool false);
                  ("extractedData", JObj [("completed", JBool false)])]))) in
  let s0 := AssistedApi.new_SessionState "s" 0 0 in
  let s1 := AssistedApi.run s0 [t1] in
  let s2 := AssistedApi.run s0 [t1; t2] in
  AssistedApi.stage s1 = CONTEXT_DISCOVERY
  /\ AssistedApi.completed_flag s1 CONTEXT_DISCOVERY = Some (JBool true)
  /\ AssistedApi.stage s2 = CONTEXT_DISCOVERY
  /\ AssistedApi.completed_flag s2 CONTEXT_DISCOVERY = Some (JBool false).
Proof. vm_compute. repeat split; reflexivity. Qed.

(** C5 (amended). In every session built by the constructor and any
    sequence of operations: when an operation moves the stage away from
    [p], it leaves [stageData[p].completed] true; every stage already left
    has [completed] true; and the record of a stage already left is never
    modified again by later operations, so the flag stays true. *)
Theorem completed_after_leaving :
  forall (id : string) (t0 t1 : Z) (ops1 ops2 : list AssistedApi.op) (p : Stage),
    let s := AssistedApi.run (AssistedApi.new_SessionState id t0 t1) ops1 in
    (forall o, AssistedApi.stage (AssistedApi.step s o) <> AssistedApi.stage s ->
       AssistedApi.completed_flag (AssistedApi.step s o) (AssistedApi.stage s)
       = Some (JBool true))
    /\ (stage_rank p < stage_rank (AssistedApi.stage s) ->
        AssistedApi.completed_flag s p = Some (JBool true)
        /\ assoc (stage_key p) (AssistedApi.stageData (AssistedApi.run s ops2))
           = assoc (stage_key p) (AssistedApi.stageData s)
        /\ AssistedApi.completed_flag (AssistedApi.run s ops2) p = Some (JBool true)).
Proof.
  intros id t0 t1 ops1 ops2 p s.
  assert (Hinit : AssistedFacts.left_completed (AssistedApi.new_SessionState id t0 t1)).
  { intros q Hq. simpl in Hq. lia. }
  destruct (AssistedFacts.run_invariant _ ops1 (AssistedFacts.new_present id t0 t1) Hinit)
    as [Hp Hl].
  fold s in Hp, Hl.
  split.
  - intros o Hne. apply AssistedFacts.step_advance_completed; assumption.
  - intro Hlt. destruct (AssistedFacts.run_frozen s ops2 p Hlt) as [Hf _].
    split; [apply Hl; exact Hlt|]. split; [exact Hf|].
    unfold AssistedApi.completed_flag. rewrite Hf. apply Hl. exact Hlt.
Qed.

(** C8. The keyword policy changes nothing but the stage: its result is
    the input session with only the [stage] field replaced, so the
    history, context, objective, methods, chosen method, plan, measures,
    questions and uploaded files are unchanged. *)
Theorem keyword_policy_frame :
  forall (s : KeywordApi.SessionState) (r : string),
    KeywordApi.updateSessionStage s r
    = KeywordApi.setStage s (KeywordApi.stage (KeywordApi.updateSessionStage s r)).
Proof.
  intros s r.
  destruct (KeywordFacts.updateSessionStage_shape s r) as [E | [_ E]].
  - rewrite E. symmetry. apply KeywordFacts.setStage_self.
  - exact E.
Qed.

Lemma analyze_terminal_value (s : AssistedApi.SessionState) (m v : jsval) (now : Z) :
  js_to_string m <> None -> v <> JNull -> v <> JUndef ->
  nextStage (AssistedApi.stage s) = None ->
  snd (AssistedApi.analyzeAndProgressStage s m (AssistedApi.AnalysisText (Some v)) now)
  = Some v.
Proof.
  intros Hm Hn Hu Hnone. unfold AssistedApi.analyzeAndProgressStage.
  destruct (js_to_string m); [|congruence].
  assert (Hg : forall k, exists x, js_get v k = Some x)
    by (intro k; destruct v; try congruence; unfold js_get;
        repeat match goal with
               | |- context [if ?b then _ else _] => destruct b
               | |- context [match ?x with Some _ => _ | None => _ end] => destruct x
               end; eauto).
  destruct (Hg "extractedData") as [ed Eed]. rewrite Eed.
  destruct (Hg "shouldProgress") as [sp Esp].
  destruct (truthy ed).
  - destruct (AssistedFacts.updateStageData_stage_key s (AssistedApi.stage s) ed)
      as [s1 E1].
    rewrite E1, Esp.
    destruct (AssistedFacts.updateStageData_fields _ _ _ _ E1) as [St _].
    destruct (truthy sp); [rewrite St, Hnone|]; reflexivity.
  - rewrite Esp. destruct (truthy sp); [rewrite Hnone|]; reflexivity.
Qed.

(** C9 (counterexample). On a session at Complete, a chat message that
    cannot be converted to a string ([{"toString": null}]: [toString] is
    not callable and [valueOf] returns the object) makes
    [analyzeAndProgressStage] throw while it builds the prompt, and the
    turn answers 500 instead of completing silently. The stage stays
    Complete. *)
Lemma complete_chat_message_throws :
  let adv := AssistedApi.AnalysisText (Some (JObj [("shouldProgress", JBool true)])) in
  let s := AssistedApi.run (AssistedApi.new_SessionState "s" 0 0)
             [AssistedApi.Chat (JStr "a") 1 2 3 (CompletionOk "ok") adv;
              AssistedApi.Chat (JStr "b") 4 5 6 (CompletionOk "ok") adv;
              AssistedApi.Chat (JStr "c") 7 8 9 (CompletionOk "ok") adv;
              AssistedApi.Chat (JStr "d") 10 11 12 (CompletionOk "ok") adv;
              AssistedApi.Chat (JStr "e") 13 14 15 (CompletionOk "ok") adv] in
  let m := JObj [("toString", JNull)] in
  let res := AssistedApi.chat s m 16 17 18 (CompletionOk "Done") adv in
  AssistedApi.stage s = COMPLETE
  /\ snd (AssistedApi.analyzeAndProgressStage s m adv 18) = None
  /\ statusCode (snd res) = 500%Z
  /\ AssistedApi.stage (fst res) = COMPLETE.
Proof. vm_compute. repeat split; reflexivity. Qed.

(** C9 (amended). Complete is terminal: the keyword policy returns the
    session unchanged for any response; with the assisted policy the stage
    stays Complete for any message and analysis outcome. When the message
    converts to a string (the prompt is built), an attempt to advance is
    silent: a parsed (non-null) result is returned as it is, also when it
    says [shouldProgress: true], and the chat turn answers with status
    200. *)
Theorem complete_is_terminal :
  (forall (s : KeywordApi.SessionState) (r : string),
     KeywordApi.stage s = COMPLETE -> KeywordApi.updateSessionStage s r = s)
  /\ (forall (s : AssistedApi.SessionState) (m : jsval) (a : AssistedApi.analysis_outcome)
        (now : Z),
     AssistedApi.stage s = COMPLETE ->
     AssistedApi.stage (fst (AssistedApi.analyzeAndProgressStage s m a now)) = COMPLETE
     /\ (js_to_string m <> None ->
         forall v, a = AssistedApi.AnalysisText (Some v) -> v <> JNull -> v <> JUndef ->
           snd (AssistedApi.analyzeAndProgressStage s m a now) = Some v))
  /\ (forall (s : AssistedApi.SessionState) (m : jsval) (t1 t2 t3 : Z) (x : string)
        (a : AssistedApi.analysis_outcome),
     AssistedApi.stage s = COMPLETE ->
     AssistedApi.stage (fst (AssistedApi.chat s m t1 t2 t3 (CompletionOk x) a)) = COMPLETE
     /\ (js_to_string m <> None ->
         statusCode (snd (AssistedApi.chat s m t1 t2 t3 (CompletionOk x) a)) = 200%Z)).
Proof.
  assert (Hst : forall s m a now, AssistedApi.stage s = COMPLETE ->
            AssistedApi.stage (fst (AssistedApi.analyzeAndProgressStage s m a now))
            = COMPLETE).
  { intros s m a now H.
    destruct (AssistedFacts.analyze_stage s m a now) as [E|E]; rewrite H in *;
      [exact E | discriminate]. }
  split; [|split].
  - intros s r H. unfold KeywordApi.updateSessionStage. rewrite H. reflexivity.
  - intros s m a now H. split; [apply Hst; exact H|].
    intros Hm v -> Hn Hu.
    apply analyze_terminal_value; [exact Hm|exact Hn|exact Hu|rewrite H; reflexivity].
  - intros s m t1 t2 t3 x a H. split.
    + rewrite AssistedFacts.chat_fst_ok. apply Hst. exact H.
    + intro Hm. unfold AssistedApi.chat.
      destruct (AssistedApi.analyzeAndProgressStage _ m a t3) as [s3 [r|]] eqn:E;
        [reflexivity|].
      exfalso. unfold AssistedApi.analyzeAndProgressStage in E.
      destruct (js_to_string m); [|congruence].
      destruct a as [e|[v|]]; try discriminate.
      repeat match goal with
             | E : context [match ?x with _ => _ end] |- _ => destruct x
             end; discriminate.
Qed.

(** C10 (counterexample). The guard [if (this.stageData[stage])] also
    passes for a name inherited from [Object.prototype]: with the key
    "constructor", which is not a stage of [stageData], and the data
    [{name: "x"}], [updateStageData] assigns into the [Object] constructor
    and throws a TypeError ([name] is read-only). *)
Lemma updateStageData_inherited_key_throws :
  assoc "constructor" (AssistedApi.stageData (AssistedApi.new_SessionState "s" 0 0)) = None
  /\ AssistedApi.updateStageData (AssistedApi.new_SessionState "s" 0 0) "constructor"
       (JObj [("name", JStr "x")]) = None.
Proof. vm_compute. split; reflexivity. Qed.

(** C10 (amended). With a key that is not a key of [stageData],
    [updateStageData] never changes the session; when the key is also not
    a property name of [Object.prototype] it returns normally, a no-op. *)
Theorem updateStageData_absent_key :
  forall (s : AssistedApi.SessionState) (k : string) (d : jsval),
    assoc k (AssistedApi.stageData s) = None ->
    (forall s', AssistedApi.updateStageData s k d = Some s' -> s' = s)
    /\ (proto_member k = false -> AssistedApi.updateStageData s k d = Some s).
Proof.
  intros s k d H. unfold AssistedApi.updateStageData. rewrite H. split.
  - destruct (proto_member k); [destruct builtin_assign_throws|]; intros s' E; inversion E; reflexivity.
  - intro Hp. rewrite Hp. reflexivity.
Qed.

(** C4 (counterexample). A parsed analysis result missing required keys is
    not treated as a failure: [{shouldProgress: true}] without
    [extractedData], [progressReason], [completionPercentage] or
    [missingInformation] advances a new session from ContextDiscovery to
    ObjectiveDefinition. *)
Lemma schema_violating_result_advances :
  let s0 := AssistedApi.new_SessionState "s" 0 0 in
  let res := AssistedApi.chat s0 (JStr "hi") 1 2 3 (CompletionOk "Is this correct?")
               (AssistedApi.AnalysisText (Some (JObj [("shouldProgress", JBool true)]))) in
  AssistedApi.stage s0 = CONTEXT_DISCOVERY
  /\ AssistedApi.stage (fst res) = OBJECTIVE_DEFINITION.
Proof. vm_compute. split; reflexivity. Qed.

(** C4 (amended). When the analysis request fails, or its whole output is
    not JSON, or parses to [null], the turn keeps the stage and
    [stageData] and has appended the user and assistant entries. It
    answers with status 200 and reports [analysis_error_result] ([{shouldProgress:
    false, progressReason: 'Analysis error', extractedData: {},
    completionPercentage: 0, missingInformation: []}]) as [stageAnalysis],
    unless the user message [m] cannot be converted to a string: building
    the prompt then throws before the [try] block and the turn answers 500.
    A result that parses to an object is applied without schema
    validation: without an [extractedData] key nothing is merged, and a
    truthy [shouldProgress] still advances the stage. After such an
    advance, a [progressReason] that cannot be converted to a string makes
    the [console.log] throw: the stage has advanced, and [stageAnalysis] is
    [analysis_error_result]. *)
Theorem analysis_failure_is_noop :
  (forall (s : AssistedApi.SessionState) (m : jsval) (t1 t2 t3 : Z) (x : string)
          (a : AssistedApi.analysis_outcome),
     (exists e, a = AssistedApi.AnalysisFail e) \/ a = AssistedApi.AnalysisText None
     \/ a = AssistedApi.AnalysisText (Some JNull) ->
     let res := AssistedApi.chat s m t1 t2 t3 (CompletionOk x) a in
     AssistedApi.stage (fst res) = AssistedApi.stage s
     /\ AssistedApi.stageData (fst res) = AssistedApi.stageData s
     /\ AssistedApi.conversationHistory (fst res)
        = app (AssistedApi.conversationHistory s)
              [Message "user" m t1; Message "assistant" (JStr x) t2]
     /\ statusCode (snd res) = (if js_to_string m then 200 else 500)%Z
     /\ (js_to_string m <> None ->
         js_get (body (snd res)) "stageAnalysis" = Some AssistedApi.analysis_error_result))
  /\ (forall (s : AssistedApi.SessionState) (m : jsval) (t1 t2 t3 : Z) (x : string)
        (fs : list (string * jsval)) (sp : jsval),
     js_to_string m <> None ->
     assoc "extractedData" fs = None -> assoc "shouldProgress" fs = Some sp ->
     truthy sp = true ->
     let res := AssistedApi.chat s m t1 t2 t3 (CompletionOk x)
                  (AssistedApi.AnalysisText (Some (JObj fs))) in
     AssistedApi.stage (fst res) = successor_or_self (AssistedApi.stage s)
     /\ statusCode (snd res) = 200%Z
     /\ js_get (body (snd res)) "stageAnalysis"
        = Some (if has_next (AssistedApi.stage s)
                   && negb (AssistedApi.progress_reason_converts (JObj fs))
                then AssistedApi.analysis_error_result else JObj fs)).
Proof.
  split.
  - intros s m t1 t2 t3 x a Ha. cbv zeta.
    destruct Ha as [[e ->] | [-> | ->]];
      unfold AssistedApi.chat, AssistedApi.analyzeAndProgressStage;
      destruct (js_to_string m); simpl;
      rewrite <- app_assoc; repeat split; try reflexivity; intro Hc; congruence.
  - intros s m t1 t2 t3 x fs sp Hm Hed Hsp Ht. cbv zeta.
    unfold AssistedApi.chat.
    set (s2 := AssistedApi.addMessage (AssistedApi.addMessage s "user" m t1)
                 "assistant" (JStr x) t2).
    assert (St : AssistedApi.stage s2 = AssistedApi.stage s) by reflexivity.
    rewrite <- St. clearbody s2.
    unfold AssistedApi.analyzeAndProgressStage, AssistedApi.progress_reason_converts.
    destruct (js_to_string m); [|congruence].
    cbn [js_get]. rewrite Hed, Hsp.
    change (proto_member "extractedData") with false. cbn [truthy]. cbn iota beta.
    rewrite Ht. unfold successor_or_self, has_next.
    destruct (nextStage (AssistedApi.stage s2)) as [n|];
      [|simpl; repeat split; reflexivity].
    destruct (AssistedFacts.updateStageData_stage_key s2 (AssistedApi.stage s2)
                (JObj [("completed", JBool true)])) as [s3 E3].
    rewrite E3. simpl.
    match goal with |- context [js_to_string ?y] => destruct (js_to_string y) end;
      simpl; repeat split; reflexivity.
Qed.

(** ** Chat turns and the conversation history *)

Lemma sorted_snoc (h : list message) (x : message) :
  timestamps_sorted h -> (forall e, In e h -> (timestamp e <= timestamp x)%Z) ->
  timestamps_sorted (app h [x]).
Proof.
  induction h as [|a h IH]; intros Hs Hle; [exact I|].
  destruct h as [|b h'].
  - simpl. split; [apply Hle; left; reflexivity | exact I].
  - destruct Hs as [Hab Hs]. change (app (a :: b :: h') [x])
      with (a :: app (b :: h') [x]).
    simpl app at 1. split; [exact Hab|].
    apply IH; [exact Hs|]. intros e He. apply Hle. right. exact He.
Qed.

Lemma turn_entries_sorted (h : list message) (m : jsval) (t1 t2 : Z) (c : completion) :
  timestamps_sorted h -> (forall e, In e h -> (timestamp e <= t1)%Z) ->
  (t1 <= t2)%Z -> timestamps_sorted (app h (turn_entries m t1 t2 c)).
Proof.
  intros Hs Hle H12. destruct c as [x|e]; simpl.
  - change [Message "user" m t1; Message "assistant" (JStr x) t2]
      with (app [Message "user" m t1] [Message "assistant" (JStr x) t2]).
    rewrite app_assoc. apply sorted_snoc.
    + apply sorted_snoc; assumption.
    + intros e He. apply in_app_or in He. simpl.
      destruct He as [He | [<- | []]]; [specialize (Hle e He); lia | simpl; lia].
  - apply sorted_snoc; assumption.
Qed.

Lemma turn_entries_length (m : jsval) (t1 t2 : Z) (c : completion) :
  length (turn_entries m t1 t2 c) = if completion_ok c then 2 else 1.
Proof. destruct c; reflexivity. Qed.

Lemma updateSessionStage_history (s : KeywordApi.SessionState) (r : string) :
  KeywordApi.conversationHistory (KeywordApi.updateSessionStage s r)
  = KeywordApi.conversationHistory s.
Proof.
  destruct (KeywordFacts.updateSessionStage_shape s r) as [E | [_ E]];
    rewrite E; reflexivity.
Qed.

Lemma express_chat_history (s : KeywordApi.SessionState) (m : jsval) (t1 t2 : Z)
    (c : completion) :
  KeywordApi.conversationHistory (fst (KeywordApi.express_chat s m t1 t2 c))
  = app (KeywordApi.conversationHistory s) (turn_entries m t1 t2 c).
Proof.
  destruct c as [x|e]; simpl; [rewrite updateSessionStage_history; simpl;
    rewrite <- app_assoc |]; reflexivity.
Qed.

Lemma netlify_chat_history (s : KeywordApi.SessionState) (m : jsval) (t1 t2 : Z)
    (c : completion) :
  KeywordApi.conversationHistory (fst (KeywordApi.netlify_chat s m t1 t2 c))
  = app (KeywordApi.conversationHistory s) (turn_entries m t1 t2 c).
Proof.
  destruct c as [x|e]; simpl; [rewrite updateSessionStage_history; simpl;
    rewrite <- app_assoc |]; reflexivity.
Qed.

Lemma assisted_chat_history (s : AssistedApi.SessionState) (m : jsval)
    (t1 t2 t3 : Z) (c : completion) (a : AssistedApi.analysis_outcome) :
  AssistedApi.conversationHistory (fst (AssistedApi.chat s m t1 t2 t3 c a))
  = app (AssistedApi.conversationHistory s) (turn_entries m t1 t2 c).
Proof.
  destruct c as [x|e]; [|reflexivity].
  rewrite AssistedFacts.chat_fst_ok.
  rewrite (proj1 (AssistedFacts.analyze_history _ m a t3)). simpl.
  rewrite <- app_assoc. reflexivity.
Qed.

Lemma assisted_chat_status (s : AssistedApi.SessionState) (m : jsval)
    (t1 t2 t3 : Z) (c : completion) (a : AssistedApi.analysis_outcome) :
  statusCode (snd (AssistedApi.chat s m t1 t2 t3 c a))
  = if completion_ok c then (if js_to_string m then 200%Z else 500%Z) else 500%Z.
Proof.
  destruct c as [x|e]; [|reflexivity]. unfold AssistedApi.chat.
  destruct (AssistedApi.analyzeAndProgressStage _ m a t3) as [s3 r] eqn:E.
  unfold AssistedApi.analyzeAndProgressStage in E. simpl.
  destruct (js_to_string m); [|inversion E; reflexivity].
  destruct r; [reflexivity|].
  destruct a as [e|[v|]]; try discriminate.
  repeat match goal with
         | E : context [match ?x with _ => _ end] |- _ => destruct x
         end; discriminate.
Qed.

Section TurnCount.
Variables (St T : Type) (hist : St -> list message) (turn : St -> T -> St)
          (ok : T -> bool).
Hypothesis Hturn :
  forall s t, length (hist (turn s t)) = length (hist s) + (if ok t then 2 else 1).

Lemma run_turns_length (ts : list T) (s : St) :
  length (hist (run_turns turn s ts))
  = length (hist s) + 2 * count_ok ok ts + count_failed ok ts.
Proof.
  revert s. unfold count_ok, count_failed.
  induction ts as [|t ts IH]; intro s; simpl; [lia|].
  rewrite IH, Hturn. destruct (ok t); simpl; lia.
Qed.

End TurnCount.

(** C6. A successful chat turn appends exactly the user entry and then the
    assistant entry, and answers with status 200; a failed completion
    request appends only the user entry, leaves everything else of the
    session as it was (no merge, no stage change) and answers with status
    500 and an error body. This holds for the Express handler, the
    simple-api.js handler and the test.js handler, except that the test.js
    handler answers 500 after appending both entries when the message
    cannot be converted to a string for the analysis prompt. With a
    non-decreasing
    clock the history stays sorted by timestamp, and from a new session a
    sequence of turns yields [2 * ok + failed] entries (so [2N] after [N]
    successful turns). *)
Theorem chat_turn_history :
  (* successful turn *)
  (forall (s : KeywordApi.SessionState) (m : jsval) (t1 t2 : Z) (x : string),
     let u := Message "user" m t1 in
     let r := Message "assistant" (JStr x) t2 in
     KeywordApi.conversationHistory (fst (KeywordApi.express_chat s m t1 t2 (CompletionOk x)))
     = app (KeywordApi.conversationHistory s) [u; r]
     /\ statusCode (snd (KeywordApi.express_chat s m t1 t2 (CompletionOk x))) = 200%Z
     /\ KeywordApi.conversationHistory (fst (KeywordApi.netlify_chat s m t1 t2 (CompletionOk x)))
        = app (KeywordApi.conversationHistory s) [u; r]
     /\ statusCode (snd (KeywordApi.netlify_chat s m t1 t2 (CompletionOk x))) = 200%Z)
  /\ (forall (s : AssistedApi.SessionState) (m : jsval) (t1 t2 t3 : Z) (x : string)
        (a : AssistedApi.analysis_outcome),
     AssistedApi.conversationHistory (fst (AssistedApi.chat s m t1 t2 t3 (CompletionOk x) a))
     = app (AssistedApi.conversationHistory s)
           [Message "user" m t1; Message "assistant" (JStr x) t2]
     /\ statusCode (snd (AssistedApi.chat s m t1 t2 t3 (CompletionOk x) a))
        = (if js_to_string m then 200 else 500)%Z)
  (* failed completion request *)
  /\ (forall (s : KeywordApi.SessionState) (m : jsval) (t1 t2 : Z) (e : string),
     fst (KeywordApi.express_chat s m t1 t2 (CompletionFail e))
       = KeywordApi.addMessage s "user" m t1
     /\ snd (KeywordApi.express_chat s m t1 t2 (CompletionFail e))
       = Http 500 (JObj [("error", JStr "Failed to process message")])
     /\ fst (KeywordApi.netlify_chat s m t1 t2 (CompletionFail e))
       = KeywordApi.addMessage s "user" m t1
     /\ snd (KeywordApi.netlify_chat s m t1 t2 (CompletionFail e))
       = Http 500 (JObj [("error", JStr "Internal server error"); ("message", JStr e)]))
  /\ (forall (s : AssistedApi.SessionState) (m : jsval) (t1 t2 t3 : Z) (e : string)
        (a : AssistedApi.analysis_outcome),
     let s' := fst (AssistedApi.chat s m t1 t2 t3 (CompletionFail e) a) in
     s' = AssistedApi.addMessage s "user" m t1
     /\ AssistedApi.conversationHistory s'
        = app (AssistedApi.conversationHistory s) [Message "user" m t1]
     /\ AssistedApi.stage s' = AssistedApi.stage s
     /\ AssistedApi.stageData s' = AssistedApi.stageData s
     /\ snd (AssistedApi.chat s m t1 t2 t3 (CompletionFail e) a)
        = Http 500 (JObj [("error", JStr "Internal server error"); ("message", JStr e)]))
  (* timestamps under a non-decreasing clock *)
  /\ (forall (s : KeywordApi.SessionState) (m : jsval) (t1 t2 : Z) (c : completion),
     timestamps_sorted (KeywordApi.conversationHistory s) ->
     (forall e, In e (KeywordApi.conversationHistory s) -> (timestamp e <= t1)%Z) ->
     (t1 <= t2)%Z ->
     timestamps_sorted (KeywordApi.conversationHistory (fst (KeywordApi.express_chat s m t1 t2 c)))
     /\ timestamps_sorted (KeywordApi.conversationHistory (fst (KeywordApi.netlify_chat s m t1 t2 c))))
  /\ (forall (s : AssistedApi.SessionState) (m : jsval) (t1 t2 t3 : Z) (c : completion)
        (a : AssistedApi.analysis_outcome),
     timestamps_sorted (AssistedApi.conversationHistory s) ->
     (forall e, In e (AssistedApi.conversationHistory s) -> (timestamp e <= t1)%Z) ->
     (t1 <= t2)%Z ->
     timestamps_sorted (AssistedApi.conversationHistory (fst (AssistedApi.chat s m t1 t2 t3 c a))))
  (* entry counts over a sequence of turns from a new session *)
  /\ (forall (id : string) (ts : list (jsval * Z * Z * completion)),
     length (KeywordApi.conversationHistory
               (run_turns (keyword_turn KeywordApi.express_chat) (KeywordApi.new_SessionState id) ts))
     = 2 * count_ok keyword_turn_ok ts + count_failed keyword_turn_ok ts
     /\ length (KeywordApi.conversationHistory
               (run_turns (keyword_turn KeywordApi.netlify_chat) (KeywordApi.new_SessionState id) ts))
     = 2 * count_ok keyword_turn_ok ts + count_failed keyword_turn_ok ts)
  /\ (forall (id : string) (t0 t1 : Z)
        (ts : list (jsval * Z * Z * Z * completion * AssistedApi.analysis_outcome)),
     length (AssistedApi.conversationHistory
               (run_turns assisted_turn (AssistedApi.new_SessionState id t0 t1) ts))
     = 2 * count_ok assisted_turn_ok ts + count_failed assisted_turn_ok ts).
Proof.
  split; [|split; [|split; [|split; [|split; [|split; [|split]]]]]].
  - intros s m t1 t2 x u r.
    rewrite express_chat_history, netlify_chat_history. repeat split.
  - intros s m t1 t2 t3 x a. rewrite assisted_chat_history, assisted_chat_status.
    split; reflexivity.
  - intros s m t1 t2 e. repeat split.
  - intros s m t1 t2 t3 e a s'. repeat split.
  - intros s m t1 t2 c Hs Hle H12.
    rewrite express_chat_history, netlify_chat_history.
    split; apply turn_entries_sorted; assumption.
  - intros s m t1 t2 t3 c a Hs Hle H12.
    rewrite assisted_chat_history. apply turn_entries_sorted; assumption.
  - intros id ts. split.
    + rewrite (run_turns_length _ _ KeywordApi.conversationHistory _ keyword_turn_ok).
      * reflexivity.
      * intros s [[[m t1] t2] c]. simpl.
        rewrite express_chat_history, length_app, turn_entries_length. reflexivity.
    + rewrite (run_turns_length _ _ KeywordApi.conversationHistory _ keyword_turn_ok).
      * reflexivity.
      * intros s [[[m t1] t2] c]. simpl.
        rewrite netlify_chat_history, length_app, turn_entries_length. reflexivity.
  - intros id t0 t1 ts.
    rewrite (run_turns_length _ _ AssistedApi.conversationHistory _ assisted_turn_ok).
    + reflexivity.
    + intros s [[[[[m u1] u2] u3] c] a]. simpl.
      rewrite assisted_chat_history, length_app, turn_entries_length. reflexivity.
Qed.

(** ** Reports *)

(** C7 (counterexample). The test.js report reads the clock: on the same,
    unchanged session it embeds the elapsed minutes since [startTime], so
    two calls one minute apart give different text. *)
Lemma report_depends_on_clock :
  let s := AssistedApi.new_SessionState "s" 0 0 in
  fst (AssistedApi.report s "10/18/2026" 0) = s
  /\ fst (AssistedApi.report s "10/18/2026" 60000) = s
  /\ AssistedApi.generateComprehensiveReport s "10/18/2026" 0
     <> AssistedApi.generateComprehensiveReport s "10/18/2026" 60000.
Proof.
  cbv zeta. split; [apply AssistedFacts.report_fst|].
  split; [apply AssistedFacts.report_fst|].
  intro H.
  apply (f_equal (fun o => match o with
                           | Some r => includes r "Total Session Time: 1 minutes"
                           | None => false
                           end)) in H.
  vm_compute in H. discriminate H.
Qed.

(** C7 (amended). No report handler changes the session. The Express and
    simple-api.js reports are functions of the session alone; the test.js
    report is a function of the session, the date text and the elapsed
    minutes since [startTime], so two calls on an unchanged session with
    the same date text and the same elapsed minutes give the same text. *)
Theorem report_pure_given_clock :
  (forall (s : KeywordApi.SessionState),
     fst (KeywordApi.express_report s) = s /\ fst (KeywordApi.netlify_report s) = s)
  /\ (forall (s : AssistedApi.SessionState) (d : string) (n : Z),
     fst (AssistedApi.report s d n) = s)
  /\ (forall (s : AssistedApi.SessionState) (d : string) (n n' : Z),
     AssistedApi.elapsed_minutes n (AssistedApi.startTime s)
     = AssistedApi.elapsed_minutes n' (AssistedApi.startTime s) ->
     AssistedApi.report s d n = AssistedApi.report s d n').
Proof.
  split; [|split].
  - intro s. split; [|reflexivity].
    unfold KeywordApi.express_report.
    destruct (KeywordApi.generateCOMPASReport s); reflexivity.
  - exact AssistedFacts.report_fst.
  - intros s d n n' H. unfold AssistedApi.report.
    replace (AssistedApi.generateComprehensiveReport s d n')
      with (AssistedApi.generateComprehensiveReport s d n); [reflexivity|].
    unfold AssistedApi.generateComprehensiveReport. rewrite H. reflexivity.
Qed.

(** ** Instances of the theorems at concrete sessions *)

(** C3 at a new session: the [context_discovery] record receives the
    extracted [situationDescription] and the stage advances. *)
Lemma assisted_merge_then_advance_witness :
  let s := AssistedApi.new_SessionState "s" 0 0 in
  let m := JStr "Yes" in
  let fs := [("shouldProgress", JBool true);
             ("extractedData", JObj [("situationDescription", JStr "Y")])] in
  js_to_string m <> None
  /\ assoc (stage_key (AssistedApi.stage s)) (AssistedApi.stageData s)
    = Some [("situationDescription", JStr ""); ("stakeholders", JArr []);
            ("constraints", JArr []); ("artifacts", JArr []);
            ("completed", JBool false)]
  /\ assoc "shouldProgress" fs = Some (JBool true)
  /\ assoc "extractedData" fs = Some (JObj [("situationDescription", JStr "Y")])
  /\ assoc "__proto__" [("situationDescription", JStr "Y")] = None
  /\ AssistedApi.stage (fst (AssistedApi.analyzeAndProgressStage s m
        (AssistedApi.AnalysisText (Some (JObj fs))) 5%Z))
     = successor_or_self (AssistedApi.stage s).
Proof.
  cbv zeta.
  assert (Hm : js_to_string (JStr "Yes") <> None) by discriminate.
  assert (H1 : assoc (stage_key (AssistedApi.stage (AssistedApi.new_SessionState "s" 0 0)))
                 (AssistedApi.stageData (AssistedApi.new_SessionState "s" 0 0))
               = Some [("situationDescription", JStr ""); ("stakeholders", JArr []);
                       ("constraints", JArr []); ("artifacts", JArr []);
                       ("completed", JBool false)]) by reflexivity.
  split; [exact Hm|]. split; [exact H1|]. split; [reflexivity|]. split; [reflexivity|].
  split; [reflexivity|].
  exact (proj1 (proj2 (proj1 assisted_merge_then_advance
           (AssistedApi.new_SessionState "s" 0 0) (JStr "Yes") _
           [("shouldProgress", JBool true);
            ("extractedData", JObj [("situationDescription", JStr "Y")])]
           [("situationDescription", JStr "Y")] true 5%Z Hm H1 eq_refl eq_refl eq_refl))).
Defined.

(** C5 after one advancing turn: ContextDiscovery lies behind the current
    stage and its flag is [true]. *)
Lemma completed_after_leaving_witness :
  let ops := [AssistedApi.Chat (JStr "hi") 1 2 3 (CompletionOk "Yes, that's right")
                (AssistedApi.AnalysisText
                   (Some (JObj [("shouldProgress", JBool true)])))] in
  stage_rank CONTEXT_DISCOVERY
    < stage_rank (AssistedApi.stage (AssistedApi.run (AssistedApi.new_SessionState "s" 0 0) ops))
  /\ AssistedApi.completed_flag
       (AssistedApi.run (AssistedApi.new_SessionState "s" 0 0) ops) CONTEXT_DISCOVERY
     = Some (JBool true).
Proof.
  cbv zeta.
  assert (Hlt : stage_rank CONTEXT_DISCOVERY
    < stage_rank (AssistedApi.stage (AssistedApi.run (AssistedApi.new_SessionState "s" 0 0)
        [AssistedApi.Chat (JStr "hi") 1 2 3 (CompletionOk "Yes, that's right")
           (AssistedApi.AnalysisText (Some (JObj [("shouldProgress", JBool true)])))])))
    by (apply Nat.ltb_lt; vm_compute; reflexivity).
  split; [exact Hlt|].
  exact (proj1 (proj2 (completed_after_leaving "s" 0 0 _ [] CONTEXT_DISCOVERY) Hlt)).
Defined.

(** C9 at a session in Complete. *)
Lemma complete_is_terminal_witness :
  let s := KeywordApi.setStage (KeywordApi.new_SessionState "s") COMPLETE in
  KeywordApi.stage s = COMPLETE
  /\ KeywordApi.updateSessionStage s "Yes, that's right; see the implementation plan" = s.
Proof.
  cbv zeta. split; [reflexivity|].
  exact (proj1 complete_is_terminal
           (KeywordApi.setStage (KeywordApi.new_SessionState "s") COMPLETE) _ eq_refl).
Defined.

(** C10 with the key [notes], absent from [stageData] and not a name of
    [Object.prototype]. *)
Lemma updateStageData_absent_key_witness :
  let s := AssistedApi.new_SessionState "s" 0 0 in
  assoc "notes" (AssistedApi.stageData s) = None
  /\ proto_member "notes" = false
  /\ AssistedApi.updateStageData s "notes" (JObj [("a", JNum 1)]) = Some s.
Proof.
  cbv zeta.
  assert (H1 : assoc "notes" (AssistedApi.stageData (AssistedApi.new_SessionState "s" 0 0))
               = None) by reflexivity.
  assert (H2 : proto_member "notes" = false) by reflexivity.
  split; [exact H1|]. split; [exact H2|].
  exact (proj2 (updateStageData_absent_key _ _ (JObj [("a", JNum 1)]) H1) H2).
Defined.

(** C4 at a new session: a failed analysis request keeps the stage, and a
    bare [{shouldProgress: true}] advances it. *)
Lemma analysis_failure_is_noop_witness :
  let s := AssistedApi.new_SessionState "s" 0 0 in
  let fs := [("shouldProgress", JBool true)] in
  AssistedApi.stage (fst (AssistedApi.chat s (JStr "hi") 1 2 3 (CompletionOk "ok")
                            (AssistedApi.AnalysisFail "timeout")))
    = AssistedApi.stage s
  /\ js_to_string (JStr "hi") <> None
  /\ assoc "extractedData" fs = None
  /\ assoc "shouldProgress" fs = Some (JBool true)
  /\ AssistedApi.stage (fst (AssistedApi.chat s (JStr "hi") 1 2 3 (CompletionOk "ok")
                               (AssistedApi.AnalysisText (Some (JObj fs)))))
     = successor_or_self (AssistedApi.stage s).
Proof.
  cbv zeta. split.
  - exact (proj1 (proj1 analysis_failure_is_noop _ (JStr "hi") 1%Z 2%Z 3%Z "ok"
             (AssistedApi.AnalysisFail "timeout")
             (or_introl (ex_intro _ "timeout" eq_refl)))).
  - assert (Hm : js_to_string (JStr "hi") <> None) by discriminate.
    split; [exact Hm|]. split; [reflexivity|]. split; [reflexivity|].
    exact (proj1 (proj2 analysis_failure_is_noop _ (JStr "hi") 1%Z 2%Z 3%Z "ok"
             [("shouldProgress", JBool true)] (JBool true) Hm eq_refl eq_refl eq_refl)).
Defined.

(** C6 on the first turn of a new session, with readings 1 and 2. *)
Lemma chat_turn_history_witness :
  (1 <= 2)%Z
  /\ timestamps_sorted (KeywordApi.conversationHistory
       (fst (KeywordApi.express_chat (KeywordApi.new_SessionState "s") (JStr "hi") 1%Z 2%Z
               (CompletionOk "ok"))))
  /\ timestamps_sorted (AssistedApi.conversationHistory
       (fst (AssistedApi.chat (AssistedApi.new_SessionState "s" 0 0) (JStr "hi") 1%Z 2%Z 3%Z
               (CompletionOk "ok") (AssistedApi.AnalysisText None)))).
Proof.
  assert (H12 : (1 <= 2)%Z) by lia.
  split; [exact H12|].
  destruct chat_turn_history as [_ [_ [_ [_ [Hk [Ha _]]]]]]. split.
  - exact (proj1 (Hk (KeywordApi.new_SessionState "s") (JStr "hi") 1%Z 2%Z
                    (CompletionOk "ok") I (fun e He => False_ind _ He) H12)).
  - exact (Ha (AssistedApi.new_SessionState "s" 0 0) (JStr "hi") 1%Z 2%Z 3%Z
             (CompletionOk "ok") (AssistedApi.AnalysisText None) I
             (fun e He => False_ind _ He) H12).
Defined.

(** C7 with two readings half a minute apart that round to the same
    elapsed minutes. *)
Lemma report_pure_given_clock_witness :
  let s := AssistedApi.new_SessionState "s" 0 0 in
  AssistedApi.elapsed_minutes 0 (AssistedApi.startTime s)
    = AssistedApi.elapsed_minutes 29999 (AssistedApi.startTime s)
  /\ AssistedApi.report s "10/18/2026" 0 = AssistedApi.report s "10/18/2026" 29999.
Proof.
  cbv zeta.
  assert (H : AssistedApi.elapsed_minutes 0
                (AssistedApi.startTime (AssistedApi.new_SessionState "s" 0 0))
              = AssistedApi.elapsed_minutes 29999
                (AssistedApi.startTime (AssistedApi.new_SessionState "s" 0 0)))
    by (vm_compute; reflexivity).
  split; [exact H|].
  exact (proj2 (proj2 report_pure_given_clock) _ "10/18/2026" 0%Z 29999%Z H).
Defined.

(* ================================================================== *)
(** * Properties of the HTTP layer *)

(** ** Paths *)

Lemma prefix_app (p r : string) : String.prefix p (p ++ r) = true.
Proof.
  induction p as [|c p IH]; simpl.
  - destruct r; reflexivity.
  - destruct (Ascii.ascii_dec c c); [exact IH | contradiction].
Qed.

Lemma drop_app (p r : string) : drop (String.length p) (p ++ r) = r.
Proof. induction p as [|c p IH]; simpl; [destruct r|]; auto. Qed.

Lemma replace_first_eq (s pat rep : string) :
  replace_first s pat rep =
  if String.prefix pat s then rep ++ drop (String.length pat) s
  else match s with
       | EmptyString => EmptyString
       | String c s' => String c (replace_first s' pat rep)
       end.
Proof. destruct s; reflexivity. Qed.

Lemma replace_first_prefix (p r : string) : replace_first (p ++ r) p "" = r.
Proof. rewrite replace_first_eq, prefix_app. apply drop_app. Qed.

Lemma split_no_slash (id r : string) :
  no_slash id = true ->
  split_on slash (id ++ String slash r) = id :: split_on slash r.
Proof.
  induction id as [|c id IH]; intro H.
  - simpl. reflexivity.
  - simpl in H. apply andb_prop in H. destruct H as [Hc H].
    simpl. rewrite (IH H). destruct (Ascii.eqb c slash); [discriminate|reflexivity].
Qed.

Lemma segment2_sessions (id r : string) :
  no_slash id = true ->
  path_segment2 ("/sessions/" ++ id ++ String slash r) = Some id.
Proof.
  intro H. unfold path_segment2.
  change ("/sessions/" ++ id ++ String slash r)
    with ("" ++ String slash ("sessions" ++ String slash (id ++ String slash r))).
  rewrite (split_no_slash ""), (split_no_slash "sessions"), (split_no_slash id r H);
    reflexivity.
Qed.

Lemma route_path_prefixed (m rest : string) (b : json_parse) :
  route_path (LEvent m (function_prefix ++ rest) b) = rest.
Proof. apply replace_first_prefix. Qed.

Lemma in_set_prop_other {A} (k k' : string) (v v' : A) (l : list (string * A)) :
  k <> k' -> In (k, v) l -> In (k, v) (set_prop k' v' l).
Proof.
  intros Hne. induction l as [|[k0 v0] l IH]; simpl; [tauto|].
  intros [E | H].
  - inversion E; subst. destruct (String.eqb_spec k' k); [congruence|]. left; reflexivity.
  - destruct (String.eqb k' k0); simpl; auto.
Qed.

Lemma read_message_error (b : json_parse) (e : string) :
  read_message b = inl e <->
  b = ParseError e \/
  (exists v, b = Parsed v /\ (v = JNull \/ v = JUndef) /\ e = destructure_message v).
Proof.
  split.
  - destruct b as [e'|v]; simpl.
    + intro H; inversion H; auto.
    + destruct v; simpl; try discriminate;
        intro H; inversion H; right; eexists; repeat split; eauto.
  - intros [-> | [v [-> [[-> | ->] ->]]]]; reflexivity.
Qed.

Lemma append_empty_r (s : string) : s ++ "" = s.
Proof. induction s as [|c s IH]; simpl; [reflexivity | now rewrite IH]. Qed.

Lemma includes_suffix (a pat : string) : includes (a ++ pat) pat = true.
Proof.
  induction a as [|c a IH]; simpl.
  - destruct pat as [|c p]; [reflexivity|].
    unfold includes. rewrite <- (append_empty_r (String c p)) at 2.
    rewrite prefix_app. reflexivity.
  - rewrite IH. apply orb_true_r.
Qed.

(** Settles the comparisons of literal strings left by a rewrite of the
    request method or path. *)
Ltac lit_reduce :=
  repeat match goal with
  | |- context [String.eqb ?a ?b] =>
      let e := eval vm_compute in (String.eqb a b) in
      lazymatch e with
      | true => change (String.eqb a b) with true
      | false => change (String.eqb a b) with false
      end
  | |- context [String.prefix ?a ?b] =>
      let e := eval vm_compute in (String.prefix a b) in
      lazymatch e with
      | true => change (String.prefix a b) with true
      | false => change (String.prefix a b) with false
      end
  | |- context [includes ?a ?b] =>
      let e := eval vm_compute in (includes a b) in
      lazymatch e with
      | true => change (includes a b) with true
      | false => change (includes a b) with false
      end
  end; cbn [andb orb].

(** Splits a handler into its branches. *)
Ltac branches :=
  cbv zeta;
  repeat match goal with
  | |- context [if ?b then _ else _] => destruct b eqn:?
  | |- context [match ?x with Some _ => _ | None => _ end] => destruct x eqn:?
  | |- context [match ?x with inl _ => _ | inr _ => _ end] => destruct x eqn:?
  end.

Ltac in_cors :=
  cbn [snd fst lheaders json_response from_http preflight_response
       session_not_found route_not_found server_error];
  try (unfold TestHandler.attachment_headers;
       repeat (apply in_set_prop_other; [discriminate|]));
  unfold cors_headers; repeat (first [left; reflexivity | right]).

(** ** Extra properties of the two Netlify handlers *)

(** Every response of both Netlify handlers, whatever the method, path,
    body or outcome (errors and file downloads included), carries the
    header [Access-Control-Allow-Origin: *]. *)
Theorem handlers_cors_every_response :
  (forall sessions ev inp,
     In ("Access-Control-Allow-Origin", "*")
        (lheaders (snd (SimpleApiHandler.handler sessions ev inp)))) /\
  (forall sessions ev inp,
     In ("Access-Control-Allow-Origin", "*")
        (lheaders (snd (TestHandler.handler sessions ev inp)))).
Proof.
  split; intros sessions ev inp.
  - unfold SimpleApiHandler.handler; branches; in_cors.
  - unfold TestHandler.handler; branches; in_cors.
Qed.

(** A GET whose routed path starts with [/sessions/] is answered by the
    session-lookup route in both handlers: the session view or 404, store
    unchanged. So [GET .../sessions/<id>/report] for an existing session
    (id without '/') returns the session view, not the report. *)
Theorem get_sessions_prefix_shadows_report :
  (forall sessions ev inp,
     httpMethod ev = "GET" -> String.prefix "/sessions/" (route_path ev) = true ->
     SimpleApiHandler.handler sessions ev inp =
     (sessions, match sessions_get sessions (path_segment2 (route_path ev)) with
                | None => session_not_found
                | Some s => json_response 200 (SimpleApiHandler.session_view s)
                end)) /\
  (forall sessions ev inp,
     httpMethod ev = "GET" -> String.prefix "/sessions/" (route_path ev) = true ->
     TestHandler.handler sessions ev inp =
     (sessions, match sessions_get sessions (path_segment2 (route_path ev)) with
                | None => session_not_found
                | Some s => json_response 200 (TestHandler.session_view s)
                end)) /\
  (forall sessions id s b inp,
     no_slash id = true -> assoc id sessions = Some s ->
     SimpleApiHandler.handler sessions
       (LEvent "GET" (function_prefix ++ "/sessions/" ++ id ++ "/report") b) inp =
     (sessions, json_response 200 (SimpleApiHandler.session_view s))) /\
  (forall sessions id s b inp,
     no_slash id = true -> assoc id sessions = Some s ->
     TestHandler.handler sessions
       (LEvent "GET" (function_prefix ++ "/sessions/" ++ id ++ "/report") b) inp =
     (sessions, json_response 200 (TestHandler.session_view s))).
Proof.
  assert (Hs : forall sessions ev inp,
     httpMethod ev = "GET" -> String.prefix "/sessions/" (route_path ev) = true ->
     SimpleApiHandler.handler sessions ev inp =
     (sessions, match sessions_get sessions (path_segment2 (route_path ev)) with
                | None => session_not_found
                | Some s => json_response 200 (SimpleApiHandler.session_view s)
                end)).
  { intros sessions ev inp Hm Hp. unfold SimpleApiHandler.handler.
    rewrite Hm. lit_reduce. rewrite Hp. cbn iota beta.
    destruct (sessions_get _ _); reflexivity. }
  assert (Ht : forall sessions ev inp,
     httpMethod ev = "GET" -> String.prefix "/sessions/" (route_path ev) = true ->
     TestHandler.handler sessions ev inp =
     (sessions, match sessions_get sessions (path_segment2 (route_path ev)) with
                | None => session_not_found
                | Some s => json_response 200 (TestHandler.session_view s)
                end)).
  { intros sessions ev inp Hm Hp. unfold TestHandler.handler.
    rewrite Hm. lit_reduce. rewrite Hp. cbn iota beta.
    destruct (sessions_get _ _); reflexivity. }
  assert (Hr : forall id b, no_slash id = true ->
     let ev := LEvent "GET" (function_prefix ++ "/sessions/" ++ id ++ "/report") b in
     String.prefix "/sessions/" (route_path ev) = true /\
     path_segment2 (route_path ev) = Some id).
  { intros id b Hid ev. unfold ev. rewrite route_path_prefixed.
    split; [apply prefix_app | apply (segment2_sessions id "report" Hid)]. }
  repeat split; auto.
  - intros sessions id s b inp Hid Hl. destruct (Hr id b Hid) as [Hp Hseg].
    rewrite Hs; [|reflexivity|exact Hp]. rewrite Hseg. cbn. rewrite Hl. reflexivity.
  - intros sessions id s b inp Hid Hl. destruct (Hr id b Hid) as [Hp Hseg].
    rewrite Ht; [|reflexivity|exact Hp]. rewrite Hseg. cbn. rewrite Hl. reflexivity.
Qed.

(** Apart from the preflight and the creation of a session, a request
    whose session id (the third segment of the routed path) names no stored
    session leaves the store of either Netlify handler unchanged and is
    answered with status 404. *)
Theorem handlers_unknown_session_404 :
  (forall sessions ev inp,
     httpMethod ev <> "OPTIONS" ->
     ~ (httpMethod ev = "POST" /\ route_path ev = "/sessions") ->
     sessions_get sessions (path_segment2 (route_path ev)) = None ->
     fst (SimpleApiHandler.handler sessions ev inp) = sessions /\
     lstatusCode (snd (SimpleApiHandler.handler sessions ev inp)) = 404%Z) /\
  (forall sessions ev inp,
     httpMethod ev <> "OPTIONS" ->
     ~ (httpMethod ev = "POST" /\ route_path ev = "/sessions") ->
     sessions_get sessions (path_segment2 (route_path ev)) = None ->
     fst (TestHandler.handler sessions ev inp) = sessions /\
     lstatusCode (snd (TestHandler.handler sessions ev inp)) = 404%Z).
Proof.
  split; intros sessions ev inp Hopt Hcr Hnone;
    [unfold SimpleApiHandler.handler | unfold TestHandler.handler]; cbv zeta;
    (destruct (String.eqb (httpMethod ev) "OPTIONS") eqn:E1;
      [apply String.eqb_eq in E1; contradiction|]);
    (destruct (String.eqb (httpMethod ev) "POST" && String.eqb (route_path ev) "/sessions") eqn:E2;
      [apply andb_prop in E2; destruct E2 as [A B];
       apply String.eqb_eq in A; apply String.eqb_eq in B; tauto|]);
    destruct (path_segment2 (route_path ev)) as [id|] eqn:Eseg;
    cbn [sessions_get] in Hnone |- *; try rewrite Hnone;
    branches; try (split; reflexivity); congruence.
Qed.

(** A chat request whose body is not JSON, or is [null], gets no turn: the
    store is unchanged and the answer is 404 for an unknown session and
    500 carrying the error message for a known one. *)
Theorem chat_malformed_body :
  (forall b e, read_message b = inl e <->
     b = ParseError e \/
     (exists v, b = Parsed v /\ (v = JNull \/ v = JUndef) /\ e = destructure_message v)) /\
  (forall sessions ev inp e,
     httpMethod ev = "POST" -> includes (route_path ev) "/chat" = true ->
     read_message (body_json ev) = inl e ->
     SimpleApiHandler.handler sessions ev inp =
     (sessions, match sessions_get sessions (path_segment2 (route_path ev)) with
                | None => session_not_found
                | Some _ => server_error e
                end)) /\
  (forall sessions ev inp e,
     httpMethod ev = "POST" -> includes (route_path ev) "/chat" = true ->
     read_message (body_json ev) = inl e ->
     TestHandler.handler sessions ev inp =
     (sessions, match sessions_get sessions (path_segment2 (route_path ev)) with
                | None => session_not_found
                | Some _ => server_error e
                end)).
Proof.
  split; [exact read_message_error|].
  split; intros sessions ev inp e Hm Hinc Hread;
    [unfold SimpleApiHandler.handler | unfold TestHandler.handler]; cbv zeta;
    rewrite Hm; lit_reduce;
    (destruct (String.eqb_spec (route_path ev) "/sessions") as [E|E];
      [rewrite E in Hinc; discriminate|]);
    rewrite Hinc; cbn iota;
    (destruct (path_segment2 (route_path ev)) as [id|]; cbn [sessions_get]; [|reflexivity]);
    (destruct (assoc id sessions); [rewrite Hread|]); reflexivity.
Qed.

(** [POST /sessions] stores a new session under the fresh id, at stage
    [context_discovery], answers 200 with that id and stage, and leaves
    every other stored session as it was. *)
Theorem create_session_route :
  (forall sessions ev inp,
     httpMethod ev = "POST" -> route_path ev = "/sessions" ->
     let r := SimpleApiHandler.handler sessions ev inp in
     snd r = json_response 200
               (JObj [("sessionId", JStr (SimpleApiHandler.fresh_id inp));
                      ("stage", JStr "context_discovery")]) /\
     assoc (SimpleApiHandler.fresh_id inp) (fst r) =
       Some (KeywordApi.new_SessionState (SimpleApiHandler.fresh_id inp)) /\
     (forall k, k <> SimpleApiHandler.fresh_id inp -> assoc k (fst r) = assoc k sessions)) /\
  (forall sessions ev inp,
     httpMethod ev = "POST" -> route_path ev = "/sessions" ->
     let r := TestHandler.handler sessions ev inp in
     snd r = json_response 200
               (JObj [("sessionId", JStr (TestHandler.fresh_id inp));
                      ("stage", JStr "context_discovery")]) /\
     assoc (TestHandler.fresh_id inp) (fst r) =
       Some (AssistedApi.new_SessionState (TestHandler.fresh_id inp)
               (TestHandler.t_created inp) (TestHandler.t_created_stage inp)) /\
     (forall k, k <> TestHandler.fresh_id inp -> assoc k (fst r) = assoc k sessions)).
Proof.
  split; intros sessions ev inp Hm Hp r; unfold r;
    [unfold SimpleApiHandler.handler | unfold TestHandler.handler]; cbv zeta;
    rewrite Hm, Hp; lit_reduce; cbn [fst snd];
    (split; [reflexivity|]);
    (split; [rewrite assoc_set_prop, String.eqb_refl; reflexivity|]);
    intros k Hk; rewrite assoc_set_prop;
    match goal with |- (if String.eqb k ?x then _ else _) = _ =>
      destruct (String.eqb_spec k x); [contradiction | reflexivity] end.
Qed.

(** A request of either Netlify handler changes at most two entries of
    the store: the one named by the third segment of its routed path and
    the one under the freshly generated id. *)
Theorem handlers_store_isolation :
  (forall sessions ev inp k,
     path_segment2 (route_path ev) <> Some k -> k <> SimpleApiHandler.fresh_id inp ->
     assoc k (fst (SimpleApiHandler.handler sessions ev inp)) = assoc k sessions) /\
  (forall sessions ev inp k,
     path_segment2 (route_path ev) <> Some k -> k <> TestHandler.fresh_id inp ->
     assoc k (fst (TestHandler.handler sessions ev inp)) = assoc k sessions).
Proof.
  split; intros sessions ev inp k Hseg Hfresh;
    [unfold SimpleApiHandler.handler | unfold TestHandler.handler]; branches;
    cbn [fst]; try reflexivity; rewrite assoc_set_prop;
    match goal with |- (if String.eqb k ?x then _ else _) = _ =>
      destruct (String.eqb_spec k x) as [->|]; [congruence | reflexivity] end.
Qed.

Lemma append_assoc_str (a b c : string) : (a ++ b) ++ c = a ++ b ++ c.
Proof. induction a as [|x a IH]; simpl; [reflexivity | now rewrite IH]. Qed.

(** The chat URL [/.netlify/functions/simple-api/sessions/<id>/chat] with
    body [{message}], for a stored session whose id has no '/', runs one
    chat turn of that session ([netlify_chat] in simple-api.js, the
    assisted [chat] in test.js), stores its new state under the id and
    returns its response. *)
Theorem chat_url_round_trip :
  (forall sessions id s m inp,
     no_slash id = true -> assoc id sessions = Some s ->
     SimpleApiHandler.handler sessions
       (LEvent "POST" (function_prefix ++ "/sessions/" ++ id ++ "/chat")
          (Parsed (JObj [("message", m)]))) inp =
     let res := KeywordApi.netlify_chat s m (SimpleApiHandler.t_user inp)
                  (SimpleApiHandler.t_assistant inp) (SimpleApiHandler.completion_result inp) in
     (set_prop id (fst res) sessions, from_http (snd res))) /\
  (forall sessions id s m inp,
     no_slash id = true -> assoc id sessions = Some s ->
     TestHandler.handler sessions
       (LEvent "POST" (function_prefix ++ "/sessions/" ++ id ++ "/chat")
          (Parsed (JObj [("message", m)]))) inp =
     let res := AssistedApi.chat s m (TestHandler.t_user inp) (TestHandler.t_assistant inp)
                  (TestHandler.t_stage inp) (TestHandler.completion_result inp)
                  (TestHandler.analysis_result inp) in
     (set_prop id (fst res) sessions, from_http (snd res))).
Proof.
  assert (Hpath : forall id, no_slash id = true ->
    String.eqb ("/sessions/" ++ id ++ "/chat") "/sessions" = false /\
    includes ("/sessions/" ++ id ++ "/chat") "/chat" = true /\
    path_segment2 ("/sessions/" ++ id ++ "/chat") = Some id).
  { intros id Hid. split; [|split].
    - destruct (String.eqb_spec ("/sessions/" ++ id ++ "/chat") "/sessions") as [E|];
        [simpl in E; discriminate | reflexivity].
    - rewrite <- append_assoc_str. apply includes_suffix.
    - exact (segment2_sessions id "chat" Hid). }
  split; intros sessions id s m inp Hid Hl; destruct (Hpath id Hid) as [E1 [E2 E3]];
    [unfold SimpleApiHandler.handler | unfold TestHandler.handler]; cbv zeta;
    cbn [httpMethod body_json]; rewrite route_path_prefixed, E1, E2, E3; lit_reduce;
    rewrite Hl; reflexivity.
Qed.

(** ** The Express server *)

Lemma js_get_none (v : jsval) (k : string) :
  js_get v k = None <-> v = JNull \/ v = JUndef.
Proof.
  split.
  - destruct v; cbn; try (destruct (String.eqb k "length"), (index_of_key k));
      try discriminate; auto.
  - intros [-> | ->]; reflexivity.
Qed.

Lemma concat_each_none (f : jsval -> option string) (l : list jsval) :
  KeywordApi.concat_each f l = None <-> Exists (fun x => f x = None) l.
Proof.
  induction l as [|x l IH]; cbn.
  - split; [discriminate | intro H; inversion H].
  - rewrite Exists_cons, <- IH. destruct (f x); cbn.
    + destruct (KeywordApi.concat_each f l); cbn; intuition discriminate.
    + intuition.
Qed.

Lemma concat_each_snoc (f : jsval -> option string) (l : list jsval) (a : jsval) :
  KeywordApi.concat_each f (app l [a]) =
  opt_bind (KeywordApi.concat_each f l) (fun rows =>
  opt_bind (f a) (fun row => Some (rows ++ row))).
Proof.
  induction l as [|x l IH]; cbn.
  - destruct (f a); cbn; [rewrite append_empty_r|]; reflexivity.
  - rewrite IH. destruct (f x); cbn; [|reflexivity].
    destruct (KeywordApi.concat_each f l); cbn; [|reflexivity].
    destruct (f a); cbn; [|reflexivity]. rewrite append_assoc_str. reflexivity.
Qed.

Lemma js_get_some (v : jsval) (k : string) :
  v <> JNull -> v <> JUndef -> exists x, js_get v k = Some x.
Proof.
  intros Hn Hu. destruct v; try congruence; unfold js_get;
    repeat match goal with
           | |- context [if ?b then _ else _] => destruct b
           | |- context [match ?x with Some _ => _ | None => _ end] => destruct x
           end; eauto.
Qed.

Lemma null_or_object (v : jsval) : v = JNull \/ v = JUndef \/ (v <> JNull /\ v <> JUndef).
Proof. destruct v; auto; right; right; split; discriminate. Qed.

(** A falsy value always converts to a string. *)
Lemma falsy_converts (v : jsval) : truthy v = false -> js_to_string v <> None.
Proof. intro H. destruct v; cbn in *; congruence. Qed.

Lemma js_or_to_string (v : jsval) (d : string) :
  js_to_string (js_or v (JStr d)) = None <-> js_to_string v = None.
Proof.
  unfold js_or. destruct (truthy v) eqn:T; [reflexivity|].
  split; [discriminate|]. intro H. exfalso. exact (falsy_converts v T H).
Qed.

Lemma bullet_line_none (x : jsval) :
  KeywordApi.bullet_line x = None <-> js_to_string x = None.
Proof. unfold KeywordApi.bullet_line. destruct (js_to_string x); cbn; split; congruence. Qed.

Lemma concat_each_bullet_none (l : list jsval) :
  KeywordApi.concat_each KeywordApi.bullet_line l = None <->
  Exists (fun x => js_to_string x = None) l.
Proof.
  rewrite concat_each_none. split; apply Exists_impl; intro x; apply bullet_line_none.
Qed.

Lemma concat_each_ext (f g : jsval -> option string) (l : list jsval) :
  (forall x, f x = g x) -> KeywordApi.concat_each f l = KeywordApi.concat_each g l.
Proof. intro H. induction l as [|x l IH]; cbn; [reflexivity|]. rewrite H, IH. reflexivity. Qed.

(** An artifact row fails exactly when the artifact is [null] or
    [undefined] or one of the four printed fields cannot be converted. *)
Lemma artifact_row_none (a : jsval) :
  KeywordApi.artifact_row a = None <->
  Exists (fun k => opt_bind (js_get a k) js_to_string = None)
         ["filename"; "mimetype"; "owner"; "source"].
Proof.
  rewrite !Exists_cons, Exists_nil.
  destruct (null_or_object a) as [-> | [-> | [Hn Hu]]]; [cbn; intuition..|].
  destruct (js_get_some a "filename" Hn Hu) as [f Ef].
  destruct (js_get_some a "mimetype" Hn Hu) as [m Em].
  destruct (js_get_some a "owner" Hn Hu) as [o Eo].
  destruct (js_get_some a "sensitivity" Hn Hu) as [se Ese].
  destruct (js_get_some a "source" Hn Hu) as [so Eso].
  unfold KeywordApi.artifact_row. rewrite Ef, Em, Eo, Ese, Eso. cbn [opt_bind].
  destruct (js_to_string f), (js_to_string m), (js_to_string o), (js_to_string so);
    cbn; intuition congruence.
Qed.

(** The Markdown export prints an artifact as the Express report does. *)
Lemma md_artifact_row_eq (a : jsval) :
  ExpressServer.md_artifact_row a = KeywordApi.artifact_row a.
Proof.
  destruct (null_or_object a) as [-> | [-> | [Hn Hu]]]; [reflexivity..|].
  destruct (js_get_some a "filename" Hn Hu) as [f Ef].
  destruct (js_get_some a "mimetype" Hn Hu) as [m Em].
  destruct (js_get_some a "owner" Hn Hu) as [o Eo].
  destruct (js_get_some a "sensitivity" Hn Hu) as [se Ese].
  destruct (js_get_some a "source" Hn Hu) as [so Eso].
  unfold ExpressServer.md_artifact_row, KeywordApi.artifact_row.
  rewrite Ef, Em, Eo, Ese, Eso. cbn [opt_bind].
  destruct (js_to_string f), (js_to_string m), (js_to_string o), (js_to_string so);
    reflexivity.
Qed.

Ltac opt_chain :=
  repeat match goal with
         | |- context [opt_bind ?o _] => destruct o; cbn [opt_bind]
         end.

Lemma generateCOMPASReport_none (s : KeywordApi.SessionState) :
  KeywordApi.generateCOMPASReport s = None <->
  js_to_string (KeywordApi.objective s) = None
  \/ js_to_string (KeywordApi.chosenMethod s) = None
  \/ Exists (fun a => KeywordApi.artifact_row a = None) (KeywordApi.context_artifacts s)
  \/ Exists (fun x => js_to_string x = None) (KeywordApi.context_facts s)
  \/ Exists (fun x => js_to_string x = None) (KeywordApi.performanceMeasures s)
  \/ Exists (fun x => js_to_string x = None) (KeywordApi.learningQuestions s).
Proof.
  unfold KeywordApi.generateCOMPASReport. cbv zeta.
  rewrite <- (js_or_to_string (KeywordApi.objective s) "Nonprofit Challenge"),
    <- (js_or_to_string (KeywordApi.chosenMethod s) "To be selected"),
    <- concat_each_none, <- !concat_each_bullet_none.
  pose proof (js_or_to_string (KeywordApi.objective s) "Nonprofit Challenge") as T1.
  pose proof (js_or_to_string (KeywordApi.objective s) "To be defined") as T2.
  rewrite <- T2 in T1. revert T1.
  opt_chain; intros [T1a T1b];
    try specialize (T1a eq_refl); try specialize (T1b eq_refl); intuition congruence.
Qed.

(** The upload route never stores anything: multer refuses a file of
    another type or over 10 MiB (500 "Something broke!" from the error
    middleware), and [validateUpload] refuses every other file with 400,
    because a multer file has no [type] field. *)
Lemma upload_route_answer (formatFileSize : Z -> string) (sessions : ExpressServer.store)
    id file body aid t :
  ExpressServer.upload_route formatFileSize sessions id file body aid t =
  (sessions,
   if negb (ExpressServer.fileFilter (ExpressServer.file_mimetype file))
      || Z.ltb ExpressServer.fileSize_limit (ExpressServer.file_size file)
   then ExpressServer.something_broke
   else Http 400 (JObj [("error", JStr "File validation failed");
                        ("errors", JArr [JStr "File type (undefined) is not supported. Allowed types: PDF, CSV, JSON, TXT"])])).
Proof.
  unfold ExpressServer.upload_route.
  destruct (negb _ || _) eqn:C; [reflexivity|].
  apply orb_false_iff in C. destruct C as [_ C].
  unfold ExpressServer.validateFileUpload. cbv zeta.
  unfold ExpressServer.fileSize_limit in C. rewrite C. cbn. reflexivity.
Qed.

(** Every route of the Express server that takes a session id answers 404
    and leaves the store unchanged when the id names no session, except
    the upload route: a file that multer accepts is refused by
    [validateUpload] with 400 before the session is looked up. *)
Theorem express_unknown_session :
  forall (sessions : ExpressServer.store) id, assoc id sessions = None ->
  ExpressServer.get_route sessions id = ExpressServer.not_found /\
  (forall m t1 t2 c,
     ExpressServer.chat_route sessions id m t1 t2 c = (sessions, ExpressServer.not_found)) /\
  (forall ffs file body aid t,
     ExpressServer.fileFilter (ExpressServer.file_mimetype file) = true ->
     (ExpressServer.file_size file <= ExpressServer.fileSize_limit)%Z ->
     ExpressServer.upload_route ffs sessions id file body aid t =
     (sessions, Http 400 (JObj [("error", JStr "File validation failed");
                                ("errors", JArr [JStr "File type (undefined) is not supported. Allowed types: PDF, CSV, JSON, TXT"])]))) /\
  ExpressServer.report_route sessions id = ExpressServer.not_found /\
  (forall fmt inp,
     ExpressServer.export_route sessions id fmt inp =
     (ExpressServer.ExportJson 404 (JObj [("error", JStr "Session not found")]), [])).
Proof.
  intros sessions id H.
  split; [unfold ExpressServer.get_route; rewrite H; reflexivity|].
  split; [intros; unfold ExpressServer.chat_route; rewrite H; reflexivity|].
  split.
  - intros ffs file body aid t Hf Hs. rewrite upload_route_answer, Hf. cbn [negb orb].
    replace (Z.ltb ExpressServer.fileSize_limit (ExpressServer.file_size file)) with false
      by (symmetry; apply Z.ltb_ge; exact Hs).
    reflexivity.
  - unfold ExpressServer.report_route, ExpressServer.export_route.
    rewrite H. split; reflexivity.
Qed.

(** The upload route leaves the store unchanged for every file: a file
    whose type is not PDF, CSV, JSON or plain text, or which is over 10
    MiB, ends in the error middleware (500 "Something broke!"); any other
    file is refused by [validateUpload] with 400 "File validation failed"
    and the single error that its type, [undefined], is not supported. *)
Theorem express_upload_route :
  forall ffs (sessions : ExpressServer.store) id file body aid t,
  ExpressServer.upload_route ffs sessions id file body aid t =
  (sessions,
   if negb (ExpressServer.fileFilter (ExpressServer.file_mimetype file))
      || Z.ltb ExpressServer.fileSize_limit (ExpressServer.file_size file)
   then ExpressServer.something_broke
   else Http 400 (JObj [("error", JStr "File validation failed");
                        ("errors", JArr [JStr "File type (undefined) is not supported. Allowed types: PDF, CSV, JSON, TXT"])])).
Proof. intros. apply upload_route_answer. Qed.


(** ** Runs of one keyword-policy session *)


Lemma keyword_step_frame (s : KeywordApi.SessionState) (o : KeywordApi.op) :
  let s' := KeywordApi.step s o in
  KeywordApi.sessionId s' = KeywordApi.sessionId s /\
  KeywordApi.context_facts s' = KeywordApi.context_facts s /\
  KeywordApi.objective s' = KeywordApi.objective s /\
  KeywordApi.methods s' = KeywordApi.methods s /\
  KeywordApi.chosenMethod s' = KeywordApi.chosenMethod s /\
  KeywordApi.implementationPlan s' = KeywordApi.implementationPlan s /\
  KeywordApi.performanceMeasures s' = KeywordApi.performanceMeasures s /\
  KeywordApi.learningQuestions s' = KeywordApi.learningQuestions s /\
  KeywordApi.context_artifacts s' = app (KeywordApi.context_artifacts s) (upload_of o) /\
  KeywordApi.uploadedFiles s' = app (KeywordApi.uploadedFiles s) (upload_of o).
Proof.
  cbv zeta.
  destruct o as [m t1 t2 [x|e] | m t1 t2 [x|e] | a | | ]; cbn [upload_of];
    rewrite ?app_nil_r.
  - cbn [KeywordApi.step KeywordApi.express_chat fst].
    destruct (KeywordFacts.updateSessionStage_shape
      (KeywordApi.addMessage (KeywordApi.addMessage s "user" m t1) "assistant" (JStr x) t2) x)
      as [E | [_ E]]; rewrite E; repeat split.
  - repeat split.
  - cbn [KeywordApi.step KeywordApi.netlify_chat fst].
    destruct (KeywordFacts.updateSessionStage_shape
      (KeywordApi.addMessage (KeywordApi.addMessage s "user" m t1) "assistant" (JStr x) t2) x)
      as [E | [_ E]]; rewrite E; repeat split.
  - repeat split.
  - repeat split.
  - cbn [KeywordApi.step]. unfold KeywordApi.express_report.
    destruct (KeywordApi.generateCOMPASReport s); repeat split.
  - repeat split.
Qed.

Lemma keyword_run_frame (s : KeywordApi.SessionState) (ops : list KeywordApi.op) :
  let s' := keyword_run s ops in
  let ups := flat_map upload_of ops in
  KeywordApi.sessionId s' = KeywordApi.sessionId s /\
  KeywordApi.context_facts s' = KeywordApi.context_facts s /\
  KeywordApi.objective s' = KeywordApi.objective s /\
  KeywordApi.methods s' = KeywordApi.methods s /\
  KeywordApi.chosenMethod s' = KeywordApi.chosenMethod s /\
  KeywordApi.implementationPlan s' = KeywordApi.implementationPlan s /\
  KeywordApi.performanceMeasures s' = KeywordApi.performanceMeasures s /\
  KeywordApi.learningQuestions s' = KeywordApi.learningQuestions s /\
  KeywordApi.context_artifacts s' = app (KeywordApi.context_artifacts s) ups /\
  KeywordApi.uploadedFiles s' = app (KeywordApi.uploadedFiles s) ups.
Proof.
  cbv zeta. revert s. induction ops as [|o ops IH]; intro s.
  - cbn. rewrite !app_nil_r. repeat split.
  - cbn [keyword_run flat_map].
    destruct (IH (KeywordApi.step s o)) as [E1 [E2 [E3 [E4 [E5 [E6 [E7 [E8 [E9 E10]]]]]]]]].
    destruct (keyword_step_frame s o) as [F1 [F2 [F3 [F4 [F5 [F6 [F7 [F8 [F9 F10]]]]]]]]].
    rewrite E1, E2, E3, E4, E5, E6, E7, E8, E9, E10, F1, F2, F3, F4, F5, F6, F7, F8, F9, F10.
    rewrite !app_assoc. repeat split.
Qed.

(** No operation of the Express server or of simple-api.js (chat turns of
    either, uploads, reports) ever changes a session's id, context facts,
    objective, methods, chosen method, implementation plan, performance
    measures or learning questions; the context artifacts and the uploaded
    files both grow by exactly the uploaded artifacts, in order. *)
Theorem keyword_run_fields :
  forall s ops,
  let s' := keyword_run s ops in
  let ups := flat_map upload_of ops in
  KeywordApi.sessionId s' = KeywordApi.sessionId s /\
  KeywordApi.context_facts s' = KeywordApi.context_facts s /\
  KeywordApi.objective s' = KeywordApi.objective s /\
  KeywordApi.methods s' = KeywordApi.methods s /\
  KeywordApi.chosenMethod s' = KeywordApi.chosenMethod s /\
  KeywordApi.implementationPlan s' = KeywordApi.implementationPlan s /\
  KeywordApi.performanceMeasures s' = KeywordApi.performanceMeasures s /\
  KeywordApi.learningQuestions s' = KeywordApi.learningQuestions s /\
  KeywordApi.context_artifacts s' = app (KeywordApi.context_artifacts s) ups /\
  KeywordApi.uploadedFiles s' = app (KeywordApi.uploadedFiles s) ups.
Proof. exact keyword_run_frame. Qed.

Lemma express_blank_new (id : string) : express_session_blank (KeywordApi.new_SessionState id).
Proof. repeat split. Qed.

Lemma express_blank_serve (ffs : Z -> string) (st : ExpressServer.store)
    (r : ExpressServer.request) :
  (forall id s, assoc id st = Some s -> express_session_blank s) ->
  forall id s, assoc id (ExpressServer.serve ffs st r) = Some s -> express_session_blank s.
Proof.
  intros Hst id s. destruct r as [sid | sid | sid m t1 t2 c | sid file body aid t | sid
                                  | sid fmt inp]; cbn [ExpressServer.serve].
  - cbn [fst ExpressServer.create_route]. rewrite assoc_set_prop.
    destruct (String.eqb id sid); [intro E; injection E as <-; apply express_blank_new|].
    apply Hst.
  - apply Hst.
  - unfold ExpressServer.chat_route.
    destruct (assoc sid st) as [s0|] eqn:E0; cbn [fst]; [|apply Hst].
    rewrite assoc_set_prop. destruct (String.eqb id sid); [|apply Hst].
    intro E; injection E as <-.
    destruct (keyword_step_frame s0 (KeywordApi.ChatExpress m t1 t2 c))
      as [_ [F2 [F3 [_ [F5 [F6 [F7 [F8 [F9 F10]]]]]]]]].
    cbn [upload_of KeywordApi.step] in *. rewrite app_nil_r in F9, F10.
    destruct (Hst sid s0 E0) as [B1 [B2 [B3 [B4 [B5 [B6 [B7 B8]]]]]]].
    repeat split; congruence.
  - rewrite upload_route_answer. apply Hst.
  - apply Hst.
  - apply Hst.
Qed.

Lemma express_blank_serve_all (ffs : Z -> string) (rs : list ExpressServer.request)
    (st : ExpressServer.store) :
  (forall id s, assoc id st = Some s -> express_session_blank s) ->
  forall id s, assoc id (ExpressServer.serve_all ffs st rs) = Some s ->
  express_session_blank s.
Proof.
  revert st. induction rs as [|r rs IH]; intros st Hst; cbn [ExpressServer.serve_all];
    [exact Hst|].
  apply IH. apply express_blank_serve. exact Hst.
Qed.

(** Served from an empty store, whatever requests come in (uploads
    carrying a file), no session of the Express server ever holds an
    artifact or an uploaded file, and the report route answers every
    stored session with 200 and the report of a new session. *)
Theorem express_sessions_never_get_artifacts :
  forall ffs rs id s,
  let st := ExpressServer.serve_all ffs [] rs in
  assoc id st = Some s ->
  KeywordApi.context_artifacts s = [] /\ KeywordApi.uploadedFiles s = [] /\
  ExpressServer.report_route st id =
  Http 200 (JObj [("report", JStr (
    "## COMPAS Report – Nonprofit Challenge" ++ nl ++ nl
    ++ "### 0. Data / Context to Supply AI" ++ nl
    ++ "| Artifact | Current format | Owner | Prep needed | Upload method |" ++ nl
    ++ "|----------|----------------|-------|-------------|---------------|" ++ nl
    ++ nl ++ "### 1. Context (summary)" ++ nl
    ++ nl ++ "### 2. Objective (root problem)" ++ nl
    ++ "- To be defined" ++ nl
    ++ nl ++ "### 3. Chosen Method(s)" ++ nl
    ++ "- To be selected" ++ nl
    ++ nl ++ "### 4. Implementation Plan" ++ nl
    ++ nl ++ "### 5. Performance Measures" ++ nl
    ++ nl ++ "### 6. Learning Questions" ++ nl))]).
Proof.
  intros ffs rs id s st H.
  destruct (express_blank_serve_all ffs rs [] ltac:(discriminate) id s H)
    as [B1 [B2 [B3 [B4 [B5 [B6 [B7 B8]]]]]]].
  split; [exact B1|]. split; [exact B2|].
  unfold ExpressServer.report_route. rewrite H.
  unfold KeywordApi.express_report, KeywordApi.generateCOMPASReport.
  rewrite B1, B3, B4, B5, B6, B7, B8. reflexivity.
Qed.

(** The report of the Express server fails exactly when the objective or
    the chosen method cannot be converted to a string, or a context
    artifact is [null] or [undefined] or has a file name, MIME type, owner
    or source that cannot be, or a context fact, performance measure or
    learning question cannot be; the failure reaches the error middleware
    as 500 "Something broke!". *)
Theorem express_report_fails_iff :
  (forall s,
     KeywordApi.generateCOMPASReport s = None <->
     js_to_string (KeywordApi.objective s) = None
     \/ js_to_string (KeywordApi.chosenMethod s) = None
     \/ Exists (fun a => Exists (fun k => opt_bind (js_get a k) js_to_string = None)
                                ["filename"; "mimetype"; "owner"; "source"])
               (KeywordApi.context_artifacts s)
     \/ Exists (fun x => js_to_string x = None)
               (app (KeywordApi.context_facts s)
                    (app (KeywordApi.performanceMeasures s) (KeywordApi.learningQuestions s))))
  /\ (forall (sessions : ExpressServer.store) id s,
     assoc id sessions = Some s -> KeywordApi.generateCOMPASReport s = None ->
     ExpressServer.report_route sessions id = ExpressServer.something_broke).
Proof.
  split.
  - intro s. rewrite generateCOMPASReport_none, !Exists_app.
    assert (Ea : Exists (fun a => KeywordApi.artifact_row a = None)
                        (KeywordApi.context_artifacts s) <->
                 Exists (fun a => Exists (fun k => opt_bind (js_get a k) js_to_string = None)
                                         ["filename"; "mimetype"; "owner"; "source"])
                        (KeywordApi.context_artifacts s)).
    { split; apply Exists_impl; intro a; apply artifact_row_none. }
    rewrite Ea. tauto.
  - intros sessions id s H E. unfold ExpressServer.report_route, KeywordApi.express_report.
    rewrite H, E. reflexivity.
Qed.

Lemma md_report_none_iff (s : KeywordApi.SessionState) (g : string) :
  KeywordApi.context_facts s = [] -> KeywordApi.implementationPlan s = JNull ->
  KeywordApi.performanceMeasures s = [] -> KeywordApi.learningQuestions s = [] ->
  ExpressServer.generateMarkdownReport s g = None <->
  KeywordApi.generateCOMPASReport s = None.
Proof.
  intros Hf Hp Hm Hq.
  unfold ExpressServer.generateMarkdownReport, KeywordApi.generateCOMPASReport.
  rewrite Hf, Hp, Hm, Hq. cbv zeta.
  rewrite (concat_each_ext _ _ _ md_artifact_row_eq).
  cbn [KeywordApi.concat_each truthy opt_bind].
  opt_chain; split; congruence.
Qed.

(** On a session created by [new SessionState(id)], whatever operations
    follow: the simple-api.js report text stays the one of a new session;
    the Markdown export's report fails exactly when the Express report
    fails (a [null] or [undefined] artifact); and the Express report,
    when it succeeds, is titled "COMPAS Report – Nonprofit Challenge". *)
Theorem keyword_reports_never_filled :
  forall id ops,
  let s := keyword_run (KeywordApi.new_SessionState id) ops in
  KeywordApi.netlify_report_text s =
    KeywordApi.netlify_report_text (KeywordApi.new_SessionState id) /\
  (forall g, ExpressServer.generateMarkdownReport s g = None <->
             KeywordApi.generateCOMPASReport s = None) /\
  (forall r, KeywordApi.generateCOMPASReport s = Some r ->
             String.prefix ("## COMPAS Report – Nonprofit Challenge" ++ nl) r = true).
Proof.
  intros id ops s.
  destruct (keyword_run_frame (KeywordApi.new_SessionState id) ops)
    as [E1 [E2 [E3 [E4 [E5 [E6 [E7 [E8 [E9 E10]]]]]]]]].
  fold s in E1, E2, E3, E4, E5, E6, E7, E8, E9, E10. cbn in E1, E2, E3, E4, E5, E6, E7, E8.
  split; [|split].
  - unfold KeywordApi.netlify_report_text. rewrite E2, E3. reflexivity.
  - intro g. apply md_report_none_iff; assumption.
  - intros r H. unfold KeywordApi.generateCOMPASReport in H. rewrite E3, E5 in H.
    cbn [js_or truthy js_to_string opt_bind] in H.
    destruct (KeywordApi.concat_each KeywordApi.artifact_row _); [|discriminate].
    rewrite E2, E7, E8 in H. cbn in H. injection H as <-. vm_compute. reflexivity.
Qed.

(** ** Stage start times of the assisted session *)

Lemma analyze_times (s : AssistedApi.SessionState) (m : jsval)
    (a : AssistedApi.analysis_outcome) (now : Z) :
  let s' := fst (AssistedApi.analyzeAndProgressStage s m a now) in
  AssistedApi.startTime s' = AssistedApi.startTime s /\
  AssistedApi.sessionId s' = AssistedApi.sessionId s /\
  ((AssistedApi.stage s' = AssistedApi.stage s /\
    AssistedApi.stageStartTimes s' = AssistedApi.stageStartTimes s) \/
   (exists n, nextStage (AssistedApi.stage s) = Some n /\ AssistedApi.stage s' = n /\
      AssistedApi.stageStartTimes s' =
        set_prop (stage_key n) now (AssistedApi.stageStartTimes s))).
Proof.
  pose proof (AssistedFacts.analyze_shape s m a now) as Hshape; cbv zeta in *.
  set (s' := fst (AssistedApi.analyzeAndProgressStage s m a now)) in *.
  destruct Hshape as [Es' | [[ed Es'] | [s1 [s2 [n [Hs1 [Hs2 [Hn Es']]]]]]]].
  - rewrite Es'. auto.
  - destruct (AssistedFacts.updateStageData_fields _ _ _ _ Es') as [H1 [_ [H3 [H4 H5]]]].
    auto.
  - assert (F1 : AssistedApi.stage s1 = AssistedApi.stage s /\
                 AssistedApi.startTime s1 = AssistedApi.startTime s /\
                 AssistedApi.stageStartTimes s1 = AssistedApi.stageStartTimes s /\
                 AssistedApi.sessionId s1 = AssistedApi.sessionId s).
    { destruct Hs1 as [-> | [ed E]]; [auto|].
      destruct (AssistedFacts.updateStageData_fields _ _ _ _ E) as [H1 [_ [H3 [H4 H5]]]].
      auto. }
    destruct F1 as [G1 [G3 [G4 G5]]].
    destruct (AssistedFacts.updateStageData_fields _ _ _ _ Hs2) as [H1 [_ [H3 [H4 H5]]]].
    rewrite Es'. cbn. split; [congruence|]. split; [congruence|].
    right. exists n. rewrite <- G1. split; [exact Hn|]. split; [reflexivity|].
    rewrite H4, G4. reflexivity.
Qed.

Lemma assisted_step_times (s : AssistedApi.SessionState) (o : AssistedApi.op) :
  let s' := AssistedApi.step s o in
  AssistedApi.startTime s' = AssistedApi.startTime s /\
  AssistedApi.sessionId s' = AssistedApi.sessionId s /\
  ((AssistedApi.stage s' = AssistedApi.stage s /\
    AssistedApi.stageStartTimes s' = AssistedApi.stageStartTimes s) \/
   (exists n now, nextStage (AssistedApi.stage s) = Some n /\ AssistedApi.stage s' = n /\
      AssistedApi.stageStartTimes s' =
        set_prop (stage_key n) now (AssistedApi.stageStartTimes s))).
Proof.
  cbv zeta. destruct o as [m t1 t2 t3 [x|e] an | d nw].
  - unfold AssistedApi.step. rewrite AssistedFacts.chat_fst_ok.
    destruct (analyze_times
      (AssistedApi.addMessage (AssistedApi.addMessage s "user" m t1) "assistant" (JStr x) t2)
      m an t3) as [H1 [H2 [H3 | [n [Hn [Hs Ht]]]]]];
      cbn in *; split; auto; split; auto; right; eauto.
  - cbn. auto.
  - unfold AssistedApi.step. rewrite AssistedFacts.report_fst. auto.
Qed.

Lemma assisted_run_times (s : AssistedApi.SessionState) (ops : list AssistedApi.op) :
  (forall p, assoc (stage_key p) (AssistedApi.stageStartTimes s) <> None <->
             stage_rank p <= stage_rank (AssistedApi.stage s)) ->
  let s' := AssistedApi.run s ops in
  AssistedApi.startTime s' = AssistedApi.startTime s /\
  AssistedApi.sessionId s' = AssistedApi.sessionId s /\
  (forall p, assoc (stage_key p) (AssistedApi.stageStartTimes s') <> None <->
             stage_rank p <= stage_rank (AssistedApi.stage s')).
Proof.
  revert s. induction ops as [|o ops IH]; intros s Hinv; cbv zeta.
  - cbn. auto.
  - cbn [AssistedApi.run].
    destruct (assisted_step_times s o) as [H1 [H2 H3]]; cbv zeta in *.
    assert (Hinv' : forall p,
      assoc (stage_key p) (AssistedApi.stageStartTimes (AssistedApi.step s o)) <> None <->
      stage_rank p <= stage_rank (AssistedApi.stage (AssistedApi.step s o))).
    { intro p. destruct H3 as [[Hs Ht] | [n [now [Hn [Hs Ht]]]]].
      - rewrite Hs, Ht. apply Hinv.
      - rewrite Hs, Ht, assoc_set_prop, stage_key_eqb.
        pose proof (nextStage_rank _ _ Hn) as Hr.
        destruct (Nat.eqb_spec (stage_rank p) (stage_rank n)) as [E|E].
        + split; [lia | discriminate].
        + rewrite Hinv. lia. }
    destruct (IH _ Hinv') as [G1 [G2 G3]]. rewrite G1, G2, H1, H2. auto.
Qed.

(** In a session of test.js, whatever chat turns and reports follow its
    creation, [startTime] and the session id keep their initial values,
    and [stageStartTimes] has an entry for a stage exactly when that stage
    is the current one or comes before it. *)
Theorem assisted_stage_start_times :
  forall id t0 t1 ops,
  let s := AssistedApi.run (AssistedApi.new_SessionState id t0 t1) ops in
  AssistedApi.startTime s = t0 /\ AssistedApi.sessionId s = id /\
  (forall p, assoc (stage_key p) (AssistedApi.stageStartTimes s) <> None <->
             stage_rank p <= stage_rank (AssistedApi.stage s)).
Proof.
  intros id t0 t1 ops s. apply assisted_run_times.
  intro p. cbn. destruct p; cbn; split; (discriminate || lia || congruence).
Qed.

(** ** The comprehensive report of test.js *)

Lemma if_nonempty_string (str : string) (a : unit -> option string) (b : string) :
  str <> "" -> AssistedApi.if_nonempty (JStr str) a b = a tt.
Proof.
  intro H. destruct str as [|c str]; [contradiction|]. reflexivity.
Qed.

Lemma comprehensive_report_string_stakeholders
    (s : AssistedApi.SessionState) (d : string) (n : Z) (r : obj) (str : string) :
  assoc "context_discovery" (AssistedApi.stageData s) = Some r ->
  assoc "stakeholders" r = Some (JStr str) -> str <> "" ->
  AssistedApi.generateComprehensiveReport s d n = None.
Proof.
  intros Hr Hst Hne. unfold AssistedApi.generateComprehensiveReport. cbv zeta.
  replace (AssistedApi.stage_record s "context_discovery") with (JObj r)
    by (unfold AssistedApi.stage_record; rewrite Hr; reflexivity).
  destruct (AssistedApi.field_or (JObj r) "situationDescription" "Challenge Analysis");
    cbn [opt_bind]; [|reflexivity].
  destruct (AssistedApi.field_or (JObj r) "situationDescription" "Not provided");
    cbn [opt_bind]; [|reflexivity].
  cbn [js_get]. rewrite Hst. cbn [opt_bind]. rewrite if_nonempty_string by exact Hne.
  reflexivity.
Qed.

(** A [stakeholders] value that is a non-empty string instead of an array
    (as the analysis result may give it) makes [generateComprehensiveReport]
    throw: [.map] is called on a string. One analysis whose
    [extractedData] is [{stakeholders: "<text>"}] during context discovery
    stores such a value, and from then on the PDF export of test.js answers
    500 "Failed to generate PDF". *)
Theorem string_stakeholders_break_report :
  (forall s d n r str,
     assoc "context_discovery" (AssistedApi.stageData s) = Some r ->
     assoc "stakeholders" r = Some (JStr str) -> str <> "" ->
     AssistedApi.generateComprehensiveReport s d n = None) /\
  (forall s m r str now d n,
     js_to_string m <> None ->
     AssistedApi.stage s = CONTEXT_DISCOVERY ->
     assoc "context_discovery" (AssistedApi.stageData s) = Some r -> str <> "" ->
     let a := JObj [("extractedData", JObj [("stakeholders", JStr str)])] in
     let s' := fst (AssistedApi.analyzeAndProgressStage s m (AssistedApi.AnalysisText (Some a)) now) in
     AssistedApi.stage s' = CONTEXT_DISCOVERY /\
     assoc "context_discovery" (AssistedApi.stageData s') =
       Some (set_prop "stakeholders" (JStr str) r) /\
     AssistedApi.generateComprehensiveReport s' d n = None) /\
  (forall sessions ev inp s,
     httpMethod ev = "POST" -> route_path ev <> "/sessions" ->
     includes (route_path ev) "/chat" = false ->
     includes (route_path ev) "/export/pdf" = true ->
     sessions_get sessions (path_segment2 (route_path ev)) = Some s ->
     AssistedApi.generateComprehensiveReport s (TestHandler.date_text inp)
       (TestHandler.now inp) = None ->
     TestHandler.handler sessions ev inp =
     (sessions, json_response 500 (JObj [("error", JStr "Failed to generate PDF")]))).
Proof.
  split; [|split].
  - exact comprehensive_report_string_stakeholders.
  - intros s m r str now d n Hm Hst Hr Hne a s'.
    assert (Es' : s' = AssistedApi.with_stageData s
               (set_prop "context_discovery" (set_prop "stakeholders" (JStr str) r)
                  (AssistedApi.stageData s))).
    { unfold s', a, AssistedApi.analyzeAndProgressStage.
      destruct (js_to_string m); [|contradiction].
      change (js_get (JObj [("extractedData", JObj [("stakeholders", JStr str)])])
                "extractedData")
        with (Some (JObj [("stakeholders", JStr str)])).
      cbv iota beta. change (truthy (JObj [("stakeholders", JStr str)])) with true.
      rewrite Hst. cbv iota beta.
      change (stage_key CONTEXT_DISCOVERY) with "context_discovery".
      rewrite (AssistedFacts.updateStageData_own _ _ r _ Hr).
      change (js_get (JObj [("extractedData", JObj [("stakeholders", JStr str)])])
                "shouldProgress") with (Some JUndef).
      reflexivity. }
    assert (Ec : assoc "context_discovery" (AssistedApi.stageData s') =
                 Some (set_prop "stakeholders" (JStr str) r)).
    { rewrite Es'. cbn [AssistedApi.stageData AssistedApi.with_stageData].
      rewrite assoc_set_prop, String.eqb_refl. reflexivity. }
    split; [rewrite Es'; exact Hst|]. split; [exact Ec|].
    apply (comprehensive_report_string_stakeholders _ _ _ _ str Ec); [|exact Hne].
    rewrite assoc_set_prop, String.eqb_refl. reflexivity.
  - intros sessions ev inp s Hm Hp Hc Hpdf Hs Hrep.
    unfold TestHandler.handler. cbv zeta. rewrite Hm. lit_reduce.
    destruct (String.eqb_spec (route_path ev) "/sessions") as [E|_]; [contradiction|].
    rewrite Hc, Hpdf. cbn [andb]. rewrite Hs, Hrep. reflexivity.
Qed.

(** ** Instances of the extra properties *)

Lemma get_sessions_prefix_shadows_report_witness :
  no_slash "abc" = true /\
  SimpleApiHandler.handler [("abc", KeywordApi.new_SessionState "abc")]
    (LEvent "GET" (function_prefix ++ "/sessions/" ++ "abc" ++ "/report") (ParseError "x"))
    (SimpleApiHandler.Inputs "n" (CompletionOk "ok") 1 2 "e") =
  ([("abc", KeywordApi.new_SessionState "abc")],
   json_response 200 (SimpleApiHandler.session_view (KeywordApi.new_SessionState "abc"))) /\
  TestHandler.handler [("abc", AssistedApi.new_SessionState "abc" 1 2)]
    (LEvent "GET" (function_prefix ++ "/sessions/" ++ "abc" ++ "/report") (ParseError "x"))
    (TestHandler.Inputs "n" 1 2 (CompletionOk "ok") (AssistedApi.AnalysisFail "e") 3 4 5
       "d" 6 "e" (fun _ => None) (fun _ => None)) =
  ([("abc", AssistedApi.new_SessionState "abc" 1 2)],
   json_response 200 (TestHandler.session_view (AssistedApi.new_SessionState "abc" 1 2))).
Proof.
  destruct get_sessions_prefix_shadows_report as [_ [_ [H3 H4]]].
  split; [reflexivity|]. split; [apply H3 | apply H4]; reflexivity.
Defined.

Lemma handlers_unknown_session_404_witness :
  let ev := LEvent "GET" (function_prefix ++ "/sessions/zz/report") (ParseError "x") in
  sessions_get ([] : SimpleApiHandler.store) (path_segment2 (route_path ev)) = None /\
  fst (SimpleApiHandler.handler [] ev (SimpleApiHandler.Inputs "n" (CompletionOk "ok") 1 2 "e")) = [] /\
  lstatusCode (snd (SimpleApiHandler.handler [] ev
    (SimpleApiHandler.Inputs "n" (CompletionOk "ok") 1 2 "e"))) = 404%Z /\
  fst (TestHandler.handler [] ev
    (TestHandler.Inputs "n" 1 2 (CompletionOk "ok") (AssistedApi.AnalysisFail "e") 3 4 5
       "d" 6 "e" (fun _ => None) (fun _ => None))) = [] /\
  lstatusCode (snd (TestHandler.handler [] ev
    (TestHandler.Inputs "n" 1 2 (CompletionOk "ok") (AssistedApi.AnalysisFail "e") 3 4 5
       "d" 6 "e" (fun _ => None) (fun _ => None)))) = 404%Z.
Proof.
  intro ev. destruct handlers_unknown_session_404 as [H1 H2].
  assert (Hm : httpMethod ev <> "OPTIONS") by (cbn; discriminate).
  assert (Hc : ~ (httpMethod ev = "POST" /\ route_path ev = "/sessions"))
    by (intros [E _]; cbn in E; discriminate).
  assert (Hn : sessions_get ([] : SimpleApiHandler.store) (path_segment2 (route_path ev)) = None)
    by reflexivity.
  destruct (H1 [] ev (SimpleApiHandler.Inputs "n" (CompletionOk "ok") 1 2 "e") Hm Hc Hn) as [A B].
  destruct (H2 [] ev (TestHandler.Inputs "n" 1 2 (CompletionOk "ok")
              (AssistedApi.AnalysisFail "e") 3 4 5 "d" 6 "e" (fun _ => None) (fun _ => None))
              Hm Hc eq_refl) as [C D].
  repeat split; assumption.
Defined.

Lemma chat_malformed_body_witness :
  let ev := LEvent "POST" "/sessions/abc/chat" (Parsed JNull) in
  read_message (Parsed JNull) = inl (destructure_message JNull) /\
  SimpleApiHandler.handler [("abc", KeywordApi.new_SessionState "abc")] ev
    (SimpleApiHandler.Inputs "n" (CompletionOk "ok") 1 2 "e") =
  ([("abc", KeywordApi.new_SessionState "abc")], server_error (destructure_message JNull)) /\
  TestHandler.handler [("abc", AssistedApi.new_SessionState "abc" 1 2)] ev
    (TestHandler.Inputs "n" 1 2 (CompletionOk "ok") (AssistedApi.AnalysisFail "e") 3 4 5
       "d" 6 "e" (fun _ => None) (fun _ => None)) =
  ([("abc", AssistedApi.new_SessionState "abc" 1 2)], server_error (destructure_message JNull)).
Proof.
  intro ev. destruct chat_malformed_body as [Hiff [H2 H3]].
  assert (Hr : read_message (body_json ev) = inl (destructure_message JNull)).
  { apply Hiff. right. exists JNull. split; [reflexivity|]. split; [left|]; reflexivity. }
  split; [exact Hr|]. split.
  - rewrite (H2 _ ev _ _ eq_refl eq_refl Hr). reflexivity.
  - rewrite (H3 _ ev _ _ eq_refl eq_refl Hr). reflexivity.
Defined.

Lemma create_session_route_witness :
  let ev := LEvent "POST" (function_prefix ++ "/sessions") (ParseError "x") in
  assoc "n" (fst (SimpleApiHandler.handler [("old", KeywordApi.new_SessionState "old")] ev
                    (SimpleApiHandler.Inputs "n" (CompletionOk "ok") 1 2 "e"))) =
    Some (KeywordApi.new_SessionState "n") /\
  assoc "old" (fst (SimpleApiHandler.handler [("old", KeywordApi.new_SessionState "old")] ev
                      (SimpleApiHandler.Inputs "n" (CompletionOk "ok") 1 2 "e"))) =
    Some (KeywordApi.new_SessionState "old") /\
  assoc "n" (fst (TestHandler.handler [] ev
    (TestHandler.Inputs "n" 1 2 (CompletionOk "ok") (AssistedApi.AnalysisFail "e") 3 4 5
       "d" 6 "e" (fun _ => None) (fun _ => None)))) =
    Some (AssistedApi.new_SessionState "n" 1 2).
Proof.
  intro ev. destruct create_session_route as [H1 H2].
  pose proof (H1 [("old", KeywordApi.new_SessionState "old")] ev
                 (SimpleApiHandler.Inputs "n" (CompletionOk "ok") 1 2 "e") eq_refl
                 (route_path_prefixed _ _ _)) as K1.
  pose proof (H2 [] ev (TestHandler.Inputs "n" 1 2 (CompletionOk "ok")
                 (AssistedApi.AnalysisFail "e") 3 4 5 "d" 6 "e" (fun _ => None) (fun _ => None))
                 eq_refl (route_path_prefixed _ _ _)) as K2.
  cbv zeta in K1, K2. destruct K1 as [_ [A B]]. destruct K2 as [_ [C _]].
  split; [exact A|]. split; [apply B; discriminate | exact C].
Defined.

Lemma handlers_store_isolation_witness :
  let ev := LEvent "POST" (function_prefix ++ "/sessions/b/chat")
              (Parsed (JObj [("message", JStr "hello")])) in
  assoc "a" (fst (SimpleApiHandler.handler
     [("a", KeywordApi.new_SessionState "a"); ("b", KeywordApi.new_SessionState "b")] ev
     (SimpleApiHandler.Inputs "n" (CompletionOk "ok") 1 2 "e"))) =
  Some (KeywordApi.new_SessionState "a") /\
  assoc "a" (fst (TestHandler.handler
     [("a", AssistedApi.new_SessionState "a" 1 2); ("b", AssistedApi.new_SessionState "b" 1 2)] ev
     (TestHandler.Inputs "n" 1 2 (CompletionOk "ok") (AssistedApi.AnalysisFail "e") 3 4 5
        "d" 6 "e" (fun _ => None) (fun _ => None)))) =
  Some (AssistedApi.new_SessionState "a" 1 2).
Proof.
  intro ev. destruct handlers_store_isolation as [H1 H2].
  assert (Hs : path_segment2 (route_path ev) <> Some "a") by (vm_compute; discriminate).
  split.
  - rewrite H1; [reflexivity | exact Hs | discriminate].
  - rewrite H2; [reflexivity | exact Hs | discriminate].
Defined.

Lemma chat_url_round_trip_witness :
  no_slash "abc" = true /\
  SimpleApiHandler.handler [("abc", KeywordApi.new_SessionState "abc")]
    (LEvent "POST" (function_prefix ++ "/sessions/" ++ "abc" ++ "/chat")
       (Parsed (JObj [("message", JStr "hello")])))
    (SimpleApiHandler.Inputs "n" (CompletionOk "ok") 1 2 "e") =
  (set_prop "abc" (fst (KeywordApi.netlify_chat (KeywordApi.new_SessionState "abc")
                          (JStr "hello") 1 2 (CompletionOk "ok")))
     [("abc", KeywordApi.new_SessionState "abc")],
   from_http (snd (KeywordApi.netlify_chat (KeywordApi.new_SessionState "abc")
                     (JStr "hello") 1 2 (CompletionOk "ok")))) /\
  TestHandler.handler [("abc", AssistedApi.new_SessionState "abc" 1 2)]
    (LEvent "POST" (function_prefix ++ "/sessions/" ++ "abc" ++ "/chat")
       (Parsed (JObj [("message", JStr "hello")])))
    (TestHandler.Inputs "n" 1 2 (CompletionOk "ok") (AssistedApi.AnalysisFail "e") 3 4 5
       "d" 6 "e" (fun _ => None) (fun _ => None)) =
  (set_prop "abc" (fst (AssistedApi.chat (AssistedApi.new_SessionState "abc" 1 2)
                          (JStr "hello") 3 4 5 (CompletionOk "ok") (AssistedApi.AnalysisFail "e")))
     [("abc", AssistedApi.new_SessionState "abc" 1 2)],
   from_http (snd (AssistedApi.chat (AssistedApi.new_SessionState "abc" 1 2)
                     (JStr "hello") 3 4 5 (CompletionOk "ok") (AssistedApi.AnalysisFail "e")))).
Proof.
  destruct chat_url_round_trip as [H1 H2].
  split; [reflexivity|]. split.
  - rewrite (H1 _ "abc" (KeywordApi.new_SessionState "abc")); reflexivity.
  - rewrite (H2 _ "abc" (AssistedApi.new_SessionState "abc" 1 2)); reflexivity.
Defined.

Lemma express_unknown_session_witness :
  ExpressServer.get_route [] "zz" = ExpressServer.not_found /\
  ExpressServer.upload_route (fun _ => "") [] "zz"
    (ExpressServer.UploadedFile "a.pdf" "uploads/x" 100 "application/pdf") [] "id1" 7 =
    ([], Http 400 (JObj [("error", JStr "File validation failed");
                         ("errors", JArr [JStr "File type (undefined) is not supported. Allowed types: PDF, CSV, JSON, TXT"])])) /\
  ExpressServer.export_route [] "zz" (JStr "markdown")
    (ExpressServer.ExportInputs "exports" "now" 7 true true true) =
    (ExpressServer.ExportJson 404 (JObj [("error", JStr "Session not found")]), []).
Proof.
  destruct (express_unknown_session [] "zz" eq_refl) as [A [_ [C [_ E]]]].
  split; [exact A|]. split; [|apply E].
  apply C; [reflexivity | unfold ExpressServer.fileSize_limit; cbn; lia].
Defined.

Lemma express_upload_route_witness :
  ExpressServer.upload_route (fun _ => "") [("abc", KeywordApi.new_SessionState "abc")] "abc"
    (ExpressServer.UploadedFile "a.png" "uploads/x" 100 "image/png") [] "id1" 7 =
    ([("abc", KeywordApi.new_SessionState "abc")], ExpressServer.something_broke) /\
  ExpressServer.upload_route (fun _ => "") [("abc", KeywordApi.new_SessionState "abc")] "abc"
    (ExpressServer.UploadedFile "a.pdf" "uploads/x" 100 "application/pdf")
    [("sensitivity", JStr "high")] "id1" 7 =
    ([("abc", KeywordApi.new_SessionState "abc")],
     Http 400 (JObj [("error", JStr "File validation failed");
                     ("errors", JArr [JStr "File type (undefined) is not supported. Allowed types: PDF, CSV, JSON, TXT"])])).
Proof.
  split; rewrite express_upload_route; reflexivity.
Defined.


Lemma keyword_reports_never_filled_witness :
  let art := ExpressServer.build_artifact "id1"
               (ExpressServer.UploadedFile "a.pdf" "uploads/x" 100 "application/pdf") [] 7 in
  let s := keyword_run (KeywordApi.new_SessionState "abc")
             [KeywordApi.Upload art; KeywordApi.ReportExpress] in
  exists r, KeywordApi.generateCOMPASReport s = Some r /\
            String.prefix ("## COMPAS Report – Nonprofit Challenge" ++ nl) r = true.
Proof.
  intros art s.
  destruct (keyword_reports_never_filled "abc" [KeywordApi.Upload art; KeywordApi.ReportExpress])
    as [_ [_ H3]].
  match goal with |- exists r, ?L = Some r /\ _ =>
    let v := eval vm_compute in L in
    match v with Some ?x => exists x end end.
  split; [vm_compute; reflexivity|].
  apply H3. vm_compute. reflexivity.
Defined.

Lemma string_stakeholders_break_report_witness :
  let s0 := AssistedApi.new_SessionState "abc" 1 2 in
  let a := JObj [("extractedData", JObj [("stakeholders", JStr "Board")])] in
  let s1 := fst (AssistedApi.analyzeAndProgressStage s0 (JStr "hi")
                   (AssistedApi.AnalysisText (Some a)) 5) in
  AssistedApi.generateComprehensiveReport s1 "d" 6 = None /\
  TestHandler.handler [("abc", s1)]
    (LEvent "POST" (function_prefix ++ "/sessions/abc/export/pdf") (ParseError "x"))
    (TestHandler.Inputs "n" 1 2 (CompletionOk "ok") (AssistedApi.AnalysisFail "e") 3 4 5
       "d" 6 "e" (fun t => Some t) (fun _ => None)) =
  ([("abc", s1)], json_response 500 (JObj [("error", JStr "Failed to generate PDF")])).
Proof.
  intros s0 a s1. destruct string_stakeholders_break_report as [_ [H2 H3]].
  assert (K : AssistedApi.generateComprehensiveReport s1 "d" 6 = None).
  { destruct (H2 s0 (JStr "hi") (match assoc "context_discovery" (AssistedApi.stageData s0) with
                     | Some r => r | None => [] end) "Board" 5%Z "d" 6%Z)
      as [_ [_ K]]; [discriminate | reflexivity | reflexivity | discriminate | exact K]. }
  split; [exact K|].
  apply (H3 _ _ _ s1); [reflexivity | vm_compute; discriminate | vm_compute; reflexivity
            | vm_compute; reflexivity | reflexivity | exact K].
Defined.

Lemma express_sessions_never_get_artifacts_witness :
  let rs := [ExpressServer.ReqCreate "abc";
             ExpressServer.ReqUpload "abc"
               (ExpressServer.UploadedFile "a.pdf" "uploads/x" 100 "application/pdf")
               [] "id1" 7] in
  let st := ExpressServer.serve_all (fun _ => "") [] rs in
  exists s, assoc "abc" st = Some s /\ KeywordApi.context_artifacts s = [].
Proof.
  intros rs st.
  exists (KeywordApi.new_SessionState "abc").
  assert (E : assoc "abc" st = Some (KeywordApi.new_SessionState "abc"))
    by (vm_compute; reflexivity).
  split; [exact E|].
  exact (proj1 (express_sessions_never_get_artifacts (fun _ => "") rs "abc" _ E)).
Defined.

Lemma express_report_fails_iff_witness :
  let s := fst (KeywordApi.express_upload (KeywordApi.new_SessionState "abc") JNull) in
  KeywordApi.generateCOMPASReport s = None /\
  ExpressServer.report_route [("abc", s)] "abc" = ExpressServer.something_broke.
Proof.
  intros s.
  assert (K : KeywordApi.generateCOMPASReport s = None) by (vm_compute; reflexivity).
  split; [exact K|].
  exact (proj2 express_report_fails_iff [("abc", s)] "abc" s eq_refl K).
Defined.
